(** * weather-dashboard: the data aggregation of [shared-data.js] and the edge relay

    A shallow embedding of the JavaScript sources.  Numbers are IEEE 754
    binary64 values (the kernel's primitive floats), data read from
    [JSON.parse] is a tree of values, a [try]/[catch] is a match on a
    completion, and the library functions of the JavaScript runtime
    ([JSON.parse], [Math.round], [parseFloat], [toFixed], [Date], [URL]) are
    the fields of a [Runtime] record the program is written against. *)

From Stdlib Require Import ZArith List String Ascii Bool Lia Floats DecimalString.
Import ListNotations.

#[local] Set Warnings "-register-all,-inexact-float".
Local Open Scope string_scope.

(** ** JavaScript values *)

Module JS.

(** Primitive values. *)
Inductive primitive : Type :=
| PUndefined
| PNull
| PBool (b : bool)
| PNum (x : float)
| PStr (s : string).

(** Values as [JSON.parse] builds them, and [undefined]: a primitive, an
    array, or a plain object (its own properties, in insertion order). *)
Inductive value : Type :=
| VPrim (p : primitive)
| VArr (elems : list value)
| VObj (props : list (string * value)).

Definition undefined : value := VPrim PUndefined.
Definition null : value := VPrim PNull.
Definition VNum (x : float) : value := VPrim (PNum x).
Definition VStr (s : string) : value := VPrim (PStr s).

(** Exceptions the modelled code can meet; [what] says where. *)
Inductive exn : Type :=
| TypeError (what : string)
| SyntaxError (what : string)
| RangeError (what : string).

(** The result of evaluating an expression or a block: a value, or an
    exception on its way to the nearest [catch]. *)
Inductive completion (A : Type) : Type :=
| Normal (a : A)
| Throw (e : exn).
Arguments Normal {A} a.
Arguments Throw {A} e.

Definition bind {A B : Type} (c : completion A) (k : A -> completion B)
  : completion B :=
  match c with
  | Normal a => k a
  | Throw e => Throw e
  end.

(** [ToBoolean]. *)
Definition truthy_prim (p : primitive) : bool :=
  match p with
  | PUndefined | PNull => false
  | PBool b => b
  | PNum x => negb (PrimFloat.eqb x 0 || PrimFloat.is_nan x)
  | PStr s => negb (String.eqb s "")
  end.

Definition truthy (v : value) : bool :=
  match v with
  | VPrim p => truthy_prim p
  | VArr _ | VObj _ => true
  end.

(** [a || b]. *)
Definition or_else (a b : value) : value := if truthy a then a else b.
Definition or_else_prim (a b : primitive) : primitive :=
  if truthy_prim a then a else b.

Fixpoint assoc (k : string) (l : list (string * value)) : option value :=
  match l with
  | [] => None
  | (k', v) :: l' => if String.eqb k k' then Some v else assoc k l'
  end.

(** [o.k] for a name [k] that no prototype defines: a [TypeError] on
    [undefined] and [null], the own property of an object, [undefined]
    on every other value. *)
Definition get (o : value) (k : string) : completion value :=
  match o with
  | VPrim PUndefined | VPrim PNull => Throw (TypeError k)
  | VObj props =>
      Normal (match assoc k props with Some v => v | None => undefined end)
  | _ => Normal undefined
  end.

Definition nat_key (i : nat) : string :=
  NilZero.string_of_uint (Nat.to_uint i).

(** [o[i]] for an index literal [i]: an element of an array, a character of
    a string, the property named by the digits of [i] of an object. *)
Definition index (o : value) (i : nat) : completion value :=
  match o with
  | VPrim PUndefined | VPrim PNull => Throw (TypeError (nat_key i))
  | VArr elems => Normal (nth i elems undefined)
  | VPrim (PStr s) =>
      Normal (match String.get i s with
              | Some c => VStr (String c EmptyString)
              | None => undefined
              end)
  | VObj props =>
      Normal (match assoc (nat_key i) props with
              | Some v => v
              | None => undefined
              end)
  | _ => Normal undefined
  end.

(** [a[x]] for an array literal [a] of strings and a number [x]: the element
    whose index equals [x] (so [-0] reads element 0), otherwise [undefined]
    (a fraction, a negative number, [NaN], an index past the end). *)
Fixpoint index_number_from (i : float) (a : list string) (x : float)
  : primitive :=
  match a with
  | [] => PUndefined
  | s :: a' =>
      if PrimFloat.eqb x i then PStr s
      else index_number_from (PrimFloat.add i 1) a' x
  end.

Definition index_number (a : list string) (x : float) : primitive :=
  index_number_from 0%float a x.

(** [v === x] for a number [x]. *)
Definition strict_eq_num (v : value) (x : float) : bool :=
  match v with
  | VPrim (PNum y) => PrimFloat.eqb y x
  | _ => false
  end.

Definition is_primitive (v : value) : bool :=
  match v with
  | VPrim _ => true
  | VArr _ | VObj _ => false
  end.

(** [typeof v === 'string']. *)
Definition is_string (v : value) : bool :=
  match v with
  | VPrim (PStr _) => true
  | _ => false
  end.

End JS.
Import JS.

Notation "x <- c ;; k" := (JS.bind c (fun x => k))
  (at level 61, c at next level, right associativity).

(** ** The runtime *)

(** A parsed URL ([new URL(s)]): its components, the query as the list of
    name-value pairs behind [searchParams]. *)
Record URL : Type := mkURL {
  protocol : string;
  username : string;
  password : string;
  hostname : string;
  port : string;
  pathname : string;
  searchParams : list (string * string);
  hash : string
}.

(** The library functions the sources call.  Their results depend on the
    engine (messages, number printing), on the locale and time zone (dates)
    or on long standard algorithms (JSON, URL parsing); the program is
    modelled for any runtime. *)
Class Runtime : Type := {
  (** [JSON.parse(text)], throwing a [SyntaxError]. *)
  JSON_parse : string -> completion value;
  (** [Math.round] on a number. *)
  Math_round : float -> float;
  (** [parseFloat] on a string. *)
  parseFloat : string -> float;
  (** [x.toFixed(digits)] on a number. *)
  toFixed : float -> Z -> string;
  (** [ToNumber] on a string, [ToString] on a number. *)
  StringToNumber : string -> float;
  NumberToString : float -> string;
  (** [ToPrimitive] on an array or a plain object: their [toString], or a
      [TypeError] when the data shadows it with something not callable. *)
  ObjectToPrimitive : value -> completion primitive;
  (** [e.message]. *)
  message : exn -> string;
  (** Dates are their time value: [Date.parse], [TimeClip], and the getters
      in local time. *)
  Date_parse : string -> float;
  TimeClip : float -> float;
  getDay : float -> float;
  getMonth : float -> float;
  getDate : float -> float;
  getHours : float -> float;
  getMinutes : float -> float;
  (** [new URL(s)], throwing a [TypeError], and [u.toString()]. *)
  URL_parse : string -> completion URL;
  URL_toString : URL -> string
}.

Section Conversions.
Context {R : Runtime}.

Definition ToPrimitive (v : value) : completion primitive :=
  match v with
  | VPrim p => Normal p
  | VArr _ | VObj _ => ObjectToPrimitive v
  end.

Definition ToNumber_prim (p : primitive) : float :=
  match p with
  | PUndefined => PrimFloat.nan
  | PNull => 0%float
  | PBool b => if b then 1%float else 0%float
  | PNum x => x
  | PStr s => StringToNumber s
  end.

Definition ToNumber (v : value) : completion float :=
  p <- ToPrimitive v ;; Normal (ToNumber_prim p).

Definition ToString_prim (p : primitive) : string :=
  match p with
  | PUndefined => "undefined"
  | PNull => "null"
  | PBool b => if b then "true" else "false"
  | PNum x => NumberToString x
  | PStr s => s
  end.

(** [new Date(v)]: the time value of the new date. *)
Definition Date_new (v : value) : completion float :=
  p <- ToPrimitive v ;;
  Normal (match p with
          | PStr s => Date_parse s
          | _ => TimeClip (ToNumber_prim p)
          end).

(** [v.toFixed(5)]: only a number has the method. *)
Definition call_toFixed (v : value) (digits : Z) : completion string :=
  match v with
  | VPrim (PNum x) => Normal (toFixed x digits)
  | _ => Throw (TypeError "toFixed")
  end.

End Conversions.

(** ** shared-data.js *)

Module SharedData.

Local Open Scope float_scope.

Definition sun : string := "☀️".
Definition cloud : string := "☁️".
Definition rain : string := "🌧️".
Definition snow : string := "❄️".
Definition storm : string := "⛈️".

(** The display record [processed] and its three parts. *)
Module Current.
Record t : Type := make {
  tempC : float;
  tempF : float;
  feelsLikeC : float;
  feelsLikeF : float;
  humidity : value;
  windSpeed : float;
  weatherCode : value;
  icon : string
}.
End Current.

Module Today.
Record t : Type := make {
  highC : float;
  highF : float;
  lowC : float;
  lowF : float;
  rainChance : value;
  sunrise : float;
  sunset : float
}.
End Today.

Module Forecast.
Record t : Type := make {
  day : primitive;
  highC : float;
  highF : float;
  lowC : float;
  lowF : float;
  icon : string;
  rainChance : value
}.
End Forecast.

Record processed : Type := mkProcessed {
  current : Current.t;
  today : Today.t;
  forecast : list Forecast.t
}.

(** What [fetchWeather] hands to its callback: [callback({ error: e })] or
    [callback(null, processed)].  The callback is the caller's; it is taken
    to return normally. *)
Inductive weather_callback : Type :=
| callback_error (error : value)
| callback_data (data : processed).

(** The three requests of [fetchCurrency]: [xhr1] asks OXR, [xhr2] ECB,
    [xhr3] Alt. *)
Inductive request : Type := xhr1 | xhr2 | xhr3.

(** The events a request delivers to its handlers. *)
Inductive xhr_event : Type :=
| onload (x : request) (status : Z) (responseText : string)
| onerror (x : request).

Definition event_request (e : xhr_event) : request :=
  match e with
  | onload x _ _ => x
  | onerror x => x
  end.

(** The objects stored in [results]. *)
Module OxrEntry.
Record t : Type := make { rate : string; dateTime : string }.
End OxrEntry.

Module EcbEntry.
Record t : Type := make { rate : string; date : value }.
End EcbEntry.

Module AltEntry.
Record t : Type := make { rate : string; dateTime : primitive }.
End AltEntry.

(** [results]; [None] is [null]. *)
Module Results.
Record t : Type := make {
  oxr : option OxrEntry.t;
  ecb : option EcbEntry.t;
  alt : option AltEntry.t
}.
End Results.

(** The second argument of the callback of [fetchCurrency]. *)
Module Currency.
Record t : Type := make {
  rate : string;
  source : string;
  status : string;
  details : Results.t
}.
End Currency.

(** One call [callback(error, data)]. *)
Record currency_callback : Type := mkCallback {
  cb_error : value;
  cb_data : Currency.t
}.

(** The argument [thresholds]: what [thresholds.low] and [thresholds.high]
    read, [PUndefined] for a missing property.  The thresholds are
    configuration numbers; any primitive is admitted. *)
Record thresholds : Type := mkThresholds {
  low : primitive;
  high : primitive
}.

(** The variables the handlers of one call of [fetchCurrency] share, and
    the calls of [callback] made so far. *)
Record closure : Type := mkClosure {
  lowThreshold : primitive;
  highThreshold : primitive;
  results : Results.t;
  completed : nat;
  calls : list currency_callback
}.

Section WithRuntime.
Context {R : Runtime}.

(** *** Helpers *)

Definition padZero (num : float) : string :=
  if num <? 10 then "0" ++ NumberToString num else "" ++ NumberToString num.

(** [code <= c] for a number [c]. *)
Definition le_num (code : value) (c : float) : completion bool :=
  x <- ToNumber code ;; Normal (x <=? c).

Definition getWeatherIcon (code : value) : completion string :=
  if strict_eq_num code 0 then Normal sun
  else
    b3 <- le_num code 3 ;;
    if b3 : bool then Normal cloud
    else
      b67 <- le_num code 67 ;;
      if b67 : bool then Normal rain
      else
        b77 <- le_num code 77 ;;
        if b77 : bool then Normal snow
        else
          b99 <- le_num code 99 ;;
          if b99 : bool then Normal storm
          else Normal sun.

(** *** fetchWeather *)

Definition days : list string :=
  ["Sun"; "Mon"; "Tue"; "Wed"; "Thu"; "Fri"; "Sat"].

Definition getDayName (dateStr : value) : completion primitive :=
  date <- Date_new dateStr ;;
  Normal (index_number days (getDay date)).

(** [Math.round(v)] and [Math.round(v * 9/5 + 32)]. *)
Definition round_value (v : value) : completion float :=
  x <- ToNumber v ;; Normal (Math_round x).

Definition round_fahrenheit (v : value) : completion float :=
  x <- ToNumber v ;; Normal (Math_round (x * 9 / 5 + 32)).

(** [data.current.k] and [data.daily.k[i]]. *)
Definition current_field (data : value) (k : string) : completion value :=
  c <- get data "current" ;; get c k.

Definition daily_field (data : value) (k : string) (i : nat)
  : completion value :=
  d <- get data "daily" ;; a <- get d k ;; index a i.

Definition build_current (data : value) : completion Current.t :=
  tempC <- (v <- current_field data "temperature_2m" ;; round_value v) ;;
  tempF <- (v <- current_field data "temperature_2m" ;; round_fahrenheit v) ;;
  feelsLikeC <-
    (v <- current_field data "apparent_temperature" ;; round_value v) ;;
  feelsLikeF <-
    (v <- current_field data "apparent_temperature" ;; round_fahrenheit v) ;;
  humidity <- current_field data "relative_humidity_2m" ;;
  windSpeed <- (v <- current_field data "wind_speed_10m" ;; round_value v) ;;
  weatherCode <- current_field data "weather_code" ;;
  icon <- (v <- current_field data "weather_code" ;; getWeatherIcon v) ;;
  Normal (Current.make tempC tempF feelsLikeC feelsLikeF humidity windSpeed
            weatherCode icon).

Definition build_today (data : value) : completion Today.t :=
  highC <- (v <- daily_field data "temperature_2m_max" 0 ;; round_value v) ;;
  highF <-
    (v <- daily_field data "temperature_2m_max" 0 ;; round_fahrenheit v) ;;
  lowC <- (v <- daily_field data "temperature_2m_min" 0 ;; round_value v) ;;
  lowF <-
    (v <- daily_field data "temperature_2m_min" 0 ;; round_fahrenheit v) ;;
  rainChance <-
    (v <- daily_field data "precipitation_probability_max" 0 ;;
     Normal (or_else v (VNum 0))) ;;
  sunrise <- (v <- daily_field data "sunrise" 0 ;; Date_new v) ;;
  sunset <- (v <- daily_field data "sunset" 0 ;; Date_new v) ;;
  Normal (Today.make highC highF lowC lowF rainChance sunrise sunset).

(** The object pushed by one turn of the loop. *)
Definition build_forecast (data : value) (i : nat) : completion Forecast.t :=
  day <- (v <- daily_field data "time" i ;; getDayName v) ;;
  highC <- (v <- daily_field data "temperature_2m_max" i ;; round_value v) ;;
  highF <-
    (v <- daily_field data "temperature_2m_max" i ;; round_fahrenheit v) ;;
  lowC <- (v <- daily_field data "temperature_2m_min" i ;; round_value v) ;;
  lowF <-
    (v <- daily_field data "temperature_2m_min" i ;; round_fahrenheit v) ;;
  icon <- (v <- daily_field data "weather_code" i ;; getWeatherIcon v) ;;
  rainChance <-
    (v <- daily_field data "precipitation_probability_max" i ;;
     Normal (or_else v (VNum 0))) ;;
  Normal (Forecast.make day highC highF lowC lowF icon rainChance).

(** [for (var i = first; i <= last; i++) forecast.push(...)]; [turns] bounds
    the number of turns and is [last + 1 - first] at the call. *)
Fixpoint forecast_loop (data : value) (i last turns : nat)
  (forecast : list Forecast.t) : completion (list Forecast.t) :=
  match turns with
  | O => Normal forecast
  | S turns' =>
      if (i <=? last)%nat then
        e <- build_forecast data i ;;
        forecast_loop data (S i) last turns' (forecast ++ [e])%list
      else Normal forecast
  end.

Definition build_processed (data : value) : completion processed :=
  c <- build_current data ;;
  t <- build_today data ;;
  f <- forecast_loop data 1 3 3 [] ;;
  Normal (mkProcessed c t f).

(** The body of the [try] block of [xhr.onload]. *)
Definition weather_try (responseText : string) : completion weather_callback :=
  data <- JSON_parse responseText ;;
  error <- get data "error" ;;
  failed <- (if truthy error then Normal error else get data "reason") ;;
  if truthy failed then
    reason <- get data "reason" ;;
    error' <- get data "error" ;;
    Normal (callback_error
              (or_else reason
                 (if is_string error' then error' else VStr "Unknown error")))
  else
    p <- build_processed data ;;
    Normal (callback_data p).

Definition status_text (status : Z) : string :=
  NilZero.string_of_int (Z.to_int status).

Definition weather_onload (status : Z) (responseText : string)
  : weather_callback :=
  if (status =? 200)%Z then
    match weather_try responseText with
    | Normal c => c
    | Throw e => callback_error (VStr ("Parse error: " ++ message e))
    end
  else callback_error (VStr ("HTTP Error " ++ status_text status)).

Definition weather_onerror : weather_callback :=
  callback_error (VStr "Network error").

Definition weather_ontimeout : weather_callback :=
  callback_error (VStr "Request timeout").

(** *** fetchCurrency *)

Definition fetchCurrency (t : thresholds) : closure :=
  {| lowThreshold := or_else_prim (low t) (PNum 1.1);
     highThreshold := or_else_prim (high t) (PNum 1.2);
     results := Results.make None None None;
     completed := 0;
     calls := [] |}.

Definition displayRate (r : Results.t) : string :=
  match Results.oxr r with
  | Some o => OxrEntry.rate o
  | None =>
      match Results.ecb r with
      | Some e => EcbEntry.rate e
      | None =>
          match Results.alt r with
          | Some a => AltEntry.rate a
          | None => "0.00000"
          end
      end
  end.

Definition source (r : Results.t) : string :=
  match Results.oxr r with
  | Some _ => "OXR"
  | None =>
      match Results.ecb r with
      | Some _ => "ECB"
      | None =>
          match Results.alt r with
          | Some _ => "Alt"
          | None => ""
          end
      end
  end.

(** [rateNum < lowThreshold], [rateNum > highThreshold]: a number against a
    primitive compares numbers. *)
Definition status (c : closure) (rateNum : float) : string :=
  if rateNum <? ToNumber_prim (lowThreshold c) then "low"
  else if ToNumber_prim (highThreshold c) <? rateNum then "high"
  else "".

Definition checkComplete (c : closure) : closure :=
  let completed' := S (completed c) in
  let calls' :=
    if (3 <=? completed')%nat then
      let rateNum := parseFloat (displayRate (results c)) in
      (calls c ++
         [mkCallback null
            (Currency.make (displayRate (results c)) (source (results c))
               (status c rateNum) (results c))])%list
    else calls c in
  {| lowThreshold := lowThreshold c;
     highThreshold := highThreshold c;
     results := results c;
     completed := completed';
     calls := calls' |}.

Definition months : list string :=
  ["Jan"; "Feb"; "Mar"; "Apr"; "May"; "Jun";
   "Jul"; "Aug"; "Sep"; "Oct"; "Nov"; "Dec"].

(** [months[d.getMonth()] + ' ' + d.getDate() + ', ' + padZero(d.getHours())
    + ':' + padZero(d.getMinutes())], written out twice in the source. *)
Definition dateTime_text (updateDate : float) : string :=
  ToString_prim (index_number months (getMonth updateDate)) ++ " "
  ++ NumberToString (getDate updateDate) ++ ", "
  ++ padZero (getHours updateDate) ++ ":" ++ padZero (getMinutes updateDate).

(** The [try] blocks of the three [onload] handlers, up to the value
    assigned to the entry of [results]. *)
Definition oxr_try (responseText : string) : completion OxrEntry.t :=
  data <- JSON_parse responseText ;;
  rates <- get data "rates" ;;
  usdEurRate <- get rates "EUR" ;;
  d <- ToNumber usdEurRate ;;
  let rate := toFixed (1 / d) 5 in
  timestamp <- get data "timestamp" ;;
  t <- ToNumber timestamp ;;
  updateDate <- Date_new (VNum (t * 1000)) ;;
  Normal (OxrEntry.make rate (dateTime_text updateDate)).

Definition ecb_try (responseText : string) : completion EcbEntry.t :=
  data <- JSON_parse responseText ;;
  rates <- get data "rates" ;;
  usd <- get rates "USD" ;;
  rate <- call_toFixed usd 5 ;;
  date <- get data "date" ;;
  Normal (EcbEntry.make rate date).

Definition alt_try (responseText : string) : completion AltEntry.t :=
  data <- JSON_parse responseText ;;
  rates <- get data "rates" ;;
  usd <- get rates "USD" ;;
  rate <- call_toFixed usd 5 ;;
  time_last_update_utc <- get data "time_last_update_utc" ;;
  dateTime <-
    (if truthy time_last_update_utc then
       updateDate <- Date_new time_last_update_utc ;;
       if negb (PrimFloat.is_nan updateDate)
       then Normal (PStr (dateTime_text updateDate))
       else Normal PNull
     else Normal PNull) ;;
  Normal (AltEntry.make rate dateTime).

Definition set_results (c : closure) (r : Results.t) : closure :=
  {| lowThreshold := lowThreshold c;
     highThreshold := highThreshold c;
     results := r;
     completed := completed c;
     calls := calls c |}.

(** [if (xhr.status === 200) { try { ...; results.k = ... } catch (e) {} }]:
    the entry is assigned when the block runs to its end, and is left as it
    was otherwise. *)
Definition assign {A : Type} (status : Z) (body : completion A)
  (old : option A) : option A :=
  if (status =? 200)%Z then
    match body with
    | Normal a => Some a
    | Throw _ => old
    end
  else old.

Definition xhr1_onload (status : Z) (responseText : string) (c : closure)
  : closure :=
  let r := results c in
  checkComplete
    (set_results c
       (Results.make (assign status (oxr_try responseText) (Results.oxr r))
          (Results.ecb r) (Results.alt r))).

Definition xhr2_onload (status : Z) (responseText : string) (c : closure)
  : closure :=
  let r := results c in
  checkComplete
    (set_results c
       (Results.make (Results.oxr r)
          (assign status (ecb_try responseText) (Results.ecb r))
          (Results.alt r))).

Definition xhr3_onload (status : Z) (responseText : string) (c : closure)
  : closure :=
  let r := results c in
  checkComplete
    (set_results c
       (Results.make (Results.oxr r) (Results.ecb r)
          (assign status (alt_try responseText) (Results.alt r)))).

(** The handler an event runs. *)
Definition handle (c : closure) (e : xhr_event) : closure :=
  match e with
  | onload xhr1 status responseText => xhr1_onload status responseText c
  | onload xhr2 status responseText => xhr2_onload status responseText c
  | onload xhr3 status responseText => xhr3_onload status responseText c
  | onerror _ => checkComplete c
  end.

(** The closure after the events [evs], in the order they arrive. *)
Definition run (t : thresholds) (evs : list xhr_event) : closure :=
  fold_left handle evs (fetchCurrency t).

End WithRuntime.
End SharedData.

(** ** The edge relay *)

Module Relay.

Record Request : Type := mkRequest { url : string }.

(** The secrets of the worker; [None] when the key is not configured. *)
Record Env : Type := mkEnv { OPENMETEO_API_KEY : option string }.

(** A response: its body ([None] is the [null] body), its status and
    status text, and its header list. *)
Record Response : Type := mkResponse {
  body : option string;
  status : Z;
  statusText : string;
  headers : list (string * string)
}.

(** What the handler does: it answers on its own, or it awaits
    [fetch(target)] and answers from what the fetch settles to, or an
    exception leaves it. *)
Inductive outcome : Type :=
| returns (r : Response)
| awaits_fetch (target : string) (k : completion Response -> Response)
| uncaught (e : exn).

(** [URLSearchParams.get]: the value of the first pair named [name]. *)
Fixpoint searchParams_get (name : string) (l : list (string * string))
  : option string :=
  match l with
  | [] => None
  | (n, v) :: l' => if String.eqb n name then Some v else searchParams_get name l'
  end.

Definition without (name : string) (l : list (string * string))
  : list (string * string) :=
  filter (fun p => negb (String.eqb (fst p) name)) l.

(** [URLSearchParams.set]: the first pair named [name] takes the value and
    the other pairs of that name go; without such a pair, a new one is
    appended. *)
Fixpoint searchParams_set (name value : string) (l : list (string * string))
  : list (string * string) :=
  match l with
  | [] => [(name, value)]
  | (n, v) :: l' =>
      if String.eqb n name then (name, value) :: without name l'
      else (n, v) :: searchParams_set name value l'
  end.

(** *** Header lists, after the Fetch standard

    A header list holds pairs of a name and a value in the order they were
    appended, the names as they were written.  Names match without regard
    to the case of the letters A to Z.  Values are held as given: those the
    relay writes have no white space around them, and those of a response
    fetched were stripped of it when that response was made. *)

Definition lower_ascii (c : ascii) : ascii :=
  let n := nat_of_ascii c in
  if ((65 <=? n) && (n <=? 90))%nat then ascii_of_nat (n + 32) else c.

Fixpoint lower (s : string) : string :=
  match s with
  | EmptyString => EmptyString
  | String c s' => String (lower_ascii c) (lower s')
  end.

Definition same_name (name : string) (p : string * string) : bool :=
  String.eqb (lower (fst p)) (lower name).

(** The values held under a name, in order. *)
Definition values (name : string) (h : list (string * string))
  : list string :=
  map snd (filter (same_name name) h).

(** [Headers.get]: the values under the name joined by a comma and a
    space, [null] when there is none. *)
Definition Headers_get (name : string) (h : list (string * string))
  : option string :=
  match values name h with
  | [] => None
  | vs => Some (String.concat ", " vs)
  end.

Definition Headers_has (name : string) (h : list (string * string)) : bool :=
  existsb (same_name name) h.

(** [Headers.append]: the pair goes to the end, under the spelling of the
    first header of that name if there is one. *)
Definition Headers_append (name value : string) (h : list (string * string))
  : list (string * string) :=
  (h ++ [(match find (same_name name) h with
          | Some p => fst p
          | None => name
          end, value)])%list.

(** [Headers.set]: the first header of that name takes the value and the
    others of that name go; without one, the pair is appended. *)
Fixpoint Headers_set (name value : string) (h : list (string * string))
  : list (string * string) :=
  match h with
  | [] => [(name, value)]
  | p :: h' =>
      if same_name name p then
        (fst p, value) :: filter (fun q => negb (same_name name q)) h'
      else p :: Headers_set name value h'
  end.

(** The names of a header list in lower case, each once, in ascending
    order of their bytes. *)
Definition add_name (names : list string) (n : string) : list string :=
  if existsb (String.eqb n) names then names else (names ++ [n])%list.

Fixpoint insert_name (n : string) (names : list string) : list string :=
  match names with
  | [] => [n]
  | m :: names' =>
      if String.ltb n m then n :: names else m :: insert_name n names'
  end.

Definition sorted_names (h : list (string * string)) : list string :=
  fold_right insert_name []
    (fold_left add_name (map (fun p => lower (fst p)) h) []).

(** What iterating over a [Headers] object gives ("sort and combine"): the
    names in lower case and sorted, each with its values combined, except
    [set-cookie], whose values stay apart. *)
Definition entries (h : list (string * string)) : list (string * string) :=
  flat_map
    (fun name =>
       if String.eqb name "set-cookie" then
         map (fun p => (name, snd p)) (filter (same_name name) h)
       else
         match Headers_get name h with
         | Some value => [(name, value)]
         | None => []
         end)
    (sorted_names h).

(** Filling a header list from pairs: each is appended. *)
Definition fill (init h : list (string * string)) : list (string * string) :=
  fold_left (fun h p => Headers_append (fst p) (snd p) h) init h.

(** [new Headers(h)] for the [Headers] object of a response: a new list
    filled from the entries of [h]. *)
Definition Headers_new (h : list (string * string))
  : list (string * string) :=
  fill (entries h) [].

(** *** The [Response] constructor *)

(** The statuses of responses that have no body. *)
Definition null_body_status (s : Z) : bool :=
  ((s =? 101) || (s =? 103) || (s =? 204) || (s =? 205) || (s =? 304))%Z.

(** A status text the constructor accepts: tabs, spaces and the bytes from
    [0x21] to [0xFF] but [0x7F]. *)
Fixpoint reason_phrase (s : string) : bool :=
  match s with
  | EmptyString => true
  | String c s' =>
      let n := nat_of_ascii c in
      ((n =? 9) || ((32 <=? n) && negb (n =? 127)))%nat && reason_phrase s'
  end.

(** The content type of a body given as a string. *)
Definition text_plain : string := "text/plain;charset=UTF-8".

(** [new Response(body, {status, statusText, headers})]; [type] is the
    content type that comes with the body: [text_plain] for a string, none
    for the body stream of another response.  A status outside 200..599 is
    a [RangeError], a malformed status text or a body on a status without
    body a [TypeError]; a body with a type adds [Content-Type] unless the
    headers given have it. *)
Definition Response_new (body type : option string) (status : Z)
  (statusText : string) (init : list (string * string))
  : completion Response :=
  if negb ((200 <=? status) && (status <=? 599))%Z then
    Throw (RangeError "status")
  else if negb (reason_phrase statusText) then
    Throw (TypeError "statusText")
  else
    let h := fill init [] in
    match body with
    | None => Normal (mkResponse None status statusText h)
    | Some _ =>
        if null_body_status status then Throw (TypeError "body")
        else
          Normal
            (mkResponse body status statusText
               (match type with
                | Some t =>
                    if Headers_has "Content-Type" h then h
                    else Headers_append "Content-Type" t h
                | None => h
                end))
    end.

(** [new Response(text, { status })] for a string and one of the statuses
    400, 403 and 500, where the constructor cannot throw: the body, the
    status, and the content type of a string as the only header. *)
Definition Response_text (text : string) (status : Z) : Response :=
  mkResponse (Some text) status "" [("Content-Type", text_plain)].

(** [await response.text()]: the body as a string, empty for [null]. *)
Definition text (response : Response) : string :=
  match body response with
  | Some s => s
  | None => ""
  end.

Definition allowedDomains : list string :=
  ["api.open-meteo.com"; "openexchangerates.org"; "api.frankfurter.app";
   "api.exchangerate-api.com"].

Definition includes (l : list string) (s : string) : bool :=
  existsb (String.eqb s) l.

(** [responseHeaders] of the second version: a copy of the headers of the
    response fetched, with the four headers set. *)
Definition relay_headers (h : list (string * string))
  : list (string * string) :=
  Headers_set "Cache-Control" "public, max-age=300"
    (Headers_set "Access-Control-Allow-Methods" "GET"
       (Headers_set "Access-Control-Allow-Origin" "*"
          (Headers_set "Content-Type" "application/json" (Headers_new h)))).

Section WithRuntime.
Context {R : Runtime}.

(** [new Response('Proxy error: ' + error.message, { status: 500 })]. *)
Definition proxy_error (e : exn) : Response :=
  Response_text ("Proxy error: " ++ message e) 500.

(** The first version of the worker: [fetch(request)].  [!targetUrl] holds
    of [null] and of the empty string.  The answer to a forwarded request
    is built inside the [try]: from the text of the body, with the four
    headers as the literal gives them. *)
Definition fetch1 (request : Request) : outcome :=
  match URL_parse (url request) with
  | Throw e => uncaught e
  | Normal u =>
      match searchParams_get "url" (searchParams u) with
      | None => returns (Response_text "Missing url parameter" 400)
      | Some target =>
          if String.eqb target "" then
            returns (Response_text "Missing url parameter" 400)
          else
            match URL_parse target with
            | Throw e => uncaught e
            | Normal t =>
                let targetDomain := hostname t in
                if negb (includes allowedDomains targetDomain) then
                  returns (Response_text "Domain not allowed" 403)
                else
                  awaits_fetch target
                    (fun settled =>
                       match
                         response <- settled ;;
                         let data := text response in
                         Response_new (Some data) (Some text_plain) 200 ""
                           [("Content-Type", "application/json");
                            ("Access-Control-Allow-Origin", "*");
                            ("Access-Control-Allow-Methods", "GET");
                            ("Cache-Control", "public, max-age=300")]
                       with
                       | Normal answer => answer
                       | Throw e => proxy_error e
                       end)
            end
      end
  end.

(** The key injection block: the target the second version fetches.  The
    block runs after the security check, where [new URL(targetUrl)] has
    already succeeded with [t]; [if (apiKey)] fails on a missing key and
    on an empty one. *)
Definition inject_key (env : Env) (target : string) (t : URL) : string :=
  if String.eqb (hostname t) "api.open-meteo.com" then
    match OPENMETEO_API_KEY env with
    | Some apiKey =>
        if String.eqb apiKey "" then target
        else
          let finalUrl :=
            mkURL (protocol t) (username t) (password t) (hostname t)
              (port t) (pathname t)
              (searchParams_set "apikey" apiKey (searchParams t)) (hash t) in
          URL_toString finalUrl
    | None => target
    end
  else target.

(** The second version of the worker: [fetch(request, env)].  The answer
    to a forwarded request is built inside the [try], so an exception of
    the [Response] constructor is answered like a failed fetch. *)
Definition fetch2 (request : Request) (env : Env) : outcome :=
  match URL_parse (url request) with
  | Throw e => uncaught e
  | Normal u =>
      match searchParams_get "url" (searchParams u) with
      | None => returns (Response_text "Missing url parameter" 400)
      | Some target =>
          if String.eqb target "" then
            returns (Response_text "Missing url parameter" 400)
          else
            match URL_parse target with
            | Throw _ => returns (Response_text "Invalid target URL format" 400)
            | Normal t =>
                let targetDomain := hostname t in
                if negb (includes allowedDomains targetDomain) then
                  returns (Response_text "Domain not allowed" 403)
                else
                  awaits_fetch (inject_key env target t)
                    (fun settled =>
                       match
                         response <- settled ;;
                         let responseHeaders :=
                           relay_headers (headers response) in
                         Response_new (body response) None (status response)
                           (statusText response) (entries responseHeaders)
                       with
                       | Normal answer => answer
                       | Throw e => proxy_error e
                       end)
            end
      end
  end.

End WithRuntime.
End Relay.

(** ** A reference runtime

    An executable runtime, used to run the model on concrete requests and
    responses.  Numbers are converted exactly (through the integer mantissa
    and exponent of a binary64 value); the local time zone is UTC. *)

Module Reference.

Local Open Scope Z_scope.

(** *** Numbers *)

(** The binary64 value nearest to an integer, ties to even. *)
Definition float_of_Z (z : Z) : float :=
  SF2Prim (binary_normalize prec emax z 0 false).

(** The binary64 value nearest to [n / d], ties to even: the quotient is
    taken with more than 64 bits and a sticky bit for the remainder. *)
Definition float_of_ratio (n : Z) (d : positive) : float :=
  let a := Z.abs n in
  let k := Z.max 0 (Z.log2 (Zpos d) + 66 - Z.log2 a) in
  let q := (a * 2 ^ k) / Zpos d in
  let sticky := if (a * 2 ^ k) mod Zpos d =? 0 then 0 else 1 in
  let f := SF2Prim (binary_normalize prec emax (2 * q + sticky) (- (k + 1)) false) in
  if n <? 0 then PrimFloat.opp f else f.

(** [m * 2 ^ e * 10 ^ t] as a fraction [(numerator, denominator)]. *)
Definition scaled (m e t : Z) : Z * Z :=
  (m * 2 ^ Z.max e 0 * 10 ^ Z.max t 0, 2 ^ Z.max (- e) 0 * 10 ^ Z.max (- t) 0).

(** The integer nearest to [m * 2 ^ e * 10 ^ t], the larger one at a tie. *)
Definition round_half_up (m e t : Z) : Z :=
  let (n, d) := scaled m e t in (2 * n + d) / (2 * d).

(** [Math.round]: the nearest integer, the one towards positive infinity at
    a tie; [-0] for a negative number that rounds to zero. *)
Definition Math_round (x : float) : float :=
  match Prim2SF x with
  | S754_finite s m e =>
      if 0 <=? e then x
      else
        let n := round_half_up (if s then Zneg m else Zpos m) e 0 in
        if n =? 0 then (if s then PrimFloat.neg_zero else PrimFloat.zero)
        else float_of_Z n
  | _ => x
  end.

(** *** Printing numbers *)

Definition digits_of (n : Z) : string :=
  NilZero.string_of_uint (N.to_uint (Z.to_N n)).

Fixpoint zeros (n : nat) : string :=
  match n with
  | O => ""
  | S n' => String "0" (zeros n')
  end.

(** The digits of [n], with zeros in front up to [width] digits. *)
Definition pad_digits (width : nat) (n : Z) : string :=
  let d := digits_of n in
  zeros (width - String.length d) ++ d.

(** [s] with a point before its last [f] characters. *)
Definition point_before_last (f : nat) (s : string) : string :=
  let k := (String.length s - f)%nat in
  if (f =? 0)%nat then s
  else substring 0 k s ++ "." ++ substring k f s.

(** The least [n] with [m * 2 ^ e < 10 ^ n], for a mantissa [m > 0]: the
    search starts below the answer and climbs. *)
Fixpoint climb (fuel : nat) (m e n : Z) : Z :=
  match fuel with
  | O => n
  | S fuel' =>
      let (a, b) := scaled m e (- n) in
      if a <? b then n else climb fuel' m e (n + 1)
  end.

Definition decimal_exponent (m e : Z) : Z :=
  climb 8 m e ((Z.log2 m + e) * 30103 / 100000 - 2).

(** The shortest digits that read back as [m * 2 ^ e]: [(digits, n)] with
    value [0.digits * 10 ^ n]; [count] digits are tried, then one more. *)
Fixpoint shortest (fuel : nat) (count : Z) (m e n : Z) : Z * Z :=
  let t := n - count in
  let (a, b) := scaled m e (- t) in
  let lo := a / b in
  let near := (2 * a + b) / (2 * b) in
  let far := if near =? lo then lo + 1 else lo in
  let back (c : Z) :=
    PrimFloat.eqb
      (if 0 <=? t then float_of_Z (c * 10 ^ t)
       else float_of_ratio c (Z.to_pos (10 ^ (- t))))
      (SF2Prim (S754_finite false (Z.to_pos m) e)) in
  match fuel with
  | O => (near, t)
  | S fuel' =>
      if back near then (near, t)
      else if back far then (far, t)
      else shortest fuel' (count + 1) m e n
  end.

(** [Number::toString] of the positive number [m * 2 ^ e]. *)
Definition positive_text (m e : Z) : string :=
  let n := decimal_exponent m e in
  let (c, t) := shortest 17 1 m e n in
  (* a candidate rounded up to a power of ten ends in a zero *)
  let (c, t) := if c mod 10 =? 0 then (c / 10, t + 1) else (c, t) in
  let d := digits_of c in
  let k := Z.of_nat (String.length d) in
  let n := t + k in
  if (k <=? n) && (n <=? 21) then d ++ zeros (Z.to_nat (n - k))
  else if (0 <? n) && (n <=? 21) then
    substring 0 (Z.to_nat n) d ++ "."
    ++ substring (Z.to_nat n) (Z.to_nat (k - n)) d
  else if (-6 <? n) && (n <=? 0) then "0." ++ zeros (Z.to_nat (- n)) ++ d
  else
    let ex := n - 1 in
    let exp_text :=
      (if ex <? 0 then "e-" else "e+") ++ digits_of (Z.abs ex) in
    if k =? 1 then d ++ exp_text
    else substring 0 1 d ++ "." ++ substring 1 (Z.to_nat (k - 1)) d ++ exp_text.

(** [ToString] on a number. *)
Definition NumberToString (x : float) : string :=
  match Prim2SF x with
  | S754_nan => "NaN"
  | S754_zero _ => "0"
  | S754_infinity s => if s then "-Infinity" else "Infinity"
  | S754_finite s m e =>
      (if s then "-" else "") ++ positive_text (Zpos m) e
  end.

(** [x.toFixed(f)]: the integer nearest to [x * 10 ^ f] (the larger one at
    a tie), printed with [f] digits after the point; numbers from [1e21]
    are printed by [ToString]. *)
Definition toFixed (x : float) (f : Z) : string :=
  match Prim2SF x with
  | S754_nan => "NaN"
  | S754_infinity s => if s then "-Infinity" else "Infinity"
  | S754_zero _ => point_before_last (Z.to_nat f) (pad_digits (Z.to_nat f + 1) 0)
  | S754_finite s m e =>
      if PrimFloat.leb 1e21 (PrimFloat.abs x) then NumberToString x
      else
        let n := round_half_up (Zpos m) e f in
        (if s then "-" else "")
        ++ point_before_last (Z.to_nat f) (pad_digits (Z.to_nat f + 1) n)
  end.

(** *** Reading numbers *)

Definition is_digit (c : ascii) : bool :=
  let n := nat_of_ascii c in ((48 <=? n) && (n <=? 57))%nat.

Definition digit_value (c : ascii) : Z := Z.of_nat (nat_of_ascii c - 48).

(** The digits at the head of [s]: [acc] extended by them, their count,
    and the rest of [s]. *)
Fixpoint read_digits (s : string) (acc : Z) (count : Z) : Z * Z * string :=
  match s with
  | String c s' =>
      if is_digit c then read_digits s' (10 * acc + digit_value c) (count + 1)
      else (acc, count, s)
  | EmptyString => (acc, count, s)
  end.

(** A sign at the head of [s]. *)
Definition read_sign (s : string) : bool * string :=
  match s with
  | String "-" s' => (true, s')
  | String "+" s' => (false, s')
  | _ => (false, s)
  end.

(** An exponent part at the head of [s], when digits follow the [e]. *)
Definition read_exponent (s : string) : Z * string :=
  match s with
  | String c s' =>
      if Ascii.eqb c "e" || Ascii.eqb c "E" then
        let (neg, s'') := read_sign s' in
        let '(ex, count, rest) := read_digits s'' 0 0 in
        if count =? 0 then (0, s) else ((if neg then - ex else ex), rest)
      else (0, s)
  | EmptyString => (0, s)
  end.

(** [c * 10 ^ t], rounded once. *)
Definition decimal_value (c t : Z) : float :=
  if c =? 0 then PrimFloat.zero
  else if 400 <? t then PrimFloat.infinity
  else if 0 <=? t then float_of_Z (c * 10 ^ t)
  else if t + Z.log2 c <? - 1200 then PrimFloat.zero
  else float_of_ratio c (Z.to_pos (10 ^ (- t))).

(** An unsigned decimal literal at the head of [s]: digits with an optional
    fraction and exponent, at least one digit before the exponent. *)
Definition read_unsigned (s : string) : option (float * string) :=
  let '(ip, ni, s1) := read_digits s 0 0 in
  let '(fp, nf, s2) :=
    match s1 with
    | String "." s1' =>
        let '(fp, nf, s2) := read_digits s1' ip 0 in
        if (ni =? 0) && (nf =? 0) then (ip, 0, s1) else (fp, nf, s2)
    | _ => (ip, 0, s1)
    end in
  if (ni =? 0) && (nf =? 0) then None
  else
    let (ex, s3) := read_exponent s2 in
    Some (decimal_value fp (ex - nf), s3).

(** [StrDecimalLiteral] at the head of [s]. *)
Definition read_decimal (s : string) : option (float * string) :=
  let (neg, s1) := read_sign s in
  let signed (x : float) := if neg then PrimFloat.opp x else x in
  if String.prefix "Infinity" s1 then
    Some (signed PrimFloat.infinity, substring 8 (String.length s1 - 8) s1)
  else
    match read_unsigned s1 with
    | Some (x, rest) => Some (signed x, rest)
    | None => None
    end.

Definition is_space (c : ascii) : bool :=
  let n := nat_of_ascii c in
  ((n =? 32) || (n =? 9) || (n =? 10) || (n =? 11) || (n =? 12) || (n =? 13))%nat.

Fixpoint skip_space (s : string) : string :=
  match s with
  | String c s' => if is_space c then skip_space s' else s
  | EmptyString => s
  end.

(** [parseFloat]: the longest decimal literal after leading white space. *)
Definition parseFloat (s : string) : float :=
  match read_decimal (skip_space s) with
  | Some (x, _) => x
  | None => PrimFloat.nan
  end.

(** [ToNumber] on a string: empty or blank is [0], a decimal literal
    between white space is its value, anything else [NaN] (hexadecimal,
    octal and binary literals are not read). *)
Definition StringToNumber (s : string) : float :=
  let s' := skip_space s in
  if String.eqb s' "" then PrimFloat.zero
  else
    match read_decimal s' with
    | Some (x, rest) =>
        if String.eqb (skip_space rest) "" then x else PrimFloat.nan
    | None => PrimFloat.nan
    end.

(** *** Objects to primitives *)

Definition prim_text (p : primitive) : string :=
  match p with
  | PUndefined => "undefined"
  | PNull => "null"
  | PBool b => if b then "true" else "false"
  | PNum x => NumberToString x
  | PStr s => s
  end.

(** [ToString] on data: an array joins its elements with commas
    ([undefined] and [null] give the empty string), an object is
    ["[object Object]"] unless it has a property [toString] of its own,
    which data cannot make callable. *)
Fixpoint value_text (v : value) : completion string :=
  match v with
  | VPrim p => Normal (prim_text p)
  | VObj props =>
      match assoc "toString" props with
      | Some _ => Throw (TypeError "toString")
      | None => Normal "[object Object]"
      end
  | VArr elems =>
      (fix join (l : list value) (first : bool) : completion string :=
         match l with
         | [] => Normal ""
         | e :: l' =>
             s <- match e with
                  | VPrim PUndefined | VPrim PNull => Normal ""
                  | _ => value_text e
                  end ;;
             r <- join l' false ;;
             Normal ((if first then "" else ",") ++ s ++ r)
         end) elems true
  end.

Definition ObjectToPrimitive (v : value) : completion primitive :=
  s <- value_text v ;; Normal (PStr s).

Definition message (e : exn) : string :=
  match e with
  | TypeError what => "Cannot read or call '" ++ what ++ "'"
  | SyntaxError what => "Unexpected token in JSON: " ++ what
  | RangeError what => "Out of range: " ++ what
  end.

(** *** JSON *)

Definition quote : ascii := "034"%char.
Definition backslash : ascii := "092"%char.

Definition is_json_space (c : ascii) : bool :=
  let n := nat_of_ascii c in
  ((n =? 32) || (n =? 9) || (n =? 10) || (n =? 13))%nat.

Fixpoint skip_json_space (s : string) : string :=
  match s with
  | String c s' => if is_json_space c then skip_json_space s' else s
  | EmptyString => s
  end.

Definition hex_value (c : ascii) : option Z :=
  let n := Z.of_nat (nat_of_ascii c) in
  if (48 <=? n) && (n <=? 57) then Some (n - 48)
  else if (65 <=? n) && (n <=? 70) then Some (n - 55)
  else if (97 <=? n) && (n <=? 102) then Some (n - 87)
  else None.

Definition byte (n : Z) : string :=
  String (ascii_of_nat (Z.to_nat n)) EmptyString.

(** The UTF-8 bytes of a code unit below [65536]. *)
Definition utf8 (n : Z) : string :=
  if n <? 128 then byte n
  else if n <? 2048 then byte (192 + n / 64) ++ byte (128 + n mod 64)
  else byte (224 + n / 4096) ++ byte (128 + (n / 64) mod 64)
       ++ byte (128 + n mod 64).

(** The characters of a JSON string after its opening quote, up to the
    closing one. *)
Fixpoint read_json_string (s : string) : option (string * string) :=
  match s with
  | EmptyString => None
  | String c s' =>
      if Ascii.eqb c quote then Some ("", s')
      else if (nat_of_ascii c <? 32)%nat then None
      else if Ascii.eqb c backslash then
        match s' with
        | String "u" (String h1 (String h2 (String h3 (String h4 s'')))) =>
            match hex_value h1, hex_value h2, hex_value h3, hex_value h4,
                  read_json_string s'' with
            | Some a, Some b, Some c', Some d, Some (t, rest) =>
                Some (utf8 (4096 * a + 256 * b + 16 * c' + d) ++ t, rest)
            | _, _, _, _, _ => None
            end
        | String e s'' =>
            let plain :=
              if Ascii.eqb e quote then Some quote
              else if Ascii.eqb e backslash then Some backslash
              else if Ascii.eqb e "/" then Some "/"%char
              else if Ascii.eqb e "b" then Some "008"%char
              else if Ascii.eqb e "f" then Some "012"%char
              else if Ascii.eqb e "n" then Some "010"%char
              else if Ascii.eqb e "r" then Some "013"%char
              else if Ascii.eqb e "t" then Some "009"%char
              else None in
            match plain, read_json_string s'' with
            | Some x, Some (t, rest) => Some (String x t, rest)
            | _, _ => None
            end
        | EmptyString => None
        end
      else
        match read_json_string s' with
        | Some (t, rest) => Some (String c t, rest)
        | None => None
        end
  end.

(** A JSON number at the head of [s]: no sign but [-], no leading zero,
    digits on both sides of a point. *)
Definition read_json_number (s : string) : option (float * string) :=
  let (neg, s1) :=
    match s with
    | String "-" s' => (true, s')
    | _ => (false, s)
    end in
  let '(ip, ni, s2) := read_digits s1 0 0 in
  if (ni =? 0) || (String.prefix "0" s1 && (1 <? ni)) then None
  else
    let frac :=
      match s2 with
      | String "." s2' =>
          let '(fp, nf, s3) := read_digits s2' ip 0 in
          if nf =? 0 then None else Some (fp, nf, s3)
      | _ => Some (ip, 0, s2)
      end in
    match frac with
    | None => None
    | Some (fp, nf, s3) =>
        let (ex, s4) := read_exponent s3 in
        let x := decimal_value fp (ex - nf) in
        Some ((if neg then PrimFloat.opp x else x), s4)
    end.

(** A property defined again keeps its place and takes the new value. *)
Fixpoint put (k : string) (v : value) (l : list (string * value))
  : list (string * value) :=
  match l with
  | [] => [(k, v)]
  | (k', v') :: l' =>
      if String.eqb k k' then (k, v) :: l' else (k', v') :: put k v l'
  end.

(** What the parser reads next: a value, the elements of an array after
    its bracket or a comma, the members of an object after its brace or a
    comma. *)
Inductive mode : Type :=
| a_value
| elements (acc : list value)
| members (acc : list (string * value)).

Fixpoint read_json (fuel : nat) (m : mode) (s : string)
  : option (value * string) :=
  match fuel with
  | O => None
  | S fuel' =>
      match m with
      | a_value =>
          match skip_json_space s with
          | String "[" r =>
              match skip_json_space r with
              | String "]" r' => Some (VArr [], r')
              | _ => read_json fuel' (elements []) r
              end
          | String "{" r =>
              match skip_json_space r with
              | String "}" r' => Some (VObj [], r')
              | _ => read_json fuel' (members []) r
              end
          | String c r as s' =>
              if Ascii.eqb c quote then
                match read_json_string r with
                | Some (t, rest) => Some (VStr t, rest)
                | None => None
                end
              else if String.prefix "true" s' then
                Some (VPrim (PBool true), substring 4 (String.length s' - 4) s')
              else if String.prefix "false" s' then
                Some (VPrim (PBool false), substring 5 (String.length s' - 5) s')
              else if String.prefix "null" s' then
                Some (null, substring 4 (String.length s' - 4) s')
              else
                match read_json_number s' with
                | Some (x, rest) => Some (VNum x, rest)
                | None => None
                end
          | EmptyString => None
          end
      | elements acc =>
          match read_json fuel' a_value s with
          | Some (v, r) =>
              match skip_json_space r with
              | String "," r' => read_json fuel' (elements (acc ++ [v])) r'
              | String "]" r' => Some (VArr (acc ++ [v]), r')
              | _ => None
              end
          | None => None
          end
      | members acc =>
          match skip_json_space s with
          | String c r =>
              if Ascii.eqb c quote then
                match read_json_string r with
                | Some (k, r1) =>
                    match skip_json_space r1 with
                    | String ":" r2 =>
                        match read_json fuel' a_value r2 with
                        | Some (v, r3) =>
                            match skip_json_space r3 with
                            | String "," r' =>
                                read_json fuel' (members (put k v acc)) r'
                            | String "}" r' => Some (VObj (put k v acc), r')
                            | _ => None
                            end
                        | None => None
                        end
                    | _ => None
                    end
                | None => None
                end
              else None
          | EmptyString => None
          end
      end
  end.

Definition JSON_parse (text : string) : completion value :=
  match read_json (2 * String.length text + 2) a_value text with
  | Some (v, rest) =>
      if String.eqb (skip_json_space rest) "" then Normal v
      else Throw (SyntaxError rest)
  | None => Throw (SyntaxError text)
  end.

(** A text with each apostrophe turned into a double quote: JSON texts are
    written below with apostrophes. *)
Fixpoint json (s : string) : string :=
  match s with
  | EmptyString => EmptyString
  | String c s' => String (if Ascii.eqb c "'" then quote else c) (json s')
  end.

(** *** Dates *)

(** The integer part of a number; [0] for [NaN] and the infinities. *)
Definition truncate (x : float) : Z :=
  match Prim2SF x with
  | S754_finite s m e =>
      let a := if 0 <=? e then Zpos m * 2 ^ e else Zpos m / 2 ^ (- e) in
      if s then - a else a
  | _ => 0
  end.

Definition TimeClip (t : float) : float :=
  if PrimFloat.leb (PrimFloat.abs t) 8.64e15 then float_of_Z (truncate t)
  else PrimFloat.nan.

(** Days from 1970-01-01 to a date of the Gregorian calendar, and back. *)
Definition days_from_civil (y m d : Z) : Z :=
  let y' := if m <=? 2 then y - 1 else y in
  let era := y' / 400 in
  let yoe := y' - era * 400 in
  let doy := (153 * (if 2 <? m then m - 3 else m + 9) + 2) / 5 + d - 1 in
  let doe := yoe * 365 + yoe / 4 - yoe / 100 + doy in
  era * 146097 + doe - 719468.

Definition civil_from_days (z : Z) : Z * Z * Z :=
  let z' := z + 719468 in
  let era := z' / 146097 in
  let doe := z' - era * 146097 in
  let yoe := (doe - doe / 1460 + doe / 36524 - doe / 146096) / 365 in
  let doy := doe - (365 * yoe + yoe / 4 - yoe / 100) in
  let mp := (5 * doy + 2) / 153 in
  let d := doy - (153 * mp + 2) / 5 + 1 in
  let m := if mp <? 10 then mp + 3 else mp - 9 in
  ((if m <=? 2 then yoe + era * 400 + 1 else yoe + era * 400), m, d).

(** Exactly [n] digits at the head of [s]. *)
Fixpoint take_digits (n : nat) (acc : Z) (s : string) : option (Z * string) :=
  match n with
  | O => Some (acc, s)
  | S n' =>
      match s with
      | String c s' =>
          if is_digit c then take_digits n' (10 * acc + digit_value c) s'
          else None
      | EmptyString => None
      end
  end.

(** A given character at the head of [s]. *)
Definition expect (c : ascii) (s : string) : option string :=
  match s with
  | String c' s' => if Ascii.eqb c c' then Some s' else None
  | EmptyString => None
  end.

(** [HH:mm], then [:ss] and [.sss] when present, then [Z] when present:
    the milliseconds into the day. *)
Definition read_time (s : string) : option Z :=
  match take_digits 2 0 s with
  | Some (h, s1) =>
      match expect ":" s1 with
      | Some s2 =>
          match take_digits 2 0 s2 with
          | Some (mi, s3) =>
              let '(sec, s4) :=
                match expect ":" s3 with
                | Some s3' =>
                    match take_digits 2 0 s3' with
                    | Some (x, r) => (x, r)
                    | None => (60, s3)
                    end
                | None => (0, s3)
                end in
              let '(ms, s5) :=
                match expect "." s4 with
                | Some s4' =>
                    match take_digits 3 0 s4' with
                    | Some (x, r) => (x, r)
                    | None => (1000, s4)
                    end
                | None => (0, s4)
                end in
              let s6 := match expect "Z" s5 with Some r => r | None => s5 end in
              if String.eqb s6 "" && (h <? 24) && (mi <? 60) && (sec <? 60)
                 && (ms <? 1000)
              then Some (((h * 60 + mi) * 60 + sec) * 1000 + ms)
              else None
          | None => None
          end
      | None => None
      end
  | None => None
  end.

(** [Date.parse] on the date-time format of the standard, [YYYY-MM-DD] with
    an optional [THH:mm[:ss[.sss]]][Z]; local time is UTC, and any other
    text is not a date. *)
Definition Date_parse (s : string) : float :=
  match take_digits 4 0 s with
  | Some (y, s1) =>
      match expect "-" s1 with
      | Some s2 =>
          match take_digits 2 0 s2 with
          | Some (m, s3) =>
              match expect "-" s3 with
              | Some s4 =>
                  match take_digits 2 0 s4 with
                  | Some (d, s5) =>
                      let days := days_from_civil y m d in
                      let time :=
                        if String.eqb s5 "" then Some 0
                        else
                          match expect "T" s5 with
                          | Some s6 => read_time s6
                          | None => None
                          end in
                      match time with
                      | Some ms =>
                          let '(y', m', d') := civil_from_days days in
                          if (y' =? y) && (m' =? m) && (d' =? d)
                          then float_of_Z (days * 86400000 + ms)
                          else PrimFloat.nan
                      | None => PrimFloat.nan
                      end
                  | None => PrimFloat.nan
                  end
              | None => PrimFloat.nan
              end
          | None => PrimFloat.nan
          end
      | None => PrimFloat.nan
      end
  | None => PrimFloat.nan
  end.

(** A getter: [f] of the milliseconds, [NaN] on an invalid date. *)
Definition getter (f : Z -> Z) (t : float) : float :=
  if PrimFloat.is_nan t then PrimFloat.nan else float_of_Z (f (truncate t)).

Definition getDay : float -> float :=
  getter (fun ms => (ms / 86400000 + 4) mod 7).
Definition getMonth : float -> float :=
  getter (fun ms => snd (fst (civil_from_days (ms / 86400000))) - 1).
Definition getDate : float -> float :=
  getter (fun ms => snd (civil_from_days (ms / 86400000))).
Definition getHours : float -> float :=
  getter (fun ms => (ms / 3600000) mod 24).
Definition getMinutes : float -> float :=
  getter (fun ms => (ms / 60000) mod 60).

(** *** URLs *)

(** [s] up to the first character satisfying [stop], and the rest from that
    character on. *)
Fixpoint split_at (stop : ascii -> bool) (s : string) : string * string :=
  match s with
  | EmptyString => ("", "")
  | String c s' =>
      if stop c then ("", s)
      else let (a, b) := split_at stop s' in (String c a, b)
  end.

(** The pieces of [s] between the characters [sep]. *)
Fixpoint pieces (sep : ascii) (s : string) (piece : string) : list string :=
  match s with
  | EmptyString => [piece]
  | String c s' =>
      if Ascii.eqb c sep then piece :: pieces sep s' ""
      else pieces sep s' (piece ++ String c "")
  end.

(** Percent-decoding of a form-encoded name or value; [+] is a space. *)
Fixpoint form_decode (s : string) : string :=
  match s with
  | EmptyString => ""
  | String "+" s' => String " " (form_decode s')
  | String "%" (String h1 (String h2 s') as rest) =>
      match hex_value h1, hex_value h2 with
      | Some a, Some b => byte (16 * a + b) ++ form_decode s'
      | _, _ => String "%" (form_decode rest)
      end
  | String c s' => String c (form_decode s')
  end.

Definition hex_digit (n : Z) : string :=
  byte (if n <? 10 then 48 + n else 55 + n).

Definition form_plain (c : ascii) : bool :=
  let n := Z.of_nat (nat_of_ascii c) in
  ((48 <=? n) && (n <=? 57)) || ((65 <=? n) && (n <=? 90))
  || ((97 <=? n) && (n <=? 122))
  || (n =? 42) || (n =? 45) || (n =? 46) || (n =? 95).

Fixpoint form_encode (s : string) : string :=
  match s with
  | EmptyString => ""
  | String c s' =>
      (if Ascii.eqb c " " then "+"
       else if form_plain c then String c ""
       else
         let n := Z.of_nat (nat_of_ascii c) in
         "%" ++ hex_digit (n / 16) ++ hex_digit (n mod 16))
      ++ form_encode s'
  end.

(** The pairs of a query string. *)
Definition parse_query (q : string) : list (string * string) :=
  flat_map
    (fun piece =>
       if String.eqb piece "" then []
       else
         let (n, v) := split_at (Ascii.eqb "=") piece in
         [(form_decode n,
           form_decode (substring 1 (String.length v - 1) v))])
    (pieces "&" q "").

Fixpoint serialize_query (l : list (string * string)) : string :=
  match l with
  | [] => ""
  | [(n, v)] => form_encode n ++ "=" ++ form_encode v
  | (n, v) :: l' =>
      form_encode n ++ "=" ++ form_encode v ++ "&" ++ serialize_query l'
  end.

Definition all_digits (s : string) : bool :=
  let '(_, count, rest) := read_digits s 0 0 in String.eqb rest "".

(** [new URL(s)] for an absolute [http] or [https] URL,
    [scheme://[user[:password]@]host[:port][/path][?query][#fragment]]:
    scheme and host in lower case, a default port dropped, an empty path
    made [/].  The host and the path are taken as written (no dot segments,
    no IP addresses, no percent-encoding of the path). *)
Definition URL_parse (s : string) : completion URL :=
  let (scheme, r0) := split_at (Ascii.eqb ":") s in
  let scheme := Relay.lower scheme in
  if negb (String.eqb scheme "http" || String.eqb scheme "https")
     || negb (String.prefix "://" r0)
  then Throw (TypeError "Invalid URL")
  else
    let r1 := substring 3 (String.length r0 - 3) r0 in
    let stop (c : ascii) :=
      Ascii.eqb c "/" || Ascii.eqb c "?" || Ascii.eqb c "#" in
    let (authority, r2) := split_at stop r1 in
    let parts := pieces "@" authority "" in
    let hostport := last parts "" in
    let userinfo :=
      substring 0 (String.length authority - String.length hostport - 1)
        authority in
    let (user, pass) := split_at (Ascii.eqb ":") userinfo in
    let (host, port') := split_at (Ascii.eqb ":") hostport in
    let port := substring 1 (String.length port' - 1) port' in
    let (path, r3) :=
      split_at (fun c => Ascii.eqb c "?" || Ascii.eqb c "#") r2 in
    let (query, fragment) := split_at (Ascii.eqb "#") r3 in
    if String.eqb host "" || negb (all_digits port) then
      Throw (TypeError "Invalid URL")
    else
      Normal
        (mkURL (scheme ++ ":") user
           (substring 1 (String.length pass - 1) pass) (Relay.lower host)
           (if (String.eqb scheme "http" && String.eqb port "80")
               || (String.eqb scheme "https" && String.eqb port "443")
            then "" else port)
           (if String.eqb path "" then "/" else path)
           (parse_query (substring 1 (String.length query - 1) query))
           (if String.eqb fragment "#" then "" else fragment)).

Definition URL_toString (u : URL) : string :=
  protocol u ++ "//"
  ++ (if String.eqb (username u) "" && String.eqb (password u) "" then ""
      else username u
           ++ (if String.eqb (password u) "" then "" else ":" ++ password u)
           ++ "@")
  ++ hostname u
  ++ (if String.eqb (port u) "" then "" else ":" ++ port u)
  ++ pathname u
  ++ (match searchParams u with
      | [] => ""
      | l => "?" ++ serialize_query l
      end)
  ++ hash u.

End Reference.

(** The reference runtime as an instance. *)
Definition reference : Runtime :=
  {| JSON_parse := Reference.JSON_parse;
     Math_round := Reference.Math_round;
     parseFloat := Reference.parseFloat;
     toFixed := Reference.toFixed;
     StringToNumber := Reference.StringToNumber;
     NumberToString := Reference.NumberToString;
     ObjectToPrimitive := Reference.ObjectToPrimitive;
     message := Reference.message;
     Date_parse := Reference.Date_parse;
     TimeClip := Reference.TimeClip;
     getDay := Reference.getDay;
     getMonth := Reference.getMonth;
     getDate := Reference.getDate;
     getHours := Reference.getHours;
     getMinutes := Reference.getMinutes;
     URL_parse := Reference.URL_parse;
     URL_toString := Reference.URL_toString |}.

(** ** Traces of fetchCurrency *)

Section Traces.
Context {R : Runtime}.

Import SharedData.

Definition request_eqb (a b : request) : bool :=
  match a, b with
  | xhr1, xhr1 | xhr2, xhr2 | xhr3, xhr3 => true
  | _, _ => false
  end.

(** A request delivers one event, [load] or [error]: in a well-formed
    trace no request has two. *)
Definition well_formed (evs : list xhr_event) : Prop :=
  NoDup (map event_request evs).

(** The event of request [x] in a trace, if it has arrived. *)
Definition event_of (x : request) (evs : list xhr_event) : option xhr_event :=
  find (fun e => request_eqb (event_request e) x) evs.

(** What a source contributes, from its own event alone. *)
Definition oxr_outcome (e : option xhr_event) : option OxrEntry.t :=
  match e with
  | Some (onload _ status responseText) =>
      assign status (oxr_try responseText) None
  | _ => None
  end.

Definition ecb_outcome (e : option xhr_event) : option EcbEntry.t :=
  match e with
  | Some (onload _ status responseText) =>
      assign status (ecb_try responseText) None
  | _ => None
  end.

Definition alt_outcome (e : option xhr_event) : option AltEntry.t :=
  match e with
  | Some (onload _ status responseText) =>
      assign status (alt_try responseText) None
  | _ => None
  end.

Definition outcomes (evs : list xhr_event) : Results.t :=
  Results.make (oxr_outcome (event_of xhr1 evs))
    (ecb_outcome (event_of xhr2 evs)) (alt_outcome (event_of xhr3 evs)).

(** A network failure, an HTTP status other than 200, or a response that
    [JSON.parse] rejects. *)
Definition network_or_parse_failure (e : xhr_event) : Prop :=
  match e with
  | onerror _ => True
  | onload _ status responseText =>
      status <> 200%Z \/ exists ex, JSON_parse responseText = Throw ex
  end.

(** The [try] block of the request's handler throws on the response. *)
Definition try_throws (x : request) (responseText : string) : Prop :=
  match x with
  | xhr1 => exists ex, oxr_try responseText = Throw ex
  | xhr2 => exists ex, ecb_try responseText = Throw ex
  | xhr3 => exists ex, alt_try responseText = Throw ex
  end.

(** The source fails: as above, or its response lacks what the handler
    reads. *)
Definition failed (e : xhr_event) : Prop :=
  match e with
  | onerror _ => True
  | onload x status responseText =>
      status <> 200%Z \/ try_throws x responseText
  end.

(** The entry of request [x] in [results] is [null]. *)
Definition entry_null (x : request) (r : Results.t) : Prop :=
  match x with
  | xhr1 => Results.oxr r = None
  | xhr2 => Results.ecb r = None
  | xhr3 => Results.alt r = None
  end.

(** The rates and labels of the entries present in [results]. *)
Definition present (r : Results.t) : list (string * string) :=
  (match Results.oxr r with Some o => [(OxrEntry.rate o, "OXR")] | None => [] end)
  ++ (match Results.ecb r with Some e => [(EcbEntry.rate e, "ECB")] | None => [] end)
  ++ (match Results.alt r with Some a => [(AltEntry.rate a, "Alt")] | None => [] end).

(** The label of a source, its place in the order of precedence, and the
    rate of its entry in [results]. *)
Definition label (x : request) : string :=
  match x with
  | xhr1 => "OXR"
  | xhr2 => "ECB"
  | xhr3 => "Alt"
  end.

Definition rank (x : request) : nat :=
  match x with
  | xhr1 => 0
  | xhr2 => 1
  | xhr3 => 2
  end.

Definition entry_rate (x : request) (r : Results.t) : option string :=
  match x with
  | xhr1 => option_map OxrEntry.rate (Results.oxr r)
  | xhr2 => option_map EcbEntry.rate (Results.ecb r)
  | xhr3 => option_map AltEntry.rate (Results.alt r)
  end.

(** The source succeeds with the rate [rate]: its response is JSON with
    the rate as a number under [rates] (and a primitive time stamp, where
    the handler reads one), and [rate] is the text the handler makes of
    it: [(1 / rates.EUR).toFixed(5)] for OXR, [rates.USD.toFixed(5)] for
    ECB and Alt. *)
Definition answers (x : request) (responseText rate : string) : Prop :=
  exists data rates,
    JSON_parse responseText = Normal data
    /\ get data "rates" = Normal rates
    /\ match x with
       | xhr1 =>
           exists eur timestamp,
             get rates "EUR" = Normal (VNum eur)
             /\ get data "timestamp" = Normal (VPrim timestamp)
             /\ rate = toFixed (PrimFloat.div 1 eur) 5
       | xhr2 =>
           exists usd,
             get rates "USD" = Normal (VNum usd) /\ rate = toFixed usd 5
       | xhr3 =>
           exists usd updated,
             get rates "USD" = Normal (VNum usd)
             /\ get data "time_last_update_utc" = Normal (VPrim updated)
             /\ rate = toFixed usd 5
       end.

(** The call [callback(null, {...})] made from the thresholds [t] and the
    entries [r]. *)
Definition callback_for (t : thresholds) (r : Results.t) : currency_callback :=
  mkCallback null
    (Currency.make (displayRate r) (source r)
       (status (fetchCurrency t) (parseFloat (displayRate r))) r).

(** ** Weather responses of the expected shape *)

(** The property [k] of [o] is a primitive, or missing. *)
Definition field_ok (o : list (string * value)) (k : string) : Prop :=
  match assoc k o with
  | Some v => is_primitive v = true
  | None => True
  end.

(** The property [k] of [o] is an array of primitives, of any length. *)
Definition series_ok (o : list (string * value)) (k : string) : Prop :=
  exists l, assoc k o = Some (VArr l) /\ forallb is_primitive l = true.

(** An answer of the forecast API: no [error] and no [reason], an object
    [current] with primitive readings and an object [daily] with the
    seven series. *)
Definition well_shaped (data : value) : Prop :=
  exists props cur daily,
    data = VObj props
    /\ match assoc "error" props with Some v => truthy v = false | None => True end
    /\ match assoc "reason" props with Some v => truthy v = false | None => True end
    /\ assoc "current" props = Some (VObj cur)
    /\ assoc "daily" props = Some (VObj daily)
    /\ Forall (field_ok cur)
         ["temperature_2m"; "apparent_temperature"; "wind_speed_10m";
          "weather_code"]
    /\ Forall (series_ok daily)
         ["temperature_2m_max"; "temperature_2m_min";
          "precipitation_probability_max"; "sunrise"; "sunset"; "time";
          "weather_code"].

(** ** Rounded temperatures *)

(** [c] and [f] are the rounded Celsius and Fahrenheit readings of the raw
    value [v]. *)
Definition rounded (v : value) (c f : float) : Prop :=
  exists x, ToNumber v = Normal x
            /\ c = Math_round x
            /\ f = Math_round (x * 9 / 5 + 32)%float.

End Traces.

(** ** Sample inputs *)

(** ** What the relay decides *)

(** The target an outcome awaits, and the answer it returns on its own. *)
Definition awaited (o : Relay.outcome) : option string :=
  match o with
  | Relay.awaits_fetch target _ => Some target
  | _ => None
  end.

Definition answered (o : Relay.outcome) : option Relay.Response :=
  match o with
  | Relay.returns r => Some r
  | _ => None
  end.

Module Sample.

Import SharedData.

(** A forecast response of Open-Meteo; the chance of rain is [0] today and
    [null] on the second day after. *)
Definition weather : string :=
  Reference.json
    ("{'latitude':52.52,'longitude':13.42,'timezone':'Europe/Berlin',"
     ++ "'current':{'time':'2024-05-01T12:00','temperature_2m':18.4,"
     ++ "'relative_humidity_2m':55,'apparent_temperature':17.5,"
     ++ "'weather_code':2,'wind_speed_10m':7.6},"
     ++ "'daily':{'time':['2024-05-01','2024-05-02','2024-05-03','2024-05-04'],"
     ++ "'sunrise':['2024-05-01T05:38','2024-05-02T05:36','2024-05-03T05:34',"
     ++ "'2024-05-04T05:32'],"
     ++ "'sunset':['2024-05-01T20:30','2024-05-02T20:32','2024-05-03T20:33',"
     ++ "'2024-05-04T20:35'],"
     ++ "'temperature_2m_max':[21.5,24.1,25.5,-0.5],"
     ++ "'temperature_2m_min':[9.3,11.2,12.5,-3.7],"
     ++ "'precipitation_probability_max':[0,10,null,65],"
     ++ "'weather_code':[2,1,61,71]}}").

(** Responses of the three currency sources. *)
Definition oxr : string :=
  Reference.json
    "{'timestamp':1711497601,'base':'USD','rates':{'EUR':0.92,'GBP':0.79}}".

Definition ecb : string :=
  Reference.json
    "{'amount':1.0,'base':'EUR','date':'2024-03-26','rates':{'USD':1.0834}}".

Definition ecb_high : string :=
  Reference.json
    "{'amount':1.0,'base':'EUR','date':'2024-03-26','rates':{'USD':1.5}}".

Definition alt : string :=
  Reference.json
    ("{'base':'EUR','time_last_update_utc':'Wed, 27 Mar 2024 00:00:01 +0000',"
     ++ "'rates':{'USD':1.08}}").

(** All three sources answer, ECB first. *)
Definition all_answer : list xhr_event :=
  [onload xhr2 200 ecb; onload xhr3 200 alt; onload xhr1 200 oxr].

(** OXR is unreachable, ECB answers, Alt sends a page that is not JSON. *)
Definition ecb_only : list xhr_event :=
  [onerror xhr1; onload xhr3 200 "<html>Bad gateway</html>"; onload xhr2 200 ecb].

(** No source answers: a network error, a status 503, a body without
    rates. *)
Definition none_answer : list xhr_event :=
  [onload xhr2 503 ""; onerror xhr3; onload xhr1 200 "{}"].

(** Only Alt answers: OXR is unreachable and ECB is down. *)
Definition alt_only : list xhr_event :=
  [onerror xhr1; onload xhr3 200 alt; onload xhr2 503 "Service Unavailable"].

(** Only ECB answers, with a rate of 1.5. *)
Definition ecb_high_only : list xhr_event :=
  [onerror xhr1; onload xhr2 200 ecb_high; onerror xhr3].

Definition no_thresholds : thresholds := mkThresholds PUndefined PUndefined.

(** Thresholds given the wrong way round: [{ low: 2, high: 1 }]. *)
Definition crossed_thresholds : thresholds :=
  mkThresholds (PNum 2) (PNum 1).

(** Requests to the relay: the weather request of the dashboard; one with
    its own [apikey]; one for a host off the list; one without [url]. *)
Definition weather_target : string :=
  "http://api.open-meteo.com/v1/forecast?latitude=52.52&current=temperature_2m".

Definition weather_request : Relay.Request :=
  Relay.mkRequest
    ("https://weatherproxy.ldmathes.cc/?url=http%3A%2F%2Fapi.open-meteo.com"
     ++ "%2Fv1%2Fforecast%3Flatitude%3D52.52%26current%3Dtemperature_2m").

Definition keyed_target : string :=
  "http://api.open-meteo.com/v1/forecast?latitude=52.52&apikey=mine".

Definition keyed_request : Relay.Request :=
  Relay.mkRequest
    ("https://weatherproxy.ldmathes.cc/?url=http%3A%2F%2Fapi.open-meteo.com"
     ++ "%2Fv1%2Fforecast%3Flatitude%3D52.52%26apikey%3Dmine").

(** A request whose target carries [apikey] twice, the first time before
    another parameter. *)
Definition keyed_twice_target : string :=
  "http://api.open-meteo.com/v1/forecast?apikey=mine&latitude=52.52&apikey=other".

Definition keyed_twice_request : Relay.Request :=
  Relay.mkRequest
    ("https://weatherproxy.ldmathes.cc/?url=http%3A%2F%2Fapi.open-meteo.com"
     ++ "%2Fv1%2Fforecast%3Fapikey%3Dmine%26latitude%3D52.52%26apikey%3Dother").

Definition rates_target : string :=
  "https://api.frankfurter.app/latest?from=EUR&to=USD".

Definition rates_request : Relay.Request :=
  Relay.mkRequest
    ("https://weatherproxy.ldmathes.cc/?url=https%3A%2F%2Fapi.frankfurter.app"
     ++ "%2Flatest%3Ffrom%3DEUR%26to%3DUSD").

Definition foreign_request : Relay.Request :=
  Relay.mkRequest
    "https://weatherproxy.ldmathes.cc/?url=https%3A%2F%2Fexample.org%2Fdata".

Definition bare_request : Relay.Request :=
  Relay.mkRequest "https://weatherproxy.ldmathes.cc/?lat=1".

Definition with_key : Relay.Env := Relay.mkEnv (Some "SECRET").
Definition without_key : Relay.Env := Relay.mkEnv None.

End Sample.

(** ** The rest of shared-data.js *)

(** [encodeURIComponent], the one library function of the request side that
    [Runtime] does not list. *)
Class Encoder : Type := {
  encodeURIComponent : string -> string
}.

Module SharedDataRest.

Import SharedData.

Local Open Scope float_scope.

(** [CONFIG]. *)
Record Config : Type := mkConfig {
  PROXY_URL : value;
  USE_PROXY : value
}.

Definition CONFIG : Config :=
  mkConfig (VStr "https://weatherproxy.ldmathes.cc/") (VPrim (PBool false)).

(** [setProxyMode(useProxy, proxyUrl)] on the configuration it mutates. *)
Definition setProxyMode (useProxy proxyUrl : value) (c : Config) : Config :=
  mkConfig (if truthy proxyUrl then proxyUrl else PROXY_URL c) useProxy.

(** [isInActiveWindow], on what [now.getUTCDay()] and [now.getUTCHours()]
    read from the clock. *)
Definition isInActiveWindow (utcDay utcHour : float) : bool :=
  if (0 <=? utcHour) && (utcHour <=? 7) then false
  else if (utcDay =? 5) && (21 <=? utcHour) then false
  else if utcDay =? 6 then false
  else if (utcDay =? 0) && (utcHour <? 21) then false
  else true.

Definition apiUrl1 : string :=
  "https://openexchangerates.org/api/latest.json?app_id=59f0442d524d41608055554519509c57".

Definition apiUrl2 : string :=
  "https://api.frankfurter.app/latest?from=EUR&to=USD".

Definition apiUrl3 : string :=
  "https://api.exchangerate-api.com/v4/latest/EUR".

(** What a [catch] can get: an error the engine made ([JSON.parse], a
    property read of [undefined]), or whatever value the callback chose to
    throw; an [Error] it made is an object with its [message]. *)
Inductive thrown : Type :=
| by_engine (ex : exn)
| by_callback (v : value).

Section WithRuntime.
Context {R : Runtime} {E : Encoder}.

(** [apiUrl] of [fetchWeather]: the strings joined with [lat] and [lon]. *)
Definition weather_apiUrl (lat lon : value) : completion string :=
  a <- ToPrimitive lat ;;
  b <- ToPrimitive lon ;;
  Normal
    ("http://api.open-meteo.com/v1/forecast?latitude=" ++ ToString_prim a
     ++ "&longitude=" ++ ToString_prim b
     ++ "&current=temperature_2m,relative_humidity_2m,apparent_temperature,weather_code,wind_speed_10m"
     ++ "&daily=sunrise,sunset,temperature_2m_max,temperature_2m_min,precipitation_probability_max,weather_code"
     ++ "&temperature_unit=celsius&wind_speed_unit=mph&timezone=auto&forecast_days=4")%string.

(** [CONFIG.USE_PROXY ? CONFIG.PROXY_URL + '?url=' +
    encodeURIComponent(apiUrl) : apiUrl]: the URL a request is opened
    with. *)
Definition request_url (c : Config) (apiUrl : string) : completion string :=
  if truthy (USE_PROXY c) then
    p <- ToPrimitive (PROXY_URL c) ;;
    Normal (ToString_prim p ++ "?url=" ++ encodeURIComponent apiUrl)%string
  else Normal apiUrl.

(** [e.message] in the [catch] of [fetchWeather], then ['Parse error: ' +
    e.message]: the message of an error the engine made; for a value the
    callback threw, whatever it has under [message], which is a [TypeError]
    when the value is [undefined] or [null]. *)
Definition catch_text (e : thrown) : completion string :=
  m <- match e with
       | by_engine ex => Normal (VStr (message ex))
       | by_callback v => get v "message"
       end ;;
  p <- ToPrimitive m ;;
  Normal ("Parse error: " ++ ToString_prim p)%string.

(** [xhr.onload] of [fetchWeather] with the callback as the caller wrote
    it: [callback n a] is what its call number [n] does on the argument
    [a], returning ([None]) or throwing.  Both calls of the [try] block are
    guarded by its [catch], whose own call is not, and neither is the
    reading of [e.message].  The result is the list of calls made and how
    the handler ends. *)
Definition weather_onload_calling
  (callback : nat -> weather_callback -> option thrown)
  (status : Z) (responseText : string)
  : list weather_callback * option thrown :=
  if (status =? 200)%Z then
    let catch (made : list weather_callback) (e : thrown) :=
      match catch_text e with
      | Normal text =>
          let a := callback_error (VStr text) in
          ((made ++ [a])%list, callback (List.length made) a)
      | Throw ex => (made, Some (by_engine ex))
      end in
    match weather_try responseText with
    | Normal a =>
        match callback 0%nat a with
        | None => ([a], None)
        | Some e => catch [a] e
        end
    | Throw ex => catch [] (by_engine ex)
    end
  else
    let a := callback_error (VStr ("HTTP Error " ++ status_text status)) in
    ([a], callback 0%nat a).

End WithRuntime.
End SharedDataRest.

(** [encodeURIComponent] on a string of bytes: letters, digits and
    [-_.!~*'()] stay, every other byte is [%XX]. *)
Definition unreserved (c : ascii) : bool :=
  let n := Z.of_nat (nat_of_ascii c) in
  (((48 <=? n) && (n <=? 57)) || ((65 <=? n) && (n <=? 90))
   || ((97 <=? n) && (n <=? 122))
   || (n =? 45) || (n =? 95) || (n =? 46) || (n =? 33) || (n =? 126)
   || (n =? 42) || (n =? 39) || (n =? 40) || (n =? 41))%Z.

Fixpoint percent_encode (s : string) : string :=
  match s with
  | EmptyString => ""
  | String c s' =>
      (if unreserved c then String c ""
       else
         let n := Z.of_nat (nat_of_ascii c) in
         "%" ++ Reference.hex_digit (n / 16) ++ Reference.hex_digit (n mod 16))
      ++ percent_encode s'
  end.

Definition reference_encoder : Encoder :=
  {| encodeURIComponent := percent_encode |}.

(** ** Headers and configuration, for the statements below *)

(** The headers the relay fixes on a forwarded answer, as iterating over
    them shows them. *)
Definition fixed_headers : list (string * string) :=
  [("access-control-allow-methods", "GET");
   ("access-control-allow-origin", "*");
   ("cache-control", "public, max-age=300");
   ("content-type", "application/json")].

(** What iteration shows under a name: the values combined, those of
    [set-cookie] apart. *)
Definition combined (n : string) (h : list (string * string)) : list string :=
  if String.eqb (Relay.lower n) "set-cookie" then Relay.values n h
  else
    match Relay.values n h with
    | [] => []
    | vs => [String.concat ", " vs]
    end.

(** The header list of the answer the second version builds from
    [responseHeaders], for a response fetched with the headers [h]. *)
Definition forwarded_headers (h : list (string * string))
  : list (string * string) :=
  Relay.fill (Relay.entries (Relay.relay_headers h)) [].

(** The configuration after a series of calls [setProxyMode(useProxy,
    proxyUrl)], the first call first. *)
Definition after_calls (calls : list (value * value))
  (c : SharedDataRest.Config) : SharedDataRest.Config :=
  fold_left (fun c call => SharedDataRest.setProxyMode (fst call) (snd call) c)
    calls c.

(** ** More sample inputs *)

Module Sample2.

Import SharedData.
Import SharedDataRest.

(** The forecast API refusing a latitude, and an answer without
    [current]. *)
Definition weather_refused : string :=
  Reference.json
    "{'error':true,'reason':'Latitude must be in range of -90 to 90. Given: 100.0.'}".

Definition weather_partial : string :=
  Reference.json "{'latitude':52.52,'longitude':13.42}".

(** A callback that renders data and fails in doing so with [throw new
    Error('render')], and reports errors without failing; and one that
    fails with [throw null]. *)
Definition failing_render (n : nat) (a : weather_callback) : option thrown :=
  match a with
  | callback_data _ => Some (by_callback (VObj [("message", VStr "render")]))
  | callback_error _ => None
  end.

Definition throwing_null (n : nat) (a : weather_callback) : option thrown :=
  match a with
  | callback_data _ => Some (by_callback null)
  | callback_error _ => None
  end.

(** An OXR answer whose [rates] has no [EUR], and an Alt answer dated in
    the format of the standard. *)
Definition oxr_no_rate : string :=
  Reference.json "{'timestamp':1711497601,'base':'USD','rates':{'GBP':0.79}}".

Definition alt_dated : string :=
  Reference.json
    "{'base':'EUR','time_last_update_utc':'2024-03-27T00:00:01Z','rates':{'USD':1.08}}".

(** OXR answers without a rate, ECB and Alt answer in full. *)
Definition oxr_without_rate : list xhr_event :=
  [onload xhr1 200 oxr_no_rate; onload xhr2 200 Sample.ecb;
   onload xhr3 200 Sample.alt].

(** The three answers of [Sample.all_answer] in another order. *)
Definition all_answer_reordered : list xhr_event :=
  [onload xhr1 200 Sample.oxr; onload xhr2 200 Sample.ecb;
   onload xhr3 200 Sample.alt].

(** Responses the relay may fetch: a 404 with headers of its own, and a
    status outside what the [Response] constructor takes. *)
Definition upstream_404 : Relay.Response :=
  Relay.mkResponse (Some "{}") 404 "Not Found"
    [("Content-Type", "text/html"); ("X-Served-By", "cache-1");
     ("Set-Cookie", "a=1")].

Definition upstream_999 : Relay.Response :=
  Relay.mkResponse (Some "denied") 999 "" [].

(** The relay asked for something that is no URL. *)
Definition malformed_request : Relay.Request :=
  Relay.mkRequest "https://weatherproxy.ldmathes.cc/?url=forecast".

(** The legacy device: proxy mode on, with the proxy URL left as it is. *)
Definition legacy : Config := setProxyMode (VPrim (PBool true)) undefined CONFIG.

End Sample2.

(** * Properties *)

Import SharedData.

(** ** Completions *)

Lemma bind_Normal {A B : Type} (c : completion A) (k : A -> completion B)
  (b : B) :
  (x <- c ;; k x) = Normal b -> exists a, c = Normal a /\ k a = Normal b.
Proof.
  destruct c as [a | e]; simpl; intros H; [eauto | discriminate].
Qed.

(** ** The order of binary64 numbers *)

Section FloatOrder.

Local Open Scope float_scope.

Lemma SFcompare_Lt_Gt (a b : spec_float) :
  SFcompare a b = Some Lt -> SFcompare b a = Some Gt.
Proof.
  destruct a as [s1 | s1 | | s1 m1 e1], b as [s2 | s2 | | s2 m2 e2]; simpl;
    try discriminate;
    try (destruct s1; discriminate || reflexivity);
    try (destruct s2; discriminate || reflexivity);
    try (destruct s1, s2; discriminate || reflexivity).
  change (Pos.compare_cont Eq m1 m2) with (Pos.compare m1 m2).
  change (Pos.compare_cont Eq m2 m1) with (Pos.compare m2 m1).
  rewrite (Z.compare_antisym e1 e2), (Pos.compare_antisym m1 m2).
  destruct s1, s2; try discriminate; try reflexivity;
    destruct (e1 ?= e2)%Z; simpl; try discriminate; try reflexivity;
    destruct (m1 ?= m2)%positive; simpl; try discriminate; reflexivity.
Qed.

(** Case analysis on every comparison of exponents and mantissas in sight. *)
Ltac compare_cases :=
  change (Pos.compare_cont Eq) with Pos.compare in *;
  repeat match goal with
    | H : context [(?a ?= ?b)%Z] |- _ =>
        destruct (Z.compare_spec a b); try discriminate
    | H : context [(?a ?= ?b)%positive] |- _ =>
        destruct (Pos.compare_spec a b); try discriminate
    end;
  subst;
  repeat match goal with
    | |- context [(?a ?= ?b)%Z] => destruct (Z.compare_spec a b); try lia
    | |- context [(?a ?= ?b)%positive] =>
        destruct (Pos.compare_spec a b); try lia
    end;
  try reflexivity; try discriminate; simpl in *; try discriminate.

Lemma SFcompare_Lt_trans (a b c : spec_float) :
  SFcompare a b = Some Lt ->
  SFcompare b c = Some Lt \/ SFcompare b c = Some Eq ->
  SFcompare a c = Some Lt.
Proof.
  destruct a as [s1 | s1 | | s1 m1 e1], b as [s2 | s2 | | s2 m2 e2],
    c as [s3 | s3 | | s3 m3 e3]; simpl; intros H [H' | H'];
    try discriminate;
    repeat match goal with s : bool |- _ => destruct s end;
    try discriminate; try reflexivity; compare_cases.
Qed.

Lemma SFcompare_Eq_Lt_trans (a b c : spec_float) :
  SFcompare a b = Some Eq -> SFcompare b c = Some Lt ->
  SFcompare a c = Some Lt.
Proof.
  destruct a as [s1 | s1 | | s1 m1 e1], b as [s2 | s2 | | s2 m2 e2],
    c as [s3 | s3 | | s3 m3 e3]; simpl; intros H H';
    try discriminate;
    repeat match goal with s : bool |- _ => destruct s end;
    try discriminate; try reflexivity; compare_cases.
Qed.

(** [a < x] excludes [x <= a] and [x = a]. *)
Lemma ltb_leb_false (a x : float) : (a <? x) = true -> (x <=? a) = false.
Proof.
  rewrite ltb_spec, leb_spec. unfold SFltb, SFleb. intros H.
  destruct (SFcompare (Prim2SF a) (Prim2SF x)) as [[] |] eqn:E;
    try discriminate.
  now rewrite (SFcompare_Lt_Gt _ _ E).
Qed.

Lemma ltb_eqb_false (a x : float) : (a <? x) = true -> (x =? a) = false.
Proof.
  rewrite ltb_spec, eqb_spec. unfold SFltb, SFeqb. intros H.
  destruct (SFcompare (Prim2SF a) (Prim2SF x)) as [[] |] eqn:E;
    try discriminate.
  now rewrite (SFcompare_Lt_Gt _ _ E).
Qed.

(** [a < b <= x] gives [a < x], and so does [a <= b < x]. *)
Lemma ltb_leb_trans (a b x : float) :
  (a <? b) = true -> (b <=? x) = true -> (a <? x) = true.
Proof.
  rewrite !ltb_spec, leb_spec. unfold SFltb, SFleb. intros H H'.
  destruct (SFcompare (Prim2SF a) (Prim2SF b)) as [[] |] eqn:E;
    try discriminate.
  destruct (SFcompare (Prim2SF b) (Prim2SF x)) as [[] |] eqn:E';
    try discriminate;
    now rewrite (SFcompare_Lt_trans _ _ _ E) by (rewrite E'; auto).
Qed.

Lemma leb_ltb_trans (a b x : float) :
  (a <=? b) = true -> (b <? x) = true -> (a <? x) = true.
Proof.
  rewrite !ltb_spec, leb_spec. unfold SFltb, SFleb. intros H H'.
  destruct (SFcompare (Prim2SF b) (Prim2SF x)) as [[] |] eqn:E';
    try discriminate.
  destruct (SFcompare (Prim2SF a) (Prim2SF b)) as [[] |] eqn:E;
    try discriminate.
  - now rewrite (SFcompare_Eq_Lt_trans _ _ _ E E').
  - now rewrite (SFcompare_Lt_trans _ _ _ E) by (rewrite E'; auto).
Qed.

(** A number from [a] on is above every [b < a]. *)
Lemma above (b a x : float) :
  (b <? a) = true -> (a <=? x) = true -> (x <=? b) = false /\ (x =? b) = false.
Proof.
  intros H H'. pose proof (ltb_leb_trans _ _ _ H H') as L.
  split; [now apply ltb_leb_false | now apply ltb_eqb_false].
Qed.

End FloatOrder.

(** ** The reference runtime on known values *)

Section ReferenceChecks.

Local Open Scope float_scope.

(** The integer chosen by [Math.round] and [toFixed] is a nearest one:
    with [d = 2 ^ (- e)], the distance from [m / d] to [n] is at most one
    half, and a tie goes up. *)
Lemma round_half_up_nearest (m e : Z) :
  (e < 0)%Z ->
  (- 2 ^ (- e) <= 2 * (m - Reference.round_half_up m e 0 * 2 ^ (- e))
   < 2 ^ (- e))%Z.
Proof.
  intros He. unfold Reference.round_half_up, Reference.scaled.
  rewrite (Z.max_r e 0), (Z.max_l (- e) 0) by lia.
  change (Z.max 0 0) with 0%Z. change (Z.max (- 0) 0) with 0%Z.
  change (10 ^ 0)%Z with 1%Z. change (2 ^ 0)%Z with 1%Z.
  rewrite !Z.mul_1_r.
  assert (Hd : (0 < 2 ^ (- e))%Z) by (apply Z.pow_pos_nonneg; lia).
  set (d := (2 ^ (- e))%Z) in *.
  pose proof (Z.div_mod (2 * m + d) (2 * d) ltac:(lia)) as E.
  pose proof (Z.mod_pos_bound (2 * m + d) (2 * d) ltac:(lia)) as B.
  lia.
Qed.

Example Math_round_values :
  map Reference.Math_round
    [2.5; -2.5; 0.49999999999999994; -0.3; 63.5; 65.12; -3.7;
     4503599627370497.5; nan]
  = [3; -2; 0; -0; 64; 65; -4; 4503599627370498; nan].
Proof. vm_compute. reflexivity. Qed.

Example toFixed_values :
  map (fun x => Reference.toFixed x 5)
    [1.0834; 1 / 0.92; 1.5; 0; 0.000005; -0.000001; 1e21; 1 / 0; nan]
  = ["1.08340"; "1.08696"; "1.50000"; "0.00000"; "0.00001"; "-0.00000";
     "1e+21"; "Infinity"; "NaN"].
Proof. vm_compute. reflexivity. Qed.

Example parseFloat_values :
  map Reference.parseFloat
    ["1.08340"; "0.00000"; "1.50000"; "  -12.5e2xyz"; ".5"; "abc"; ""]
  = [1.0834; 0; 1.5; -1250; 0.5; nan; nan].
Proof. vm_compute. reflexivity. Qed.

Example NumberToString_values :
  map Reference.NumberToString
    [0.1; 27; 100; 1e21; 1e-7; 0.000001; 123.456; -7.5; 5e-324; nan]
  = ["0.1"; "27"; "100"; "1e+21"; "1e-7"; "0.000001"; "123.456"; "-7.5";
     "5e-324"; "NaN"].
Proof. vm_compute. reflexivity. Qed.

Example JSON_parse_values :
  Reference.JSON_parse (Reference.json "{'a':[1,'x',null,true],'b':{'c':-0.5}}")
  = Normal
      (VObj
         [("a", VArr [VNum 1; VStr "x"; null; VPrim (PBool true)]);
          ("b", VObj [("c", VNum (-0.5))])])
  /\ (exists ex, Reference.JSON_parse "<html>" = Throw ex)
  /\ (exists ex, Reference.JSON_parse "[1,]" = Throw ex).
Proof. repeat split; try eexists; vm_compute; reflexivity. Qed.

(** 1 May 2024 was a Wednesday. *)
Example Date_values :
  let t := Reference.Date_parse "2024-05-01T06:12" in
  t = 1714543920000
  /\ map (fun f => f t)
       [Reference.getDay; Reference.getMonth; Reference.getDate;
        Reference.getHours; Reference.getMinutes]
     = [3; 4; 1; 6; 12]
  /\ PrimFloat.is_nan (Reference.Date_parse "yesterday") = true.
Proof. repeat split; vm_compute; reflexivity. Qed.

Example URL_values :
  Reference.URL_parse "HTTP://API.Open-Meteo.com:80/v1/forecast?a=1&b=x%2Cy#top"
  = Normal
      (mkURL "http:" "" "" "api.open-meteo.com" "" "/v1/forecast"
         [("a", "1"); ("b", "x,y")] "#top")
  /\ Reference.URL_toString
       (mkURL "http:" "" "" "api.open-meteo.com" "" "/v1/forecast"
          [("a", "1"); ("b", "x,y")] "#top")
     = "http://api.open-meteo.com/v1/forecast?a=1&b=x%2Cy#top"
  /\ (exists ex, Reference.URL_parse "not a url" = Throw ex).
Proof. repeat split; try eexists; vm_compute; reflexivity. Qed.

End ReferenceChecks.

(** ** getWeatherIcon *)

Section Icons.
Context {R : Runtime}.

Local Open Scope float_scope.

(** On a primitive the chain of comparisons runs on its number. *)
Lemma getWeatherIcon_prim (p : primitive) :
  getWeatherIcon (VPrim p) =
  Normal
    (if strict_eq_num (VPrim p) 0 then sun
     else if ToNumber_prim p <=? 3 then cloud
     else if ToNumber_prim p <=? 67 then rain
     else if ToNumber_prim p <=? 77 then snow
     else if ToNumber_prim p <=? 99 then storm
     else sun).
Proof.
  unfold getWeatherIcon, le_num, ToNumber, ToPrimitive; simpl.
  repeat match goal with |- context [if ?b then _ else _] => destruct b end;
    reflexivity.
Qed.

Lemma getWeatherIcon_number (x : float) :
  getWeatherIcon (VNum x) =
  Normal
    (if x =? 0 then sun
     else if x <=? 3 then cloud
     else if x <=? 67 then rain
     else if x <=? 77 then snow
     else if x <=? 99 then storm
     else sun).
Proof. apply (getWeatherIcon_prim (PNum x)). Qed.

Lemma icons_distinct : NoDup [sun; cloud; rain; snow; storm].
Proof.
  repeat constructor; simpl; intros H;
    repeat destruct H as [H | H]; try discriminate H; exact H.
Qed.

(** C10: [getWeatherIcon] returns one of five distinct icons for every
    primitive code, and on a number it follows the rising boundaries: a
    code equal to 0 gives the sun, a code from 1 to 3 the cloud, from 4 to
    67 the rain, from 68 to 77 the snow, from 78 to 99 the storm, and a
    code above 99 the sun again. *)
Theorem getWeatherIcon_partition :
  (forall p : primitive,
      exists icon, getWeatherIcon (VPrim p) = Normal icon
                   /\ In icon [sun; cloud; rain; snow; storm])
  /\ NoDup [sun; cloud; rain; snow; storm]
  /\ forall code : float,
      ((code =? 0) = true -> getWeatherIcon (VNum code) = Normal sun)
      /\ ((1 <=? code) = true -> (code <=? 3) = true ->
          getWeatherIcon (VNum code) = Normal cloud)
      /\ ((4 <=? code) = true -> (code <=? 67) = true ->
          getWeatherIcon (VNum code) = Normal rain)
      /\ ((68 <=? code) = true -> (code <=? 77) = true ->
          getWeatherIcon (VNum code) = Normal snow)
      /\ ((78 <=? code) = true -> (code <=? 99) = true ->
          getWeatherIcon (VNum code) = Normal storm)
      /\ ((99 <? code) = true -> getWeatherIcon (VNum code) = Normal sun).
Proof.
  split; [| split; [exact icons_distinct |]].
  - intros p. rewrite getWeatherIcon_prim. eexists; split; [reflexivity |].
    simpl.
    repeat match goal with |- context [if ?b then _ else _] => destruct b end;
      auto 10.
  - intros code. rewrite getWeatherIcon_number.
    repeat split.
    + intros ->. reflexivity.
    + intros L U.
      destruct (above 0 1 code eq_refl L) as [_ ->]. now rewrite U.
    + intros L U.
      destruct (above 0 4 code eq_refl L) as [_ ->].
      destruct (above 3 4 code eq_refl L) as [-> _]. now rewrite U.
    + intros L U.
      destruct (above 0 68 code eq_refl L) as [_ ->].
      destruct (above 3 68 code eq_refl L) as [-> _].
      destruct (above 67 68 code eq_refl L) as [-> _]. now rewrite U.
    + intros L U.
      destruct (above 0 78 code eq_refl L) as [_ ->].
      destruct (above 3 78 code eq_refl L) as [-> _].
      destruct (above 67 78 code eq_refl L) as [-> _].
      destruct (above 77 78 code eq_refl L) as [-> _]. now rewrite U.
    + intros L.
      pose proof (ltb_eqb_false _ _ (leb_ltb_trans 0 99 code eq_refl L)) as ->.
      pose proof (ltb_leb_false _ _ (leb_ltb_trans 3 99 code eq_refl L)) as ->.
      pose proof (ltb_leb_false _ _ (leb_ltb_trans 67 99 code eq_refl L)) as ->.
      pose proof (ltb_leb_false _ _ (leb_ltb_trans 77 99 code eq_refl L)) as ->.
      now rewrite (ltb_leb_false _ _ L).
Qed.

End Icons.

(** The six ranges of C10 at the codes 0, 2, 45, 71, 95 and 100. *)
Lemma getWeatherIcon_partition_witness :
  getWeatherIcon (R := reference) (VNum 0) = Normal sun
  /\ getWeatherIcon (R := reference) (VNum 2) = Normal cloud
  /\ getWeatherIcon (R := reference) (VNum 45) = Normal rain
  /\ getWeatherIcon (R := reference) (VNum 71) = Normal snow
  /\ getWeatherIcon (R := reference) (VNum 95) = Normal storm
  /\ getWeatherIcon (R := reference) (VNum 100) = Normal sun.
Proof.
  pose proof (proj2 (proj2 (@getWeatherIcon_partition reference))) as P.
  exact
    (conj (proj1 (P 0%float) eq_refl)
       (conj (proj1 (proj2 (P 2%float)) eq_refl eq_refl)
          (conj (proj1 (proj2 (proj2 (P 45%float))) eq_refl eq_refl)
             (conj
                (proj1 (proj2 (proj2 (proj2 (P 71%float)))) eq_refl eq_refl)
                (conj
                   (proj1 (proj2 (proj2 (proj2 (proj2 (P 95%float)))))
                      eq_refl eq_refl)
                   (proj2 (proj2 (proj2 (proj2 (proj2 (P 100%float)))))
                      eq_refl)))))).
Defined.

(** ** fetchCurrency: the closure after a trace *)

Section Currency.
Context {R : Runtime}.

Lemma run_snoc (t : thresholds) (evs : list xhr_event) (e : xhr_event) :
  run t (evs ++ [e]) = handle (run t evs) e.
Proof. unfold run. now rewrite fold_left_app. Qed.

Lemma request_eqb_eq (a b : request) : request_eqb a b = true <-> a = b.
Proof. destruct a, b; simpl; split; congruence. Qed.

Lemma event_of_None (x : request) (evs : list xhr_event) :
  ~ In x (map event_request evs) -> event_of x evs = None.
Proof.
  unfold event_of. induction evs as [| e evs IH]; simpl; [reflexivity |].
  intros H. destruct (request_eqb (event_request e) x) eqn:E.
  - apply request_eqb_eq in E. tauto.
  - apply IH. tauto.
Qed.

Lemma event_of_snoc (x : request) (evs : list xhr_event) (e : xhr_event) :
  event_of x (evs ++ [e]) =
  match event_of x evs with
  | Some e' => Some e'
  | None => if request_eqb (event_request e) x then Some e else None
  end.
Proof.
  unfold event_of. induction evs as [| e' evs IH]; simpl.
  - reflexivity.
  - destruct (request_eqb (event_request e') x); [reflexivity | exact IH].
Qed.

Lemma well_formed_snoc (evs : list xhr_event) (e : xhr_event) :
  well_formed (evs ++ [e]) ->
  well_formed evs /\ event_of (event_request e) evs = None.
Proof.
  unfold well_formed. rewrite map_app. simpl. intros H.
  apply NoDup_remove in H. rewrite app_nil_r in H.
  destruct H as [H1 H2]. split; [exact H1 | now apply event_of_None].
Qed.

(** Three requests: a well-formed trace has at most three events. *)
Lemma well_formed_length (evs : list xhr_event) :
  well_formed evs -> List.length evs <= 3.
Proof.
  intros H. rewrite <- (length_map event_request).
  apply (NoDup_incl_length (l' := [xhr1; xhr2; xhr3]) H).
  intros [] _; simpl; auto.
Qed.

(** The thresholds never change, and the counter counts the events. *)
Lemma run_thresholds (t : thresholds) (evs : list xhr_event) :
  lowThreshold (run t evs) = or_else_prim (low t) (PNum 1.1)
  /\ highThreshold (run t evs) = or_else_prim (high t) (PNum 1.2)
  /\ completed (run t evs) = List.length evs.
Proof.
  induction evs as [| e evs IH] using rev_ind.
  - repeat split.
  - rewrite run_snoc, length_app, Nat.add_1_r.
    destruct IH as (L & H & C).
    destruct e as [[] st txt | x]; simpl; rewrite C; auto.
Qed.

Lemma status_thresholds (c c' : closure) (x : float) :
  lowThreshold c = lowThreshold c' -> highThreshold c = highThreshold c' ->
  status c x = status c' x.
Proof. unfold status. now intros -> ->. Qed.

(** After a well-formed trace every entry of [results] is what its own
    source contributed, in whatever order the events arrived, and [callback]
    has been called once if three events have arrived and not at all
    otherwise. *)
Lemma run_well_formed (t : thresholds) (evs : list xhr_event) :
  well_formed evs ->
  results (run t evs) = outcomes evs
  /\ calls (run t evs) =
     if (3 <=? List.length evs)%nat then [callback_for t (outcomes evs)] else [].
Proof.
  induction evs as [| e evs IH] using rev_ind; intros W.
  - split; reflexivity.
  - pose proof (well_formed_length _ W) as Len.
    apply well_formed_snoc in W. destruct W as [W N].
    destruct (IH W) as [Res Calls]. clear IH.
    destruct (run_thresholds t evs) as (Lo & Hi & C).
    rewrite length_app, Nat.add_1_r in Len |- *.
    assert (Old : calls (run t evs) = []).
    { rewrite Calls. destruct (Nat.leb_spec 3 (List.length evs)); [lia | easy]. }
    assert (Res' : results (handle (run t evs) e) = outcomes (evs ++ [e])).
    { unfold outcomes. rewrite !event_of_snoc.
      destruct e as [[] st txt | []]; simpl in N |- *; rewrite Res;
        unfold outcomes; simpl; rewrite ?N; simpl;
        repeat match goal with
          | |- context [event_of ?x evs] => destruct (event_of x evs)
          end; reflexivity. }
    rewrite run_snoc. split; [exact Res' |].
    assert (Calls' :
      calls (handle (run t evs) e) =
      if (3 <=? S (completed (run t evs)))%nat
      then (calls (run t evs)
              ++ [callback_for t (results (handle (run t evs) e))])%list
      else calls (run t evs)).
    { unfold callback_for.
      rewrite (status_thresholds (fetchCurrency t) (run t evs)) by
        (symmetry; assumption).
      destruct e as [[] st txt | x]; reflexivity. }
    rewrite Calls', C, Old, Res'. reflexivity.
Qed.

End Currency.

(** ** fetchWeather: what a processed record holds *)

(** Splits every bind that ended normally, down to the steps. *)
Ltac unbind :=
  repeat match goal with
    | H : JS.bind _ _ = Normal _ |- _ =>
        let v := fresh "v" in
        let E := fresh "E" in
        apply bind_Normal in H; destruct H as [v [E H]]
    | H : Normal _ = Normal _ |- _ => injection H as H
    end.

(** Identifies the results of a step that was run twice. *)
Ltac same_steps :=
  repeat match goal with
    | H1 : ?c = Normal ?a, H2 : ?c = Normal ?b |- _ =>
        rewrite H1 in H2; injection H2 as H2; try subst b
    end.

Section Weather.
Context {R : Runtime}.

Lemma weather_onload_data (status : Z) (text : string) (p : processed) :
  weather_onload status text = callback_data p ->
  status = 200%Z
  /\ exists data, JSON_parse text = Normal data
                  /\ build_processed data = Normal p.
Proof.
  unfold weather_onload.
  destruct (Z.eqb_spec status 200) as [-> |]; [| discriminate].
  destruct (weather_try text) as [c | e] eqn:T; [| discriminate].
  intros ->. split; [reflexivity |].
  unfold weather_try in T. unbind.
  exists v. split; [assumption |].
  destruct (truthy v1); unbind; [discriminate | now subst].
Qed.

Lemma forecast_loop_three (data : value) (f : list Forecast.t) :
  forecast_loop data 1 3 3 [] = Normal f ->
  exists e1 e2 e3,
    f = [e1; e2; e3]
    /\ build_forecast data 1 = Normal e1
    /\ build_forecast data 2 = Normal e2
    /\ build_forecast data 3 = Normal e3.
Proof.
  simpl. intros H. unbind. subst f. simpl. eauto 10.
Qed.

Lemma build_processed_parts (data : value) (p : processed) :
  build_processed data = Normal p ->
  build_current data = Normal (current p)
  /\ build_today data = Normal (today p)
  /\ exists e1 e2 e3,
      forecast p = [e1; e2; e3]
      /\ build_forecast data 1 = Normal e1
      /\ build_forecast data 2 = Normal e2
      /\ build_forecast data 3 = Normal e3.
Proof.
  unfold build_processed. intros H. unbind. subst p. simpl.
  repeat split; try assumption. now apply forecast_loop_three.
Qed.

Lemma rounded_steps (v : value) (c f : float) :
  round_value v = Normal c -> round_fahrenheit v = Normal f ->
  rounded v c f.
Proof.
  unfold round_value, round_fahrenheit, rounded. intros Hc Hf.
  unbind. same_steps. subst. eauto.
Qed.

Lemma build_current_spec (data : value) (c : Current.t) :
  build_current data = Normal c ->
  (exists v, current_field data "temperature_2m" = Normal v
             /\ rounded v (Current.tempC c) (Current.tempF c))
  /\ (exists v, current_field data "apparent_temperature" = Normal v
                /\ rounded v (Current.feelsLikeC c) (Current.feelsLikeF c)).
Proof.
  unfold build_current. intros H. unbind. same_steps. subst c. simpl.
  split; eexists; (split; [eassumption | now apply rounded_steps]).
Qed.

Lemma build_today_spec (data : value) (t : Today.t) :
  build_today data = Normal t ->
  (exists v, daily_field data "temperature_2m_max" 0 = Normal v
             /\ rounded v (Today.highC t) (Today.highF t))
  /\ (exists v, daily_field data "temperature_2m_min" 0 = Normal v
                /\ rounded v (Today.lowC t) (Today.lowF t))
  /\ (exists v, daily_field data "precipitation_probability_max" 0 = Normal v
                /\ Today.rainChance t = or_else v (VNum 0))
  /\ (exists v, daily_field data "sunrise" 0 = Normal v
                /\ Date_new v = Normal (Today.sunrise t))
  /\ (exists v, daily_field data "sunset" 0 = Normal v
                /\ Date_new v = Normal (Today.sunset t)).
Proof.
  unfold build_today. intros H. unbind. same_steps. subst t. simpl.
  repeat split; eexists;
    (split; [eassumption | first [now apply rounded_steps | easy]]).
Qed.

Lemma build_forecast_spec (data : value) (i : nat) (e : Forecast.t) :
  build_forecast data i = Normal e ->
  (exists v, daily_field data "time" i = Normal v
             /\ getDayName v = Normal (Forecast.day e))
  /\ (exists v, daily_field data "temperature_2m_max" i = Normal v
                /\ rounded v (Forecast.highC e) (Forecast.highF e))
  /\ (exists v, daily_field data "temperature_2m_min" i = Normal v
                /\ rounded v (Forecast.lowC e) (Forecast.lowF e))
  /\ (exists v, daily_field data "weather_code" i = Normal v
                /\ getWeatherIcon v = Normal (Forecast.icon e))
  /\ (exists v, daily_field data "precipitation_probability_max" i = Normal v
                /\ Forecast.rainChance e = or_else v (VNum 0)).
Proof.
  unfold build_forecast. intros H. unbind. same_steps. subst e. simpl.
  repeat split; eexists;
    (split; [eassumption | first [now apply rounded_steps | easy]]).
Qed.

End Weather.

(** ** fetchCurrency: the claims *)

Section CurrencyClaims.
Context {R : Runtime}.

(** The rate and the label shown are those of the first entry present, in
    the order OXR, ECB, Alt. *)
Lemma display_first_present (r : Results.t) :
  match present r with
  | [] => displayRate r = "0.00000" /\ source r = ""
  | first :: _ => (displayRate r, source r) = first
  end.
Proof.
  unfold present, displayRate, source.
  destruct (Results.oxr r), (Results.ecb r), (Results.alt r); simpl; auto.
Qed.

Lemma run_complete (t : thresholds) (evs : list xhr_event) :
  well_formed evs -> List.length evs = 3 ->
  calls (run t evs) = [callback_for t (outcomes evs)].
Proof.
  intros W L. destruct (run_well_formed t evs W) as [_ ->]. now rewrite L.
Qed.

Lemma event_of_In (evs : list xhr_event) (e : xhr_event) :
  well_formed evs -> In e evs -> event_of (event_request e) evs = Some e.
Proof.
  unfold well_formed, event_of.
  induction evs as [| e' evs IH]; simpl; [easy |].
  intros W [-> | H].
  - now rewrite (proj2 (request_eqb_eq _ _) eq_refl).
  - apply NoDup_cons_iff in W. destruct W as [N W].
    destruct (request_eqb (event_request e') (event_request e)) eqn:E.
    + apply request_eqb_eq in E. exfalso. apply N. rewrite E.
      now apply in_map.
    + now apply IH.
Qed.

Lemma event_of_request (x : request) (evs : list xhr_event) (e : xhr_event) :
  event_of x evs = Some e -> In e evs /\ event_request e = x.
Proof.
  unfold event_of. intros H. apply find_some in H.
  now rewrite request_eqb_eq in H.
Qed.

(** A response that is not JSON makes each of the three [try] blocks
    throw. *)
Lemma parse_failure_throws (x : request) (text : string) (ex : exn) :
  JSON_parse text = Throw ex -> try_throws x text.
Proof.
  intros H.
  destruct x; exists ex;
    [unfold oxr_try | unfold ecb_try | unfold alt_try]; now rewrite H.
Qed.

Lemma network_or_parse_failure_failed (e : xhr_event) :
  network_or_parse_failure e -> failed e.
Proof.
  destruct e as [x st text | x]; simpl; [| easy].
  intros [H | [ex H]]; [now left | right].
  now apply parse_failure_throws with ex.
Qed.

(** A failed source leaves its entry [null]. *)
Lemma failed_entry_null (evs : list xhr_event) (e : xhr_event) :
  well_formed evs -> In e evs -> failed e ->
  entry_null (event_request e) (outcomes evs).
Proof.
  intros W I F. pose proof (event_of_In evs e W I) as E.
  destruct e as [x st text | x]; simpl in *.
  - unfold assign in *.
    destruct x; simpl; rewrite E; simpl; unfold assign;
      destruct (Z.eqb_spec st 200); try reflexivity;
      destruct F as [F | [ex F]]; try contradiction; now rewrite F.
  - destruct x; simpl; now rewrite E.
Qed.

Lemma all_failed_outcomes (evs : list xhr_event) :
  (forall e, In e evs -> failed e) ->
  outcomes evs = Results.make None None None.
Proof.
  intros F. unfold outcomes.
  assert (O : forall x,
    match event_of x evs with
    | Some e => In e evs /\ event_request e = x /\ failed e
    | None => True
    end).
  { intros x. destruct (event_of x evs) as [e |] eqn:E; [| exact I].
    apply event_of_request in E. destruct E as [E1 E2]. auto. }
  f_equal.
  - specialize (O xhr1). destruct (event_of xhr1 evs) as [[x st text | x] |];
      simpl; try reflexivity.
    simpl in O. destruct O as (_ & -> & [F1 | [ex F1]]); unfold assign.
    + now destruct (Z.eqb_spec st 200).
    + rewrite F1. now destruct (st =? 200)%Z.
  - specialize (O xhr2). destruct (event_of xhr2 evs) as [[x st text | x] |];
      simpl; try reflexivity.
    simpl in O. destruct O as (_ & -> & [F1 | [ex F1]]); unfold assign.
    + now destruct (Z.eqb_spec st 200).
    + rewrite F1. now destruct (st =? 200)%Z.
  - specialize (O xhr3). destruct (event_of xhr3 evs) as [[x st text | x] |];
      simpl; try reflexivity.
    simpl in O. destruct O as (_ & -> & [F1 | [ex F1]]); unfold assign.
    + now destruct (Z.eqb_spec st 200).
    + rewrite F1. now destruct (st =? 200)%Z.
Qed.

(** The sources that answer: a response with status 200 whose JSON has
    the rate as a number (and primitive time stamps) fills its entry. *)
Lemma oxr_try_answer (text : string) (data rates : value) (eur : float)
  (timestamp : primitive) :
  JSON_parse text = Normal data ->
  get data "rates" = Normal rates ->
  get rates "EUR" = Normal (VNum eur) ->
  get data "timestamp" = Normal (VPrim timestamp) ->
  oxr_try text =
  Normal
    (OxrEntry.make (toFixed (PrimFloat.div 1 eur) 5)
       (dateTime_text
          (TimeClip (PrimFloat.mul (ToNumber_prim timestamp) 1000)))).
Proof.
  intros P Hr He Ht. unfold oxr_try. rewrite P. simpl.
  rewrite Hr. simpl. rewrite He. simpl. rewrite Ht. reflexivity.
Qed.

Lemma ecb_try_answer (text : string) (data rates date : value) (usd : float) :
  JSON_parse text = Normal data ->
  get data "rates" = Normal rates ->
  get rates "USD" = Normal (VNum usd) ->
  get data "date" = Normal date ->
  ecb_try text = Normal (EcbEntry.make (toFixed usd 5) date).
Proof.
  intros P Hr Hu Hd. unfold ecb_try. rewrite P. simpl.
  rewrite Hr. simpl. rewrite Hu. simpl. now rewrite Hd.
Qed.

Lemma alt_try_answer (text : string) (data rates : value) (usd : float)
  (updated : primitive) :
  JSON_parse text = Normal data ->
  get data "rates" = Normal rates ->
  get rates "USD" = Normal (VNum usd) ->
  get data "time_last_update_utc" = Normal (VPrim updated) ->
  exists dateTime,
    alt_try text = Normal (AltEntry.make (toFixed usd 5) dateTime).
Proof.
  intros P Hr Hu Ht. unfold alt_try. rewrite P. simpl.
  rewrite Hr. simpl. rewrite Hu. simpl. rewrite Ht. simpl.
  destruct (truthy_prim updated); simpl; [| now eexists].
  destruct (negb _); simpl; now eexists.
Qed.

(** C1: once the three requests have completed, in any order and with any
    outcome, the callback receives the rate and the label by precedence: the
    rate of OXR with source ['OXR'] if the OXR result is present, otherwise
    the rate of ECB with ['ECB'] if that is present, otherwise the rate of
    Alt with ['Alt'] if that is present. *)
Theorem fetchCurrency_precedence (t : thresholds) (evs : list xhr_event) :
  well_formed evs -> List.length evs = 3 ->
  exists cb,
    calls (run t evs) = [cb]
    /\ Currency.details (cb_data cb) = outcomes evs
    /\ (forall o, oxr_outcome (event_of xhr1 evs) = Some o ->
        Currency.rate (cb_data cb) = OxrEntry.rate o
        /\ Currency.source (cb_data cb) = "OXR")
    /\ (oxr_outcome (event_of xhr1 evs) = None ->
        forall e, ecb_outcome (event_of xhr2 evs) = Some e ->
        Currency.rate (cb_data cb) = EcbEntry.rate e
        /\ Currency.source (cb_data cb) = "ECB")
    /\ (oxr_outcome (event_of xhr1 evs) = None ->
        ecb_outcome (event_of xhr2 evs) = None ->
        forall a, alt_outcome (event_of xhr3 evs) = Some a ->
        Currency.rate (cb_data cb) = AltEntry.rate a
        /\ Currency.source (cb_data cb) = "Alt").
Proof.
  intros W L. exists (callback_for t (outcomes evs)).
  split; [now apply run_complete |]. split; [reflexivity |].
  unfold callback_for, outcomes, displayRate, source. simpl.
  repeat split; intros; repeat match goal with H : _ = _ |- _ => rewrite H end;
    reflexivity.
Qed.

(** C2: when all three sources fail the callback is still called, with a
    [null] error and the placeholder: rate ['0.00000'], an empty source
    label, and three [null] entries. *)
Theorem fetchCurrency_all_failed (t : thresholds) (evs : list xhr_event) :
  well_formed evs -> List.length evs = 3 ->
  (forall e, In e evs -> failed e) ->
  exists cb,
    calls (run t evs) = [cb]
    /\ cb_error cb = null
    /\ Currency.rate (cb_data cb) = "0.00000"
    /\ Currency.source (cb_data cb) = ""
    /\ Currency.details (cb_data cb) = Results.make None None None.
Proof.
  intros W L F. exists (callback_for t (outcomes evs)).
  split; [now apply run_complete |].
  rewrite (all_failed_outcomes evs F). repeat split.
Qed.

(** A source that succeeds fills its entry with the rate it sent. *)
Lemma answers_entry_rate (evs : list xhr_event) (x : request)
  (text rate : string) :
  well_formed evs -> In (onload x 200 text) evs -> answers x text rate ->
  entry_rate x (outcomes evs) = Some rate.
Proof.
  intros W I (data & rates & P & Hr & A).
  pose proof (event_of_In evs _ W I) as E. cbn [event_request] in E.
  destruct x; unfold outcomes, entry_rate;
    cbn [Results.oxr Results.ecb Results.alt]; rewrite E;
    unfold oxr_outcome, ecb_outcome, alt_outcome, assign;
    cbn [Z.eqb Pos.eqb].
  - destruct A as (eur & timestamp & He & Ht & ->).
    now rewrite (oxr_try_answer text data rates eur timestamp P Hr He Ht).
  - destruct A as (usd & Hu & ->).
    assert (D : exists date, get data "date" = Normal date).
    { destruct data as [[] | |]; simpl in Hr |- *;
        try discriminate Hr; eauto. }
    destruct D as [date Hd].
    now rewrite (ecb_try_answer text data rates date usd P Hr Hu Hd).
  - destruct A as (usd & updated & Hu & Ht & ->).
    destruct (alt_try_answer text data rates usd updated P Hr Hu Ht)
      as [dateTime ->].
    reflexivity.
Qed.

(** The sources before [x] in the order of precedence have no entry when
    each of their events is a failure. *)
Lemma failed_before (evs : list xhr_event) (x : request) :
  well_formed evs ->
  (forall e, In e evs -> rank (event_request e) < rank x -> failed e) ->
  forall y, rank y < rank x -> entry_null y (outcomes evs).
Proof.
  intros W F y Hy.
  destruct (event_of y evs) as [e |] eqn:E.
  - apply event_of_request in E. destruct E as [I <-].
    apply failed_entry_null; auto.
  - destruct y; unfold outcomes; simpl; now rewrite E.
Qed.

(** C3: whichever sources fail, by a network error, an HTTP error or a
    response that does not parse, the callback gets a [null] error; the
    entry of each failed source is [null] in the details, every entry is
    what its own source contributed, and the rate and label shown are
    those of a source that succeeded whenever one did.  A source succeeds
    when its response has status 200 and its JSON has the rate as a number:
    its entry is then in the details with that rate, and its rate and label
    are the ones shown when every source before it in the order OXR, ECB,
    Alt has failed. *)
Theorem fetchCurrency_swallows_failures (t : thresholds)
  (evs : list xhr_event) :
  well_formed evs -> List.length evs = 3 ->
  exists cb,
    calls (run t evs) = [cb]
    /\ cb_error cb = null
    /\ Currency.details (cb_data cb) = outcomes evs
    /\ (forall e, In e evs -> network_or_parse_failure e ->
        entry_null (event_request e) (Currency.details (cb_data cb)))
    /\ (present (outcomes evs) <> [] ->
        In (Currency.rate (cb_data cb), Currency.source (cb_data cb))
          (present (outcomes evs)))
    /\ (present (outcomes evs) = [] ->
        Currency.rate (cb_data cb) = "0.00000"
        /\ Currency.source (cb_data cb) = "")
    /\ (forall x text rate,
           In (onload x 200 text) evs -> answers x text rate ->
           entry_rate x (Currency.details (cb_data cb)) = Some rate
           /\ ((forall e, In e evs -> rank (event_request e) < rank x ->
                          failed e) ->
               Currency.rate (cb_data cb) = rate
               /\ Currency.source (cb_data cb) = label x)).
Proof.
  intros W L. exists (callback_for t (outcomes evs)).
  split; [now apply run_complete |]. split; [reflexivity |].
  split; [reflexivity |]. split; [| split; [| split]].
  - intros e I F. simpl.
    apply failed_entry_null; auto using network_or_parse_failure_failed.
  - simpl. pose proof (display_first_present (outcomes evs)) as D.
    destruct (present (outcomes evs)) as [| first rest].
    + congruence.
    + intros _. rewrite D. now left.
  - simpl. pose proof (display_first_present (outcomes evs)) as D.
    destruct (present (outcomes evs)) as [| first rest].
    + intros _. exact D.
    + discriminate.
  - intros x text rate I A.
    pose proof (answers_entry_rate evs x text rate W I A) as E.
    split; [exact E |]. intros F.
    pose proof (failed_before evs x W F) as B.
    unfold callback_for. cbn [cb_data Currency.rate Currency.source].
    unfold displayRate, source.
    destruct x; cbn [entry_rate label] in *.
    + destruct (Results.oxr (outcomes evs)) as [o |]; [| discriminate E].
      simpl in E. injection E as <-. now split.
    + pose proof (B xhr1 ltac:(simpl; lia)) as B1. cbn [entry_null] in B1.
      rewrite B1.
      destruct (Results.ecb (outcomes evs)) as [o |]; [| discriminate E].
      simpl in E. injection E as <-. now split.
    + pose proof (B xhr1 ltac:(simpl; lia)) as B1.
      pose proof (B xhr2 ltac:(simpl; lia)) as B2.
      cbn [entry_null] in B1, B2. rewrite B1, B2.
      destruct (Results.alt (outcomes evs)) as [o |]; [| discriminate E].
      simpl in E. injection E as <-. now split.
Qed.

(** C4: the callback is not called while fewer than three requests have
    completed, and it has been called exactly once when the three have;
    the counter [completed] counts the completed requests, and there is no
    fourth. *)
Theorem fetchCurrency_callback_once (t : thresholds) (evs : list xhr_event) :
  well_formed evs ->
  (forall pre post, evs = (pre ++ post)%list -> List.length pre < 3 ->
     calls (run t pre) = [])
  /\ (List.length evs = 3 -> exists cb, calls (run t evs) = [cb])
  /\ completed (run t evs) = List.length evs
  /\ List.length evs <= 3.
Proof.
  intros W. repeat split.
  - intros pre post -> L.
    assert (W' : well_formed pre).
    { unfold well_formed in *. rewrite map_app in W.
      now apply NoDup_app_remove_r in W. }
    destruct (run_well_formed t pre W') as [_ ->].
    destruct (Nat.leb_spec 3 (List.length pre)); [lia | reflexivity].
  - intros L. eexists. now apply run_complete.
  - apply run_thresholds.
  - now apply well_formed_length.
Qed.

End CurrencyClaims.

(** C1 on the sample traces: with three answers the rate of OXR is shown,
    and with OXR and Alt failing the rate of ECB. *)
Lemma fetchCurrency_precedence_witness :
  (exists cb,
      calls (run (R := reference) Sample.no_thresholds Sample.all_answer) = [cb]
      /\ Currency.rate (cb_data cb) = "1.08696"
      /\ Currency.source (cb_data cb) = "OXR")
  /\ (exists cb,
         calls (run (R := reference) Sample.no_thresholds Sample.ecb_only)
         = [cb]
         /\ Currency.rate (cb_data cb) = "1.08340"
         /\ Currency.source (cb_data cb) = "ECB").
Proof.
  split.
  - assert (W : well_formed Sample.all_answer).
    { repeat constructor; simpl; intuition discriminate. }
    destruct (fetchCurrency_precedence (R := reference) Sample.no_thresholds
                Sample.all_answer W eq_refl) as (cb & C & _ & P & _).
    exists cb. split; [exact C |].
    apply (P (OxrEntry.make "1.08696" "Mar 27, 00:00")).
    vm_compute. reflexivity.
  - assert (W : well_formed Sample.ecb_only).
    { repeat constructor; simpl; intuition discriminate. }
    destruct (fetchCurrency_precedence (R := reference) Sample.no_thresholds
                Sample.ecb_only W eq_refl) as (cb & C & _ & _ & P & _).
    exists cb. split; [exact C |].
    apply (P eq_refl (EcbEntry.make "1.08340" (VStr "2024-03-26"))).
    vm_compute. reflexivity.
Defined.

(** C2 on the trace in which no source answers. *)
Lemma fetchCurrency_all_failed_witness :
  exists cb,
    calls (run (R := reference) Sample.no_thresholds Sample.none_answer) = [cb]
    /\ cb_error cb = null
    /\ Currency.rate (cb_data cb) = "0.00000"
    /\ Currency.source (cb_data cb) = ""
    /\ Currency.details (cb_data cb) = Results.make None None None.
Proof.
  apply (fetchCurrency_all_failed (R := reference)).
  - repeat constructor; simpl; intuition discriminate.
  - reflexivity.
  - intros e [<- | [<- | [<- | []]]]; simpl.
    + left. discriminate.
    + exact I.
    + right. eexists. vm_compute. reflexivity.
Defined.

(** C3 on the trace in which only ECB answers, and on the trace in which
    only Alt answers: its rate 1.08 is the one shown. *)
Lemma fetchCurrency_swallows_failures_witness :
  (exists cb,
      calls (run (R := reference) Sample.no_thresholds Sample.ecb_only) = [cb]
      /\ cb_error cb = null
      /\ Results.oxr (Currency.details (cb_data cb)) = None
      /\ Results.alt (Currency.details (cb_data cb)) = None
      /\ Currency.rate (cb_data cb) = "1.08340"
      /\ Currency.source (cb_data cb) = "ECB")
  /\ (exists cb,
         calls (run (R := reference) Sample.no_thresholds Sample.alt_only)
         = [cb]
         /\ cb_error cb = null
         /\ entry_rate xhr3 (Currency.details (cb_data cb)) = Some "1.08000"
         /\ Currency.rate (cb_data cb) = "1.08000"
         /\ Currency.source (cb_data cb) = "Alt").
Proof.
  split.
  - assert (W : well_formed Sample.ecb_only).
    { repeat constructor; simpl; intuition discriminate. }
    destruct (fetchCurrency_swallows_failures (R := reference)
                Sample.no_thresholds Sample.ecb_only W eq_refl)
      as (cb & C & E & D & N & P & _).
    exists cb. split; [exact C |]. split; [exact E |]. split; [| split].
    + apply (N (onerror xhr1)); simpl; auto.
    + apply (N (onload xhr3 200 "<html>Bad gateway</html>")); simpl; auto.
      right. eexists. vm_compute. reflexivity.
    + assert (Q : present (outcomes (R := reference) Sample.ecb_only)
                  = [("1.08340", "ECB")]) by (vm_compute; reflexivity).
      rewrite Q in P. destruct P as [P | []]; [discriminate |].
      now inversion P.
  - assert (W : well_formed Sample.alt_only).
    { repeat constructor; simpl; intuition discriminate. }
    destruct (fetchCurrency_swallows_failures (R := reference)
                Sample.no_thresholds Sample.alt_only W eq_refl)
      as (cb & C & E & _ & _ & _ & _ & A).
    exists cb. split; [exact C |]. split; [exact E |].
    assert (S : answers (R := reference) xhr3 Sample.alt "1.08000").
    { exists (VObj
                [("base", VStr "EUR");
                 ("time_last_update_utc",
                  VStr "Wed, 27 Mar 2024 00:00:01 +0000");
                 ("rates", VObj [("USD", VNum 1.08)])]),
             (VObj [("USD", VNum 1.08)]).
      split; [vm_compute; reflexivity |]. split; [reflexivity |].
      exists 1.08%float, (PStr "Wed, 27 Mar 2024 00:00:01 +0000").
      split; [reflexivity |]. split; [reflexivity |].
      vm_compute. reflexivity. }
    destruct (A xhr3 Sample.alt "1.08000" ltac:(simpl; auto) S) as [A1 A2].
    split; [exact A1 |]. apply A2.
    intros e [<- | [<- | [<- | []]]]; simpl; intros Hr.
    + exact I.
    + lia.
    + left. discriminate.
Defined.

(** C4 on the trace in which the three sources answer: no call after the
    first two events, one call after the third. *)
Lemma fetchCurrency_callback_once_witness :
  calls (run (R := reference) Sample.no_thresholds
           [onload xhr2 200 Sample.ecb; onload xhr3 200 Sample.alt]) = []
  /\ exists cb,
      calls (run (R := reference) Sample.no_thresholds Sample.all_answer)
      = [cb].
Proof.
  assert (W : well_formed Sample.all_answer).
  { repeat constructor; simpl; intuition discriminate. }
  destruct (fetchCurrency_callback_once (R := reference) Sample.no_thresholds
              Sample.all_answer W) as (P & Q & _).
  split.
  - apply (P _ [onload xhr1 200 Sample.oxr]); [reflexivity | simpl; lia].
  - apply Q. reflexivity.
Defined.

(** ** fetchCurrency: the status *)

Section Status.
Context {R : Runtime}.

Local Open Scope float_scope.

Lemma ltb_asym (a x : float) : (a <? x) = true -> (x <? a) = false.
Proof.
  rewrite !ltb_spec. unfold SFltb. intros H.
  destruct (SFcompare (Prim2SF a) (Prim2SF x)) as [[] |] eqn:E;
    try discriminate.
  now rewrite (SFcompare_Lt_Gt _ _ E).
Qed.

Lemma eqb_ltb_trans (a b x : float) :
  (a =? b) = true -> (b <? x) = true -> (a <? x) = true.
Proof.
  rewrite eqb_spec, !ltb_spec. unfold SFeqb, SFltb. intros H H'.
  destruct (SFcompare (Prim2SF a) (Prim2SF b)) as [[] |] eqn:E;
    try discriminate.
  destruct (SFcompare (Prim2SF b) (Prim2SF x)) as [[] |] eqn:E';
    try discriminate.
  now rewrite (SFcompare_Eq_Lt_trans _ _ _ E E').
Qed.

(** Every call of the callback is made from the thresholds fixed at the
    start and the entries at the time of the call. *)
Lemma calls_callback_for (t : thresholds) (evs : list xhr_event)
  (cb : currency_callback) :
  In cb (calls (run t evs)) -> exists r, cb = callback_for t r.
Proof.
  induction evs as [| e evs IH] using rev_ind; [intros [] |].
  rewrite run_snoc. destruct (run_thresholds t evs) as (Lo & Hi & _).
  assert (Calls' :
    calls (handle (run t evs) e) = calls (run t evs)
    \/ calls (handle (run t evs) e) =
       (calls (run t evs)
          ++ [callback_for t (results (handle (run t evs) e))])%list).
  { unfold callback_for.
    rewrite (status_thresholds (fetchCurrency t) (run t evs)) by
      (symmetry; assumption).
    destruct e as [[] st txt | x];
      unfold handle, xhr1_onload, xhr2_onload, xhr3_onload, checkComplete;
      cbn [calls completed set_results];
      destruct (3 <=? S (completed (run t evs)))%nat; auto. }
  destruct Calls' as [-> | ->]; [exact IH |].
  rewrite in_app_iff. intros [H | [<- | []]]; eauto.
Qed.

(** C9, amended: in every result the status is ['low'] exactly when the
    parsed rate is strictly below the low threshold, ['high'] exactly when
    it is not below the low threshold and strictly above the high one, and
    empty otherwise; with the low threshold at most the high one, ['high']
    is exactly "strictly above the high threshold"; and the placeholder
    rate ['0.00000'], which parses to zero, is ['low'] under the default
    low threshold. *)
Theorem fetchCurrency_status (t : thresholds) (evs : list xhr_event)
  (cb : currency_callback) :
  In cb (calls (run t evs)) ->
  let rateNum := parseFloat (Currency.rate (cb_data cb)) in
  let lo := ToNumber_prim (or_else_prim (low t) (PNum 1.1)) in
  let hi := ToNumber_prim (or_else_prim (high t) (PNum 1.2)) in
  (Currency.status (cb_data cb) = "low" <-> (rateNum <? lo) = true)
  /\ (Currency.status (cb_data cb) = "high" <->
      (rateNum <? lo) = false /\ (hi <? rateNum) = true)
  /\ (Currency.status (cb_data cb) = "" <->
      (rateNum <? lo) = false /\ (hi <? rateNum) = false)
  /\ ((lo <=? hi) = true ->
      (Currency.status (cb_data cb) = "high" <-> (hi <? rateNum) = true))
  /\ (truthy_prim (low t) = false ->
      Currency.rate (cb_data cb) = "0.00000" ->
      (parseFloat "0.00000" =? 0) = true ->
      Currency.status (cb_data cb) = "low").
Proof.
  intros H. apply calls_callback_for in H. destruct H as [r ->].
  unfold callback_for, status. simpl.
  set (x := parseFloat (displayRate r)).
  set (lo := ToNumber_prim (or_else_prim (low t) (PNum 1.1))).
  set (hi := ToNumber_prim (or_else_prim (high t) (PNum 1.2))).
  assert (Cross : (lo <=? hi) = true -> (hi <? x) = true ->
                  (x <? lo) = false).
  { intros L U. destruct (x <? lo) eqn:E; [| reflexivity].
    pose proof (ltb_leb_trans _ _ _ E L) as B.
    apply ltb_asym in B. congruence. }
  repeat split.
  - destruct (x <? lo); [reflexivity |]. destruct (hi <? x); discriminate.
  - now intros ->.
  - destruct (x <? lo); [discriminate | reflexivity].
  - destruct (x <? lo); [discriminate |]. destruct (hi <? x); easy.
  - intros [-> ->]. reflexivity.
  - destruct (x <? lo); [discriminate | reflexivity].
  - destruct (x <? lo); [discriminate |]. destruct (hi <? x); easy.
  - intros [-> ->]. reflexivity.
  - destruct (x <? lo); [discriminate |]. destruct (hi <? x); easy.
  - intros U. now rewrite (Cross H U), U.
  - intros F E Z. subst lo x. unfold or_else_prim. rewrite F, E. simpl.
    now rewrite (eqb_ltb_trans _ 0 1.1 Z eq_refl).
Qed.

End Status.

(** C9 as stated fails when the thresholds are crossed: with
    [{ low: 2, high: 1 }] and a rate of 1.5 from ECB alone, the rate is
    strictly above the high threshold and the status is ['low']. *)
Lemma fetchCurrency_status_counterexample :
  exists cb,
    calls (run (R := reference) Sample.crossed_thresholds
             Sample.ecb_high_only) = [cb]
    /\ PrimFloat.ltb (ToNumber_prim (R := reference)
                        (high Sample.crossed_thresholds))
         (@parseFloat reference (Currency.rate (cb_data cb))) = true
    /\ Currency.status (cb_data cb) = "low"
    /\ Currency.status (cb_data cb) <> "high".
Proof.
  eexists. split; [vm_compute; reflexivity |]. simpl.
  split; [vm_compute; reflexivity |].
  split; [vm_compute; reflexivity |]. vm_compute. discriminate.
Qed.

(** C9 on the sample traces: ['low'] for a rate of 1.0834 under the default
    thresholds, and for the placeholder. *)
Lemma fetchCurrency_status_witness :
  (exists cb,
      calls (run (R := reference) Sample.no_thresholds Sample.ecb_only) = [cb]
      /\ Currency.status (cb_data cb) = "low")
  /\ (exists cb,
         calls (run (R := reference) Sample.no_thresholds Sample.none_answer)
         = [cb]
         /\ Currency.status (cb_data cb) = "low").
Proof.
  split.
  - set (cb := callback_for (R := reference) Sample.no_thresholds
                 (outcomes (R := reference) Sample.ecb_only)).
    exists cb. split; [vm_compute; reflexivity |].
    assert (I : In cb (calls (run (R := reference) Sample.no_thresholds
                                Sample.ecb_only)))
      by (vm_compute; left; reflexivity).
    destruct (fetchCurrency_status (R := reference) _ _ cb I) as (L & _).
    apply L. vm_compute. reflexivity.
  - set (cb := callback_for (R := reference) Sample.no_thresholds
                 (outcomes (R := reference) Sample.none_answer)).
    exists cb. split; [vm_compute; reflexivity |].
    assert (I : In cb (calls (run (R := reference) Sample.no_thresholds
                                Sample.none_answer)))
      by (vm_compute; left; reflexivity).
    destruct (fetchCurrency_status (R := reference) _ _ cb I)
      as (_ & _ & _ & _ & P).
    apply P; vm_compute; reflexivity.
Defined.

(** ** fetchWeather: responses of the expected shape are processed *)

Section WellShaped.
Context {R : Runtime}.

Lemma primitive_inv (v : value) :
  is_primitive v = true -> exists p, v = VPrim p.
Proof. destruct v; try discriminate. eauto. Qed.

Lemma round_value_primitive (v : value) :
  is_primitive v = true -> exists x, round_value v = Normal x.
Proof. intros H. apply primitive_inv in H. destruct H as [p ->]. now eexists. Qed.

Lemma round_fahrenheit_primitive (v : value) :
  is_primitive v = true -> exists x, round_fahrenheit v = Normal x.
Proof. intros H. apply primitive_inv in H. destruct H as [p ->]. now eexists. Qed.

Lemma getWeatherIcon_primitive (v : value) :
  is_primitive v = true -> exists i, getWeatherIcon v = Normal i.
Proof.
  intros H. apply primitive_inv in H. destruct H as [p ->].
  rewrite getWeatherIcon_prim. now eexists.
Qed.

Lemma Date_new_primitive (v : value) :
  is_primitive v = true -> exists d, Date_new v = Normal d.
Proof. intros H. apply primitive_inv in H. destruct H as [p ->]. now eexists. Qed.

Lemma getDayName_primitive (v : value) :
  is_primitive v = true -> exists d, getDayName v = Normal d.
Proof.
  intros H. unfold getDayName.
  destruct (Date_new_primitive v H) as [d ->]. now eexists.
Qed.

Lemma nth_primitive (l : list value) (i : nat) :
  forallb is_primitive l = true -> is_primitive (nth i l undefined) = true.
Proof.
  revert i. induction l as [| v l IH]; intros [| i]; simpl; auto;
    rewrite andb_true_iff; intros [H1 H2]; auto.
Qed.

Lemma current_field_any (props cur : list (string * value)) (k : string) :
  assoc "current" props = Some (VObj cur) ->
  exists v, current_field (VObj props) k = Normal v.
Proof. unfold current_field. simpl. intros ->. simpl. now eexists. Qed.

Lemma current_field_ok (props cur : list (string * value)) (k : string) :
  assoc "current" props = Some (VObj cur) -> field_ok cur k ->
  exists v, current_field (VObj props) k = Normal v
            /\ is_primitive v = true.
Proof.
  intros C F. unfold current_field, field_ok in *. simpl. rewrite C. simpl.
  destruct (assoc k cur); eauto.
Qed.

Lemma daily_field_ok (props daily : list (string * value)) (k : string)
  (i : nat) :
  assoc "daily" props = Some (VObj daily) -> series_ok daily k ->
  exists v, daily_field (VObj props) k i = Normal v
            /\ is_primitive v = true.
Proof.
  intros D (l & A & H). unfold daily_field. simpl. rewrite D. simpl.
  rewrite A. simpl. eexists. split; [reflexivity | now apply nth_primitive].
Qed.

(** Runs the next step of a builder whose field is known to be read. *)
Ltac run_step :=
  match goal with
  | H : ?c = Normal _ |- context [?c] => rewrite H; cbn [JS.bind]
  | P : is_primitive ?v = true |- context [round_value ?v] =>
      let x := fresh "x" in
      let E := fresh "E" in
      destruct (round_value_primitive v P) as [x E]
  | P : is_primitive ?v = true |- context [round_fahrenheit ?v] =>
      let x := fresh "x" in
      let E := fresh "E" in
      destruct (round_fahrenheit_primitive v P) as [x E]
  | P : is_primitive ?v = true |- context [getWeatherIcon ?v] =>
      let x := fresh "x" in
      let E := fresh "E" in
      destruct (getWeatherIcon_primitive v P) as [x E]
  | P : is_primitive ?v = true |- context [Date_new ?v] =>
      let x := fresh "x" in
      let E := fresh "E" in
      destruct (Date_new_primitive v P) as [x E]
  | P : is_primitive ?v = true |- context [getDayName ?v] =>
      let x := fresh "x" in
      let E := fresh "E" in
      destruct (getDayName_primitive v P) as [x E]
  end.

Lemma build_forecast_well_shaped (props daily : list (string * value))
  (i : nat) :
  assoc "daily" props = Some (VObj daily) ->
  Forall (series_ok daily)
    ["temperature_2m_max"; "temperature_2m_min";
     "precipitation_probability_max"; "sunrise"; "sunset"; "time";
     "weather_code"] ->
  exists e, build_forecast (VObj props) i = Normal e.
Proof.
  intros D S.
  repeat match goal with
    | H : Forall _ (_ :: _) |- _ => apply Forall_cons_iff in H; destruct H
    end.
  repeat match goal with
    | H : series_ok daily ?k |- _ =>
        let v := fresh "v" in
        destruct (daily_field_ok props daily k i D H) as (v & ? & ?);
        clear H
    end.
  unfold build_forecast. repeat run_step. now eexists.
Qed.

(** A response of the expected shape with status 200 is handed to the
    callback as data. *)
Lemma weather_onload_well_shaped (text : string) (data : value) :
  JSON_parse text = Normal data -> well_shaped data ->
  exists p, weather_onload 200 text = callback_data p.
Proof.
  intros P (props & cur & daily & -> & Er & Re & C & D & Fc & Fd).
  destruct (build_forecast_well_shaped props daily 1 D Fd) as [e1 E1].
  destruct (build_forecast_well_shaped props daily 2 D Fd) as [e2 E2].
  destruct (build_forecast_well_shaped props daily 3 D Fd) as [e3 E3].
  destruct (current_field_any props cur "relative_humidity_2m" C) as [h Hh].
  repeat match goal with
    | H : Forall _ (_ :: _) |- _ => apply Forall_cons_iff in H; destruct H
    end.
  repeat match goal with
    | H : field_ok cur ?k |- _ =>
        let v := fresh "v" in
        destruct (current_field_ok props cur k C H) as (v & ? & ?); clear H
    end.
  repeat match goal with
    | H : series_ok daily ?k |- _ =>
        let v := fresh "v" in
        destruct (daily_field_ok props daily k 0 D H) as (v & ? & ?);
        clear H
    end.
  assert (Te : truthy (match assoc "error" props with
                       | Some v => v
                       | None => undefined
                       end) = false)
    by (destruct (assoc "error" props); auto).
  assert (Tr : truthy (match assoc "reason" props with
                       | Some v => v
                       | None => undefined
                       end) = false)
    by (destruct (assoc "reason" props); auto).
  unfold weather_onload, weather_try. rewrite P.
  cbn [Z.eqb Pos.eqb JS.bind]. unfold get. cbn [JS.bind].
  rewrite Te. cbn [JS.bind]. rewrite Tr.
  unfold build_processed, build_current, build_today.
  repeat run_step. simpl. rewrite E1. simpl. rewrite E2. simpl. rewrite E3.
  simpl. now eexists.
Qed.

End WellShaped.

(** ** fetchWeather: the claims *)

Section WeatherClaims.
Context {R : Runtime}.

Lemma forecast_entry (p : processed) (e1 e2 e3 : Forecast.t) (i : nat) :
  forecast p = [e1; e2; e3] -> 1 <= i <= 3 ->
  exists e, nth_error (forecast p) (i - 1) = Some e
            /\ (i = 1 /\ e = e1 \/ i = 2 /\ e = e2 \/ i = 3 /\ e = e3).
Proof.
  intros -> Hi.
  assert (C : i = 1 \/ i = 2 \/ i = 3) by lia.
  destruct C as [-> | [-> | ->]]; simpl; eauto 10.
Qed.

(** C7: a response of the expected shape is handed on as data, and every
    response handed on as data is reshaped into three parts.  The current
    conditions and today's high and low hold, for each raw Celsius reading
    [x], [Math.round(x)] and [Math.round(x * 9/5 + 32)]; today also holds
    the dates of the first sunrise and sunset; and the forecast has exactly
    three entries, the one at position [i - 1] made from the daily index
    [i], for [i] from 1 to 3, with its temperatures rounded the same
    way. *)
Theorem fetchWeather_processed :
  (forall text data,
      JSON_parse text = Normal data -> well_shaped data ->
      exists p, weather_onload 200 text = callback_data p)
  /\ forall status text p,
      weather_onload status text = callback_data p ->
      exists data,
        JSON_parse text = Normal data
        /\ ((exists v, current_field data "temperature_2m" = Normal v
                       /\ rounded v (Current.tempC (current p))
                            (Current.tempF (current p)))
            /\ (exists v, current_field data "apparent_temperature" = Normal v
                          /\ rounded v (Current.feelsLikeC (current p))
                               (Current.feelsLikeF (current p))))
        /\ ((exists v, daily_field data "temperature_2m_max" 0 = Normal v
                       /\ rounded v (Today.highC (today p))
                            (Today.highF (today p)))
            /\ (exists v, daily_field data "temperature_2m_min" 0 = Normal v
                          /\ rounded v (Today.lowC (today p))
                               (Today.lowF (today p)))
            /\ (exists v, daily_field data "sunrise" 0 = Normal v
                          /\ Date_new v = Normal (Today.sunrise (today p)))
            /\ (exists v, daily_field data "sunset" 0 = Normal v
                          /\ Date_new v = Normal (Today.sunset (today p))))
        /\ List.length (forecast p) = 3
        /\ forall i, 1 <= i <= 3 ->
             exists e,
               nth_error (forecast p) (i - 1) = Some e
               /\ build_forecast data i = Normal e
               /\ (exists v,
                      daily_field data "temperature_2m_max" i = Normal v
                      /\ rounded v (Forecast.highC e) (Forecast.highF e))
               /\ (exists v,
                      daily_field data "temperature_2m_min" i = Normal v
                      /\ rounded v (Forecast.lowC e) (Forecast.lowF e)).
Proof.
  split; [exact weather_onload_well_shaped |].
  intros status text p H. apply weather_onload_data in H.
  destruct H as (_ & data & P & B). exists data. split; [exact P |].
  apply build_processed_parts in B.
  destruct B as (C & T & e1 & e2 & e3 & F & B1 & B2 & B3).
  split; [now apply build_current_spec |].
  apply build_today_spec in T. destruct T as (T1 & T2 & _ & T4 & T5).
  split; [auto |]. split; [now rewrite F |].
  intros i Hi. destruct (forecast_entry p e1 e2 e3 i F Hi) as (e & N & Cases).
  exists e. split; [exact N |].
  assert (B : build_forecast data i = Normal e).
  { destruct Cases as [[-> ->] | [[-> ->] | [-> ->]]]; assumption. }
  split; [exact B |].
  apply build_forecast_spec in B. destruct B as (_ & S1 & S2 & _). auto.
Qed.

(** C8: missing fields are defaulted.  In a processed weather record the
    chance of rain of today and of each forecast day is 0 whenever the
    entry of [precipitation_probability_max] for that day is falsy, which
    [undefined], the value of a missing entry, is; and in [fetchCurrency] a
    falsy [thresholds.low] is replaced by 1.1 and a falsy [thresholds.high]
    by 1.2, for the whole run. *)
Theorem missing_fields_defaulted :
  (forall status text p data,
      weather_onload status text = callback_data p ->
      JSON_parse text = Normal data ->
      (forall v,
          daily_field data "precipitation_probability_max" 0 = Normal v ->
          truthy v = false ->
          Today.rainChance (today p) = VNum 0)
      /\ (forall i e v,
             1 <= i <= 3 ->
             nth_error (forecast p) (i - 1) = Some e ->
             daily_field data "precipitation_probability_max" i = Normal v ->
             truthy v = false ->
             Forecast.rainChance e = VNum 0))
  /\ truthy undefined = false
  /\ (forall t evs,
         (truthy_prim (low t) = false ->
          lowThreshold (run t evs) = PNum 1.1)
         /\ (truthy_prim (high t) = false ->
             highThreshold (run t evs) = PNum 1.2)).
Proof.
  split; [| split; [reflexivity |]].
  - intros status text p data H P. apply weather_onload_data in H.
    destruct H as (_ & data' & P' & B). rewrite P in P'.
    injection P' as <-. apply build_processed_parts in B.
    destruct B as (_ & T & e1 & e2 & e3 & F & B1 & B2 & B3). split.
    + intros v V Fv. apply build_today_spec in T.
      destruct T as (_ & _ & (v' & V' & ->) & _).
      rewrite V in V'. injection V' as <-. unfold or_else. now rewrite Fv.
    + intros i e v Hi N V Fv.
      destruct (forecast_entry p e1 e2 e3 i F Hi) as (e' & N' & Cases).
      rewrite N in N'. injection N' as <-.
      assert (B : build_forecast data i = Normal e).
      { destruct Cases as [[-> ->] | [[-> ->] | [-> ->]]]; assumption. }
      apply build_forecast_spec in B.
      destruct B as (_ & _ & _ & _ & (v' & V' & ->)).
      rewrite V in V'. injection V' as <-. unfold or_else. now rewrite Fv.
  - intros t evs. destruct (run_thresholds t evs) as (-> & -> & _).
    unfold or_else_prim. split; now intros ->.
Qed.

End WeatherClaims.

(** C7 on the sample response: the current 18.4 degrees are shown as 18 and
    65, today's high of 21.5 as 22 and 71, and the third forecast day, of
    daily index 3, has the high -0.5 shown as -0 and 31. *)
Lemma fetchWeather_processed_witness :
  exists p,
    weather_onload (R := reference) 200 Sample.weather = callback_data p
    /\ rounded (R := reference) (VNum 18.4) (Current.tempC (current p))
         (Current.tempF (current p))
    /\ Current.tempC (current p) = 18%float
    /\ Current.tempF (current p) = 65%float
    /\ Today.highC (today p) = 22%float
    /\ Today.highF (today p) = 71%float
    /\ List.length (forecast p) = 3
    /\ exists e, nth_error (forecast p) 2 = Some e
                 /\ rounded (R := reference) (VNum (-0.5)) (Forecast.highC e)
                      (Forecast.highF e)
                 /\ Forecast.highF e = 31%float.
Proof.
  destruct (JSON_parse (Runtime := reference) Sample.weather)
    as [d | ex] eqn:Pd; [| vm_compute in Pd; discriminate Pd].
  assert (S : well_shaped d).
  { vm_compute in Pd. injection Pd as <-.
    eexists _, _, _. split; [reflexivity |].
    split; [exact I |]. split; [exact I |].
    split; [reflexivity |]. split; [reflexivity |].
    split; repeat constructor;
      try (eexists; split; [vm_compute; reflexivity | reflexivity]). }
  destruct (proj1 (@fetchWeather_processed reference) Sample.weather d Pd S)
    as [p E].
  exists p. split; [exact E |].
  destruct (proj2 (@fetchWeather_processed reference) 200%Z Sample.weather
              p E) as (data & P & ((v & V & Rv) & _) & _ & L & F).
  rewrite Pd in P. injection P as <-.
  vm_compute in Pd. injection Pd as <-.
  vm_compute in V. injection V as <-.
  vm_compute in E. injection E as <-.
  split; [exact Rv |]. repeat (split; [reflexivity |]).
  destruct (F 3 ltac:(lia)) as (e & N & _ & (v & V & Rv') & _).
  vm_compute in V. injection V as <-.
  exists e. split; [exact N |]. split; [exact Rv' |].
  vm_compute in N. now injection N as <-.
Defined.

(** C8 on the sample response, where the chance of rain is [0] today and
    [null] on the second forecast day, and on a call without thresholds. *)
Lemma missing_fields_defaulted_witness :
  (exists p,
      weather_onload (R := reference) 200 Sample.weather = callback_data p
      /\ Today.rainChance (today p) = VNum 0
      /\ exists e, nth_error (forecast p) 1 = Some e
                   /\ Forecast.rainChance e = VNum 0)
  /\ lowThreshold (run (R := reference) Sample.no_thresholds Sample.ecb_only)
     = PNum 1.1
  /\ highThreshold (run (R := reference) Sample.no_thresholds Sample.ecb_only)
     = PNum 1.2.
Proof.
  destruct (@missing_fields_defaulted reference) as (W & _ & T). split.
  - destruct (weather_onload (R := reference) 200 Sample.weather)
      as [err | p] eqn:E; [vm_compute in E; discriminate E |].
    exists p. split; [reflexivity |].
    destruct (JSON_parse (Runtime := reference) Sample.weather)
      as [data | ex] eqn:P; [| vm_compute in P; discriminate P].
    destruct (W 200%Z Sample.weather p data E P) as (W0 & Wi).
    vm_compute in P. injection P as <-.
    split.
    + apply (W0 (VNum 0)); vm_compute; reflexivity.
    + destruct (nth_error (forecast p) 1) as [e |] eqn:N.
      * exists e. split; [reflexivity |].
        apply (Wi 2 e null); [lia | exact N | |]; vm_compute; reflexivity.
      * vm_compute in E. injection E as <-. discriminate N.
  - destruct (T Sample.no_thresholds Sample.ecb_only) as (Lo & Hi).
    split; [apply Lo | apply Hi]; reflexivity.
Defined.

(** ** The edge relay *)

Section RelayClaims.
Context {R : Runtime}.

Lemma includes_In (l : list string) (s : string) :
  Relay.includes l s = true <-> In s l.
Proof.
  unfold Relay.includes. rewrite existsb_exists. split.
  - intros (x & I & E). apply String.eqb_eq in E. now subst.
  - intros I. exists s. split; [exact I | apply String.eqb_refl].
Qed.

Lemma includes_not_In (l : list string) (s : string) :
  ~ In s l -> Relay.includes l s = false.
Proof.
  intros N. destruct (Relay.includes l s) eqn:E; [| reflexivity].
  apply includes_In in E. contradiction.
Qed.

Lemma not_empty (s : string) : s <> "" -> String.eqb s "" = false.
Proof. intros N. now apply String.eqb_neq. Qed.

Lemma awaited_Some (o : Relay.outcome) (target : string) :
  awaited o = Some target -> exists k, o = Relay.awaits_fetch target k.
Proof.
  destruct o as [r | t k | e]; simpl; intros H; try discriminate H.
  injection H as ->. now exists k.
Qed.

Lemma answered_Some (o : Relay.outcome) (r : Relay.Response) :
  answered o = Some r -> o = Relay.returns r.
Proof.
  destruct o as [r' | t k | e]; simpl; intros H; try discriminate H.
  now injection H as ->.
Qed.

(** What either version has checked before it fetches. *)
Lemma fetch1_awaits (request : Relay.Request) (fetched : string)
  (k : completion Relay.Response -> Relay.Response) :
  Relay.fetch1 request = Relay.awaits_fetch fetched k ->
  exists u t,
    URL_parse (Relay.url request) = Normal u
    /\ Relay.searchParams_get "url" (searchParams u) = Some fetched
    /\ fetched <> ""
    /\ URL_parse fetched = Normal t
    /\ In (hostname t) Relay.allowedDomains.
Proof.
  unfold Relay.fetch1.
  destruct (URL_parse (Relay.url request)) as [u | e] eqn:U; [| discriminate].
  destruct (Relay.searchParams_get "url" (searchParams u)) as [target |]
    eqn:G; [| discriminate].
  destruct (String.eqb_spec target ""); [discriminate |].
  destruct (URL_parse target) as [t | e] eqn:T; [| discriminate].
  destruct (Relay.includes Relay.allowedDomains (hostname t)) eqn:I;
    [| discriminate].
  apply includes_In in I. simpl. intros H. injection H as <- _.
  exists u, t. auto.
Qed.

Lemma fetch2_awaits (request : Relay.Request) (env : Relay.Env)
  (fetched : string) (k : completion Relay.Response -> Relay.Response) :
  Relay.fetch2 request env = Relay.awaits_fetch fetched k ->
  exists u target t,
    URL_parse (Relay.url request) = Normal u
    /\ Relay.searchParams_get "url" (searchParams u) = Some target
    /\ target <> ""
    /\ URL_parse target = Normal t
    /\ In (hostname t) Relay.allowedDomains
    /\ fetched = Relay.inject_key env target t.
Proof.
  unfold Relay.fetch2.
  destruct (URL_parse (Relay.url request)) as [u | e] eqn:U; [| discriminate].
  destruct (Relay.searchParams_get "url" (searchParams u)) as [target |]
    eqn:G; [| discriminate].
  destruct (String.eqb_spec target ""); [discriminate |].
  destruct (URL_parse target) as [t | e] eqn:T; [| discriminate].
  destruct (Relay.includes Relay.allowedDomains (hostname t)) eqn:I;
    [| discriminate].
  apply includes_In in I. simpl. intros H. injection H as <- _.
  exists u, target, t. auto 10.
Qed.

(** C5: the allow-list has exactly the four hostnames; in both versions a
    request without a [url] parameter is answered with status 400, a
    request whose [url] parameter parses to a hostname off the list with
    status 403, and a request is forwarded only when the hostname of its
    [url] parameter is on the list. *)
Theorem relay_allow_list :
  Relay.allowedDomains =
  ["api.open-meteo.com"; "openexchangerates.org"; "api.frankfurter.app";
   "api.exchangerate-api.com"]
  /\ (forall request env u,
         URL_parse (Relay.url request) = Normal u ->
         Relay.searchParams_get "url" (searchParams u) = None ->
         (exists r, Relay.fetch1 request = Relay.returns r
                    /\ Relay.status r = 400%Z)
         /\ (exists r, Relay.fetch2 request env = Relay.returns r
                       /\ Relay.status r = 400%Z))
  /\ (forall request env u target t,
         URL_parse (Relay.url request) = Normal u ->
         Relay.searchParams_get "url" (searchParams u) = Some target ->
         target <> "" ->
         URL_parse target = Normal t ->
         ~ In (hostname t) Relay.allowedDomains ->
         (exists r, Relay.fetch1 request = Relay.returns r
                    /\ Relay.status r = 403%Z)
         /\ (exists r, Relay.fetch2 request env = Relay.returns r
                       /\ Relay.status r = 403%Z))
  /\ (forall request env fetched k,
         Relay.fetch1 request = Relay.awaits_fetch fetched k
         \/ Relay.fetch2 request env = Relay.awaits_fetch fetched k ->
         exists u target t,
           URL_parse (Relay.url request) = Normal u
           /\ Relay.searchParams_get "url" (searchParams u) = Some target
           /\ URL_parse target = Normal t
           /\ In (hostname t) Relay.allowedDomains).
Proof.
  split; [reflexivity |]. split; [| split].
  - intros request env u U G. unfold Relay.fetch1, Relay.fetch2.
    rewrite U, G. split; eexists; split; reflexivity.
  - intros request env u target t U G N T O.
    unfold Relay.fetch1, Relay.fetch2.
    rewrite U, G, (not_empty _ N), T, (includes_not_In _ _ O). simpl.
    split; eexists; split; reflexivity.
  - intros request env fetched k [H | H].
    + apply fetch1_awaits in H. destruct H as (u & t & U & G & _ & T & I).
      now exists u, fetched, t.
    + apply fetch2_awaits in H.
      destruct H as (u & target & t & U & G & _ & T & I & _).
      now exists u, target, t.
Qed.

Lemma set_get (name value : string) (l : list (string * string)) :
  Relay.searchParams_get name (Relay.searchParams_set name value l)
  = Some value.
Proof.
  induction l as [| [n v] l IH]; simpl.
  - now rewrite String.eqb_refl.
  - destruct (String.eqb n name) eqn:E; simpl.
    + now rewrite String.eqb_refl.
    + now rewrite E.
Qed.

Lemma without_without (name : string) (l : list (string * string)) :
  Relay.without name (Relay.without name l) = Relay.without name l.
Proof.
  unfold Relay.without. induction l as [| [n v] l IH]; simpl; [reflexivity |].
  destruct (String.eqb n name) eqn:E; simpl; [exact IH |].
  rewrite E. simpl. now rewrite IH.
Qed.

Lemma set_without (name value : string) (l : list (string * string)) :
  Relay.without name (Relay.searchParams_set name value l)
  = Relay.without name l.
Proof.
  induction l as [| [n v] l IH]; simpl.
  - now rewrite String.eqb_refl.
  - destruct (String.eqb n name) eqn:E; simpl.
    + rewrite String.eqb_refl. simpl. apply without_without.
    + rewrite E. simpl. now rewrite IH.
Qed.

Lemma named_without (name : string) (l : list (string * string)) :
  filter (fun p => String.eqb (fst p) name) (Relay.without name l) = [].
Proof.
  unfold Relay.without. induction l as [| [n v] l IH]; simpl; [reflexivity |].
  destruct (String.eqb n name) eqn:E; simpl; [exact IH |].
  now rewrite E.
Qed.

Lemma set_once (name value : string) (l : list (string * string)) :
  filter (fun p => String.eqb (fst p) name)
    (Relay.searchParams_set name value l)
  = [(name, value)].
Proof.
  induction l as [| [n v] l IH]; simpl.
  - now rewrite String.eqb_refl.
  - destruct (String.eqb n name) eqn:E; simpl.
    + rewrite String.eqb_refl. now rewrite named_without.
    + now rewrite E.
Qed.

Lemma set_append (name value : string) (l : list (string * string)) :
  Relay.searchParams_get name l = None ->
  Relay.searchParams_set name value l = (l ++ [(name, value)])%list.
Proof.
  induction l as [| [n v] l IH]; simpl; [reflexivity |].
  destruct (String.eqb n name); [discriminate |].
  intros H. now rewrite IH.
Qed.

(** [set] writes over the first pair of the name, where it stands, and
    drops the later ones. *)
Lemma set_in_place (name value old : string)
  (before after : list (string * string)) :
  Relay.searchParams_get name before = None ->
  Relay.searchParams_set name value (before ++ (name, old) :: after)
  = (before ++ (name, value) :: Relay.without name after)%list.
Proof.
  induction before as [| [n v] before IH]; simpl.
  - intros _. now rewrite String.eqb_refl.
  - destruct (String.eqb n name); [discriminate |].
    intros H. now rewrite IH.
Qed.

(** C6, amended: the second version gives the key to one destination.  For
    the hostname [api.open-meteo.com] with a configured key, the URL
    fetched is the requested URL with its query parameter [apikey] set to
    the key: the parameters of other names keep their values and order,
    exactly one parameter is named [apikey], it carries the key, and it is
    appended at the end when the requested URL had none; one already there
    is overwritten where the first one stands, the parameters before it
    unchanged and those after it kept but for further [apikey]s.  For
    every other hostname, and without a key, the requested URL is fetched
    as it was sent. *)
Theorem relay_key_injection (request : Relay.Request) (env : Relay.Env)
  (fetched : string) (k : completion Relay.Response -> Relay.Response) :
  Relay.fetch2 request env = Relay.awaits_fetch fetched k ->
  exists u target t,
    URL_parse (Relay.url request) = Normal u
    /\ Relay.searchParams_get "url" (searchParams u) = Some target
    /\ URL_parse target = Normal t
    /\ (forall apiKey,
           hostname t = "api.open-meteo.com" ->
           Relay.OPENMETEO_API_KEY env = Some apiKey ->
           apiKey <> "" ->
           exists params,
             fetched =
             URL_toString
               (mkURL (protocol t) (username t) (password t) (hostname t)
                  (port t) (pathname t) params (hash t))
             /\ Relay.without "apikey" params
                = Relay.without "apikey" (searchParams t)
             /\ filter (fun p => String.eqb (fst p) "apikey") params
                = [("apikey", apiKey)]
             /\ Relay.searchParams_get "apikey" params = Some apiKey
             /\ (Relay.searchParams_get "apikey" (searchParams t) = None ->
                 params = (searchParams t ++ [("apikey", apiKey)])%list)
             /\ (forall before mine after,
                    searchParams t
                    = (before ++ ("apikey", mine) :: after)%list ->
                    Relay.searchParams_get "apikey" before = None ->
                    params
                    = (before ++ ("apikey", apiKey)
                         :: Relay.without "apikey" after)%list))
    /\ (hostname t <> "api.open-meteo.com"
        \/ Relay.OPENMETEO_API_KEY env = None
        \/ Relay.OPENMETEO_API_KEY env = Some "" ->
        fetched = target).
Proof.
  intros H. apply fetch2_awaits in H.
  destruct H as (u & target & t & U & G & _ & T & _ & ->).
  exists u, target, t. repeat split; try assumption.
  - intros apiKey Hh Hk Hn. unfold Relay.inject_key.
    rewrite Hh, Hk, (not_empty _ Hn). simpl.
    exists (Relay.searchParams_set "apikey" apiKey (searchParams t)).
    split; [reflexivity |].
    split; [apply set_without |]. split; [apply set_once |].
    split; [apply set_get |]. split; [apply set_append |].
    intros before mine after S N. rewrite S. now apply set_in_place.
  - unfold Relay.inject_key. intros [Hh | [Hk | Hk]].
    + apply String.eqb_neq in Hh. now rewrite Hh.
    + rewrite Hk. now destruct (String.eqb (hostname t) _).
    + rewrite Hk. now destruct (String.eqb (hostname t) _).
Qed.

End RelayClaims.

(** C5 on the sample requests: 400 without a [url] parameter, 403 for a
    host off the list, and the rates request forwarded to a listed host. *)
Lemma relay_allow_list_witness :
  (exists r, Relay.fetch2 (R := reference) Sample.bare_request Sample.with_key
             = Relay.returns r /\ Relay.status r = 400%Z)
  /\ (exists r, Relay.fetch1 (R := reference) Sample.foreign_request
                = Relay.returns r /\ Relay.status r = 403%Z)
  /\ (exists u target t,
         URL_parse (Runtime := reference) (Relay.url Sample.rates_request)
         = Normal u
         /\ Relay.searchParams_get "url" (searchParams u) = Some target
         /\ URL_parse (Runtime := reference) target = Normal t
         /\ In (hostname t) Relay.allowedDomains).
Proof.
  destruct (@relay_allow_list reference) as (_ & P400 & P403 & Pfwd).
  split; [| split].
  - eapply (P400 Sample.bare_request Sample.with_key); vm_compute; reflexivity.
  - eapply (P403 Sample.foreign_request Sample.with_key
              _ "https://example.org/data").
    + vm_compute. reflexivity.
    + reflexivity.
    + discriminate.
    + vm_compute. reflexivity.
    + simpl. intuition discriminate.
  - destruct (awaited_Some (Relay.fetch1 (R := reference)
                              Sample.rates_request) Sample.rates_target)
      as [k E]; [vm_compute; reflexivity |].
    apply (Pfwd Sample.rates_request Sample.with_key Sample.rates_target k).
    now left.
Defined.

(** C6 as stated fails on a requested URL that carries an [apikey] of its
    own: the URL fetched has the secret in its place, so the requested
    parameter [apikey=mine] is gone and no parameter was added. *)
Lemma relay_key_injection_counterexample :
  exists k t f,
    Relay.fetch2 (R := reference) Sample.keyed_request Sample.with_key
    = Relay.awaits_fetch
        "http://api.open-meteo.com/v1/forecast?latitude=52.52&apikey=SECRET" k
    /\ Relay.searchParams_get "url"
         (match URL_parse (Runtime := reference)
                  (Relay.url Sample.keyed_request) with
          | Normal u => searchParams u
          | Throw _ => []
          end) = Some Sample.keyed_target
    /\ URL_parse (Runtime := reference) Sample.keyed_target = Normal t
    /\ URL_parse (Runtime := reference)
         "http://api.open-meteo.com/v1/forecast?latitude=52.52&apikey=SECRET"
       = Normal f
    /\ In ("apikey", "mine") (searchParams t)
    /\ ~ In ("apikey", "mine") (searchParams f)
    /\ List.length (searchParams f) = List.length (searchParams t).
Proof.
  destruct (awaited_Some
              (Relay.fetch2 (R := reference) Sample.keyed_request
                 Sample.with_key)
              "http://api.open-meteo.com/v1/forecast?latitude=52.52&apikey=SECRET")
    as [k E]; [vm_compute; reflexivity |].
  exists k. eexists _, _.
  split; [exact E |].
  split; [vm_compute; reflexivity |].
  split; [vm_compute; reflexivity |].
  split; [vm_compute; reflexivity |].
  split; [simpl; auto |].
  split; [simpl; intuition discriminate | reflexivity].
Qed.

(** C6 on the sample requests: the weather request gains the key at the
    end of its query, the rates request is fetched as it was sent, and a
    request with two [apikey]s of its own has the first overwritten in
    front of [latitude] and the second dropped. *)
Lemma relay_key_injection_witness :
  (exists k,
      Relay.fetch2 (R := reference) Sample.weather_request Sample.with_key
      = Relay.awaits_fetch
          ("http://api.open-meteo.com/v1/forecast?latitude=52.52"
           ++ "&current=temperature_2m&apikey=SECRET") k)
  /\ (exists k,
         Relay.fetch2 (R := reference) Sample.rates_request Sample.with_key
         = Relay.awaits_fetch Sample.rates_target k)
  /\ (exists k,
         Relay.fetch2 (R := reference) Sample.keyed_twice_request
           Sample.with_key
         = Relay.awaits_fetch
             "http://api.open-meteo.com/v1/forecast?apikey=SECRET&latitude=52.52"
             k).
Proof.
  assert (A : forall request,
             awaited (Relay.fetch2 (R := reference) request Sample.with_key)
             <> None ->
             exists fetched k,
               Relay.fetch2 (R := reference) request Sample.with_key
               = Relay.awaits_fetch fetched k).
  { intros request N.
    destruct (awaited (Relay.fetch2 (R := reference) request Sample.with_key))
      as [fetched |] eqn:E; [| contradiction].
    exists fetched. now apply awaited_Some. }
  split; [| split].
  - destruct (A Sample.weather_request) as (fetched & k & E);
      [vm_compute; discriminate |].
    exists k. rewrite E. f_equal.
    destruct (relay_key_injection (R := reference) _ _ _ _ E)
      as (u & target & t & U & G & T & P & _).
    vm_compute in U. injection U as <-.
    vm_compute in G. injection G as <-.
    vm_compute in T. injection T as <-.
    destruct (P "SECRET" eq_refl eq_refl ltac:(discriminate))
      as (params & -> & _ & _ & _ & Ap & _).
    rewrite (Ap eq_refl). vm_compute. reflexivity.
  - destruct (A Sample.rates_request) as (fetched & k & E);
      [vm_compute; discriminate |].
    exists k. rewrite E. f_equal.
    destruct (relay_key_injection (R := reference) _ _ _ _ E)
      as (u & target & t & U & G & T & _ & Q).
    vm_compute in U. injection U as <-.
    vm_compute in G. injection G as <-.
    vm_compute in T. injection T as <-.
    rewrite Q; [reflexivity | left; discriminate].
  - destruct (A Sample.keyed_twice_request) as (fetched & k & E);
      [vm_compute; discriminate |].
    exists k. rewrite E. f_equal.
    destruct (relay_key_injection (R := reference) _ _ _ _ E)
      as (u & target & t & U & G & T & P & _).
    vm_compute in U. injection U as <-.
    vm_compute in G. injection G as <-.
    vm_compute in T. injection T as <-.
    destruct (P "SECRET" eq_refl eq_refl ltac:(discriminate))
      as (params & -> & _ & _ & _ & _ & Ap).
    rewrite (Ap [] "mine" [("latitude", "52.52"); ("apikey", "other")]
                eq_refl eq_refl).
    vm_compute. reflexivity.
Defined.

(** * Further properties *)

Import SharedDataRest.

(** ** Finite checks and numbers that are not numbers *)

(** A boolean property checked on [0 .. n - 1] holds of every integer in
    that range. *)
Lemma forall_range (P : Z -> bool) (n : nat) :
  forallb P (map Z.of_nat (seq 0 n)) = true ->
  forall z, (0 <= z < Z.of_nat n)%Z -> P z = true.
Proof.
  rewrite forallb_forall. intros H z Hz. apply H.
  apply in_map_iff. exists (Z.to_nat z). split; [lia |].
  apply in_seq. lia.
Qed.

Lemma Prim2SF_nan (x : float) : PrimFloat.is_nan x = true -> Prim2SF x = S754_nan.
Proof. intros H. unfold Prim2SF. now rewrite H. Qed.

(** [NaN] is below nothing, above nothing and equal to nothing. *)
Lemma nan_compares (x y : float) :
  PrimFloat.is_nan x = true ->
  PrimFloat.ltb x y = false /\ PrimFloat.ltb y x = false
  /\ PrimFloat.eqb x y = false.
Proof.
  intros H. rewrite !ltb_spec, eqb_spec, (Prim2SF_nan x H).
  unfold SFltb, SFeqb. destruct (Prim2SF y); auto.
Qed.

(** ** isInActiveWindow *)

Section ActiveWindow.

Local Open Scope Z_scope.

(** X1: on a day of the week [d] (0 is Sunday) and an hour [h] of the UTC
    clock, [isInActiveWindow] holds exactly from hour 8 on, outside the
    weekend block from Friday 21:00 to Sunday 21:00: hours 0 to 7 are
    blocked every day, hour 7 included. *)
Theorem isInActiveWindow_hours (d h : Z) :
  0 <= d <= 6 -> 0 <= h <= 23 ->
  isInActiveWindow (Reference.float_of_Z d) (Reference.float_of_Z h) =
  (8 <=? h) && negb ((d =? 5) && (21 <=? h)) && negb (d =? 6)
  && negb ((d =? 0) && (h <? 21)).
Proof.
  intros Hd Hh.
  apply Bool.eqb_prop.
  apply (forall_range
           (fun h =>
              Bool.eqb
                (isInActiveWindow (Reference.float_of_Z d)
                   (Reference.float_of_Z h))
                ((8 <=? h) && negb ((d =? 5) && (21 <=? h)) && negb (d =? 6)
                 && negb ((d =? 0) && (h <? 21)))) 24); [| lia].
  revert d Hd.
  assert (A : forall d, 0 <= d < Z.of_nat 7 ->
      forallb
        (fun h =>
           Bool.eqb
             (isInActiveWindow (Reference.float_of_Z d)
                (Reference.float_of_Z h))
             ((8 <=? h) && negb ((d =? 5) && (21 <=? h)) && negb (d =? 6)
              && negb ((d =? 0) && (h <? 21))))
        (map Z.of_nat (seq 0 24)) = true).
  { apply (forall_range
             (fun d =>
                forallb
                  (fun h =>
                     Bool.eqb
                       (isInActiveWindow (Reference.float_of_Z d)
                          (Reference.float_of_Z h))
                       ((8 <=? h) && negb ((d =? 5) && (21 <=? h))
                        && negb (d =? 6) && negb ((d =? 0) && (h <? 21))))
                  (map Z.of_nat (seq 0 24))) 7).
    vm_compute. reflexivity. }
  intros d Hd. apply A. lia.
Qed.

End ActiveWindow.

(** X1 on Friday: active at 20:00, blocked at 21:00 and at 07:00. *)
Lemma isInActiveWindow_hours_witness :
  isInActiveWindow 5 20 = true
  /\ isInActiveWindow 5 21 = false
  /\ isInActiveWindow 5 7 = false.
Proof.
  split; [| split].
  - exact (isInActiveWindow_hours 5 20 ltac:(lia) ltac:(lia)).
  - exact (isInActiveWindow_hours 5 21 ltac:(lia) ltac:(lia)).
  - exact (isInActiveWindow_hours 5 7 ltac:(lia) ltac:(lia)).
Defined.

(** ** padZero and getDayName *)

Section SmallHelpers.
Context {R : Runtime}.

(** X2: for a number from 0 to 99 that the runtime prints in decimal, as
    hours and minutes are, [padZero] gives exactly two digits: the number
    with a zero in front when it is below 10. *)
Theorem padZero_two_digits (n : Z) :
  (0 <= n <= 99)%Z ->
  NumberToString (Reference.float_of_Z n) = Reference.digits_of n ->
  padZero (Reference.float_of_Z n) = Reference.pad_digits 2 n
  /\ String.length (padZero (Reference.float_of_Z n)) = 2.
Proof.
  intros Hn Hs. unfold padZero. rewrite Hs.
  assert (A : andb
                (Bool.eqb (PrimFloat.ltb (Reference.float_of_Z n) 10)
                   (n <? 10)%Z)
                (andb
                   (String.eqb (Reference.pad_digits 2 n)
                      (if (n <? 10)%Z then "0" ++ Reference.digits_of n
                       else Reference.digits_of n))
                   (Nat.eqb (String.length (Reference.pad_digits 2 n)) 2))
              = true).
  { apply (forall_range
             (fun n =>
                andb
                  (Bool.eqb (PrimFloat.ltb (Reference.float_of_Z n) 10)
                     (n <? 10)%Z)
                  (andb
                     (String.eqb (Reference.pad_digits 2 n)
                        (if (n <? 10)%Z then "0" ++ Reference.digits_of n
                         else Reference.digits_of n))
                     (Nat.eqb (String.length (Reference.pad_digits 2 n)) 2)))
             100); [vm_compute; reflexivity | lia]. }
  apply andb_true_iff in A. destruct A as [A1 A2].
  apply andb_true_iff in A2. destruct A2 as [A2 A3].
  apply Bool.eqb_prop in A1. apply String.eqb_eq in A2.
  apply Nat.eqb_eq in A3. rewrite A1.
  assert (P : (if (n <? 10)%Z then "0" ++ Reference.digits_of n
               else "" ++ Reference.digits_of n)
              = Reference.pad_digits 2 n).
  { rewrite A2. now destruct (n <? 10)%Z. }
  rewrite P. split; [reflexivity | exact A3].
Qed.

Lemma index_number_days (x : float) :
  index_number days x = PUndefined
  \/ exists name, index_number days x = PStr name /\ In name days.
Proof.
  unfold index_number, days. simpl.
  repeat match goal with
    | |- context [if ?b then _ else _] => destruct b
    end;
    first [left; reflexivity | right; eexists; split; [reflexivity |];
                               simpl; auto 10].
Qed.

(** X3: [getDayName] never fails on a date the runtime can build: it gives
    the English short name of the day when [getDay] is 0 to 6 (Sunday
    first), [undefined] when the date is invalid ([getDay] is [NaN]), and
    in every case one of the seven names or [undefined]. *)
Theorem getDayName_names (dateStr : value) (t : float) :
  Date_new dateStr = Normal t ->
  (forall k, (0 <= k <= 6)%Z -> getDay t = Reference.float_of_Z k ->
     getDayName dateStr = Normal (PStr (nth (Z.to_nat k) days "")))
  /\ (PrimFloat.is_nan (getDay t) = true ->
      getDayName dateStr = Normal PUndefined)
  /\ (exists r, getDayName dateStr = Normal r
                /\ (r = PUndefined
                    \/ exists name, r = PStr name /\ In name days)).
Proof.
  intros D. unfold getDayName. rewrite D. simpl. split; [| split].
  - intros k Hk ->. f_equal.
    assert (A : match index_number days (Reference.float_of_Z k) with
                | PStr s => String.eqb s (nth (Z.to_nat k) days "")
                | _ => false
                end = true).
    { apply (forall_range
               (fun k =>
                  match index_number days (Reference.float_of_Z k) with
                  | PStr s => String.eqb s (nth (Z.to_nat k) days "")
                  | _ => false
                  end) 7); [vm_compute; reflexivity | lia]. }
    destruct (index_number days (Reference.float_of_Z k)); try discriminate.
    apply String.eqb_eq in A. now rewrite A.
  - intros N. f_equal. unfold index_number, days. simpl.
    repeat match goal with
      | |- context [PrimFloat.eqb (getDay t) ?i] =>
          rewrite (proj2 (proj2 (nan_compares (getDay t) i N)))
      end.
    reflexivity.
  - eexists. split; [reflexivity |]. apply index_number_days.
Qed.

End SmallHelpers.

(** X2 on the minutes 5 and 42. *)
Lemma padZero_two_digits_witness :
  padZero (R := reference) 5 = "05" /\ padZero (R := reference) 42 = "42".
Proof.
  split.
  - exact (proj1 (padZero_two_digits (R := reference) 5 ltac:(lia) eq_refl)).
  - exact (proj1 (padZero_two_digits (R := reference) 42 ltac:(lia) eq_refl)).
Defined.

(** X3 on a Wednesday and on a text that is no date. *)
Lemma getDayName_names_witness :
  getDayName (R := reference) (VStr "2024-05-01") = Normal (PStr "Wed")
  /\ getDayName (R := reference) (VStr "soon") = Normal PUndefined.
Proof.
  split.
  - exact (proj1 (getDayName_names (R := reference) (VStr "2024-05-01")
                    1714521600000%float eq_refl) 3%Z ltac:(lia) eq_refl).
  - exact (proj1 (proj2 (getDayName_names (R := reference) (VStr "soon")
                           PrimFloat.nan eq_refl)) eq_refl).
Defined.

(** ** fetchWeather: the rest of the record and the error paths *)

Section WeatherRest.
Context {R : Runtime}.

Lemma get_not_nullish (o v : value) (k : string) :
  get o k = Normal v -> o <> undefined /\ o <> null.
Proof. destruct o as [[] | |]; simpl; intros H; now try discriminate H. Qed.

Lemma index_not_nullish (o v : value) (i : nat) :
  index o i = Normal v -> o <> undefined /\ o <> null.
Proof. destruct o as [[] | |]; simpl; intros H; now try discriminate H. Qed.

Lemma current_field_inv (data v : value) (k : string) :
  current_field data k = Normal v ->
  exists c, get data "current" = Normal c /\ get c k = Normal v.
Proof. unfold current_field. intros H. unbind. eauto. Qed.

Lemma daily_field_inv (data v : value) (k : string) (i : nat) :
  daily_field data k i = Normal v ->
  exists d a, get data "daily" = Normal d /\ get d k = Normal a
              /\ index a i = Normal v.
Proof. unfold daily_field. intros H. unbind. eauto 6. Qed.

(** What the [try] block has checked when it hands on data. *)
Lemma weather_try_data (text : string) (p : processed) :
  weather_try text = Normal (callback_data p) ->
  exists data error reason,
    JSON_parse text = Normal data
    /\ get data "error" = Normal error /\ truthy error = false
    /\ get data "reason" = Normal reason /\ truthy reason = false
    /\ build_processed data = Normal p.
Proof.
  unfold weather_try. intros H. unbind.
  destruct (truthy v0) eqn:T0; simpl in E1.
  - injection E1 as <-. rewrite T0 in H. unbind. discriminate.
  - destruct (truthy v1) eqn:T1; unbind; [discriminate |].
    subst. exists v, v0, v1. auto 10.
Qed.

Lemma build_current_rest (data : value) (c : Current.t) :
  build_current data = Normal c ->
  current_field data "relative_humidity_2m" = Normal (Current.humidity c)
  /\ current_field data "weather_code" = Normal (Current.weatherCode c)
  /\ getWeatherIcon (Current.weatherCode c) = Normal (Current.icon c)
  /\ (exists w, current_field data "wind_speed_10m" = Normal w
                /\ round_value w = Normal (Current.windSpeed c)).
Proof.
  unfold build_current. intros H. unbind. same_steps. subst c. simpl.
  repeat split; try assumption. eauto.
Qed.

(** X4: in every record handed on, the current icon is the icon of the
    record's own [weatherCode], the humidity is the raw reading, the wind
    speed is [Math.round] of the raw one, and each forecast entry has the
    day name of [daily.time[i]] and the icon of [daily.weather_code[i]]. *)
Theorem fetchWeather_record_consistent (status : Z) (text : string)
  (p : processed) :
  weather_onload status text = callback_data p ->
  exists data,
    JSON_parse text = Normal data
    /\ current_field data "relative_humidity_2m"
       = Normal (Current.humidity (current p))
    /\ current_field data "weather_code"
       = Normal (Current.weatherCode (current p))
    /\ getWeatherIcon (Current.weatherCode (current p))
       = Normal (Current.icon (current p))
    /\ (exists w x, current_field data "wind_speed_10m" = Normal w
                    /\ ToNumber w = Normal x
                    /\ Current.windSpeed (current p) = Math_round x)
    /\ forall i e, 1 <= i <= 3 -> nth_error (forecast p) (i - 1) = Some e ->
         (exists v, daily_field data "time" i = Normal v
                    /\ getDayName v = Normal (Forecast.day e))
         /\ (exists v, daily_field data "weather_code" i = Normal v
                       /\ getWeatherIcon v = Normal (Forecast.icon e)).
Proof.
  intros H. apply weather_onload_data in H.
  destruct H as (_ & data & P & B). exists data. split; [exact P |].
  apply build_processed_parts in B.
  destruct B as (C & _ & e1 & e2 & e3 & F & B1 & B2 & B3).
  apply build_current_rest in C. destruct C as (C1 & C2 & C3 & w & C4 & C5).
  repeat (split; [assumption |]). split.
  - unfold round_value in C5. unbind. exists w, v. auto.
  - intros i e Hi N.
    assert (B : build_forecast data i = Normal e).
    { rewrite F in N.
      assert (Ci : i = 1 \/ i = 2 \/ i = 3) by lia.
      destruct Ci as [-> | [-> | ->]]; simpl in N; injection N as <-;
        assumption. }
    apply build_forecast_spec in B. destruct B as (D1 & _ & _ & D4 & _).
    auto.
Qed.

(** X5: a response with status 200 whose JSON has a truthy [error] or
    [reason] is never handed on as data: the callback gets an error, which
    is the [reason] when that is truthy, otherwise the [error] when it is a
    string, otherwise ['Unknown error']. *)
Theorem fetchWeather_api_error (text : string) (data error reason : value) :
  JSON_parse text = Normal data ->
  get data "error" = Normal error ->
  get data "reason" = Normal reason ->
  truthy error || truthy reason = true ->
  weather_onload 200 text =
  callback_error
    (if truthy reason then reason
     else if is_string error then error
     else VStr "Unknown error").
Proof.
  intros P He Hr T. unfold weather_onload, weather_try.
  cbn [Z.eqb Pos.eqb]. rewrite P. cbn [JS.bind]. rewrite He. cbn [JS.bind].
  destruct (truthy error) eqn:Te; cbn [JS.bind].
  - rewrite Te, Hr. cbn [JS.bind]. unfold or_else.
    now destruct (truthy reason).
  - rewrite Hr. cbn [JS.bind]. simpl in T. rewrite T. cbn [JS.bind].
    unfold or_else. now rewrite T.
Qed.

(** X6: data is handed on only for a response with status 200 that
    parses, has no truthy [error] or [reason], and has a [current] and a
    [daily] that are neither [undefined] nor [null], [daily] with each of
    its seven series present. *)
Theorem fetchWeather_data_requires (status : Z) (text : string)
  (p : processed) :
  weather_onload status text = callback_data p ->
  status = 200%Z
  /\ exists data error reason cur daily,
      JSON_parse text = Normal data
      /\ get data "error" = Normal error /\ truthy error = false
      /\ get data "reason" = Normal reason /\ truthy reason = false
      /\ get data "current" = Normal cur
      /\ cur <> undefined /\ cur <> null
      /\ get data "daily" = Normal daily
      /\ Forall
           (fun k => exists a, get daily k = Normal a
                               /\ a <> undefined /\ a <> null)
           ["temperature_2m_max"; "temperature_2m_min";
            "precipitation_probability_max"; "sunrise"; "sunset"; "time";
            "weather_code"].
Proof.
  unfold weather_onload.
  destruct (Z.eqb_spec status 200) as [-> |]; [| discriminate].
  destruct (weather_try text) as [c | e] eqn:T; [| discriminate].
  intros ->. split; [reflexivity |].
  apply weather_try_data in T.
  destruct T as (data & error & reason & P & He & Te & Hr & Tr & B).
  apply build_processed_parts in B.
  destruct B as (C & T & e1 & _ & _ & _ & B1 & _).
  apply build_current_spec in C. destruct C as ((v & C & _) & _).
  apply current_field_inv in C. destruct C as (cur & C & Cv).
  destruct (get_not_nullish _ _ _ Cv) as [N1 N2].
  apply build_today_spec in T.
  destruct T as ((a1 & T1 & _) & (a2 & T2 & _) & (a3 & T3 & _)
                 & (a4 & T4 & _) & (a5 & T5 & _)).
  apply build_forecast_spec in B1.
  destruct B1 as ((a6 & F1 & _) & _ & _ & (a7 & F4 & _) & _).
  apply daily_field_inv in T1, T2, T3, T4, T5, F1, F4.
  destruct T1 as (daily & s1 & D & G1 & I1).
  assert (S : forall k i v,
             (exists d a, get data "daily" = Normal d /\ get d k = Normal a
                          /\ index a i = Normal v) ->
             exists a, get daily k = Normal a
                       /\ a <> undefined /\ a <> null).
  { intros k i w (d & a & D' & G & I). rewrite D in D'. injection D' as <-.
    exists a. split; [exact G | exact (index_not_nullish _ _ _ I)]. }
  exists data, error, reason, cur, daily.
  repeat (split; [assumption |]).
  repeat constructor; eauto 6.
Qed.

(** X7: a body that [JSON.parse] rejects, and a body that parses but has no
    [current], are both reported as ['Parse error: '] followed by the
    message of the exception. *)
Theorem fetchWeather_parse_error :
  (forall text ex,
      JSON_parse text = Throw ex ->
      weather_onload 200 text
      = callback_error (VStr ("Parse error: " ++ message ex)))
  /\ (forall text data error reason cur,
         JSON_parse text = Normal data ->
         get data "error" = Normal error -> truthy error = false ->
         get data "reason" = Normal reason -> truthy reason = false ->
         get data "current" = Normal cur ->
         cur = undefined \/ cur = null ->
         weather_onload 200 text
         = callback_error
             (VStr ("Parse error: " ++ message (TypeError "temperature_2m")))).
Proof.
  split.
  - intros text ex P. unfold weather_onload, weather_try.
    cbn [Z.eqb Pos.eqb]. now rewrite P.
  - intros text data error reason cur P He Te Hr Tr Hc N.
    unfold weather_onload, weather_try. cbn [Z.eqb Pos.eqb].
    rewrite P. cbn [JS.bind]. rewrite He. cbn [JS.bind].
    rewrite Te, Hr. cbn [JS.bind]. rewrite Tr.
    unfold build_processed, build_current, current_field.
    rewrite Hc. cbn [JS.bind]. now destruct N as [-> | ->].
Qed.

(** An error of the engine always has a message to report. *)
Lemma catch_text_engine (ex : exn) :
  catch_text (by_engine ex) = Normal ("Parse error: " ++ message ex).
Proof. reflexivity. Qed.

(** X8: with a callback that may throw, the first call is always the one
    the handler decides on, and there are at most two calls.  If it
    returns, it is the only call.  If it throws inside the [try] block, the
    [catch] reads the [message] of what was thrown: the callback is called
    once more with ['Parse error: '] and that message, so for an [Error]
    with the message [m] with ['Parse error: ' + m]; but when [undefined]
    or [null] was thrown the reading fails, there is no second call and a
    [TypeError] leaves the handler.  Outside the block (a status other
    than 200, or after an exception of the block) the exception of the
    callback leaves the handler. *)
Theorem fetchWeather_callback_throws
  (callback : nat -> weather_callback -> option thrown) (status : Z)
  (text : string) :
  let first := weather_onload status text in
  let run := weather_onload_calling callback status text in
  hd_error (fst run) = Some first
  /\ List.length (fst run) <= 2
  /\ (callback 0 first = None -> run = ([first], None))
  /\ (forall a e,
         status = 200%Z -> weather_try text = Normal a ->
         callback 0 a = Some e ->
         (forall s, catch_text e = Normal s ->
            run = ([a; callback_error (VStr s)],
                   callback 1 (callback_error (VStr s))))
         /\ (forall ex, catch_text e = Throw ex ->
               run = ([a], Some (by_engine ex))))
  /\ (forall props m,
         assoc "message" props = Some (VStr m) ->
         catch_text (by_callback (VObj props))
         = Normal ("Parse error: " ++ m))
  /\ (forall v, v = undefined \/ v = null ->
         catch_text (by_callback v) = Throw (TypeError "message"))
  /\ (forall e,
         status <> 200%Z \/ (exists ex, weather_try text = Throw ex) ->
         callback 0 first = Some e -> run = ([first], Some e)).
Proof.
  cbv zeta. unfold weather_onload_calling, weather_onload.
  assert (P : forall props m,
             assoc "message" props = Some (VStr m) ->
             catch_text (by_callback (VObj props))
             = Normal ("Parse error: " ++ m)).
  { intros props m H. unfold catch_text. simpl. now rewrite H. }
  assert (N : forall v, v = undefined \/ v = null ->
             catch_text (by_callback v) = Throw (TypeError "message")).
  { now intros v [-> | ->]. }
  destruct (Z.eqb_spec status 200) as [-> | Hs].
  - destruct (weather_try text) as [a | ex] eqn:T.
    + destruct (callback 0 a) as [e |] eqn:C.
      * split; [now destruct (catch_text e) |].
        split; [destruct (catch_text e); simpl; lia |].
        split; [discriminate |]. split; [| split; [exact P |]; split;
                                           [exact N |]].
        -- intros a' e' _ H. injection H as <-. rewrite C.
           intros H. injection H as <-.
           split; [intros s -> | intros ex ->]; reflexivity.
        -- intros e' [H | [ex H]]; [contradiction | discriminate].
      * split; [reflexivity |]. split; [simpl; lia |].
        split; [reflexivity |]. split; [| split; [exact P |]; split;
                                          [exact N |]].
        -- intros a' e' _ H. injection H as <-. rewrite C. discriminate.
        -- intros e' [H | [ex H]]; [contradiction | discriminate].
    + rewrite catch_text_engine. cbn [app List.length].
      split; [reflexivity |]. split; [simpl; lia |].
      split; [now intros -> |]. split; [discriminate |].
      split; [exact P |]. split; [exact N |].
      now intros e _ ->.
  - split; [reflexivity |]. split; [simpl; lia |].
    split; [now intros -> |]. split; [intros a e H; contradiction |].
    split; [exact P |]. split; [exact N |].
    now intros e _ ->.
Qed.

End WeatherRest.

(** ** fetchCurrency: order, presence and unreadable rates *)

Section CurrencyRest.
Context {R : Runtime}.

Local Open Scope float_scope.

Lemma event_of_permutation (x : request) (evs evs' : list xhr_event) :
  well_formed evs -> well_formed evs' ->
  (forall e, In e evs <-> In e evs') ->
  event_of x evs = event_of x evs'.
Proof.
  intros W W' I.
  destruct (event_of x evs) as [e |] eqn:E.
  - apply event_of_request in E. destruct E as [E <-].
    symmetry. apply event_of_In; [exact W' | now apply I].
  - destruct (event_of x evs') as [e' |] eqn:E'; [| reflexivity].
    apply event_of_request in E'. destruct E' as [E' <-].
    apply I in E'. rewrite (event_of_In evs e' W E') in E. discriminate.
Qed.

(** X9: the result does not depend on the order in which the three
    responses arrive: two complete traces with the same events, each
    request once, end in the same single call of the callback. *)
Theorem fetchCurrency_order_independent (t : thresholds)
  (evs evs' : list xhr_event) :
  well_formed evs -> well_formed evs' ->
  List.length evs = 3%nat -> List.length evs' = 3%nat ->
  (forall e, In e evs <-> In e evs') ->
  calls (run t evs) = calls (run t evs')
  /\ exists cb, calls (run t evs) = [cb].
Proof.
  intros W W' L L' I.
  rewrite (run_complete t evs W L), (run_complete t evs' W' L').
  split; [| eauto]. unfold outcomes.
  now rewrite !(event_of_permutation _ evs evs' W W' I).
Qed.

(** A displayed rate that reads as [NaN] is below no threshold and above
    none. *)
Lemma status_of_nan (t : thresholds) (r : Results.t) :
  PrimFloat.is_nan
    (parseFloat (Currency.rate (cb_data (callback_for t r)))) = true ->
  Currency.status (cb_data (callback_for t r)) = "".
Proof.
  unfold callback_for. cbn [cb_data Currency.rate Currency.status].
  intros N. unfold status.
  destruct (nan_compares _ (ToNumber_prim (lowThreshold (fetchCurrency t))) N)
    as (-> & _ & _).
  destruct (nan_compares _ (ToNumber_prim (highThreshold (fetchCurrency t))) N)
    as (_ & -> & _).
  reflexivity.
Qed.

(** X10: a rate that does not parse to a number is never flagged: in every
    call of the callback, a displayed rate that [parseFloat] reads as [NaN]
    has the empty status, whatever the thresholds. *)
Theorem fetchCurrency_unreadable_rate (t : thresholds) (evs : list xhr_event)
  (cb : currency_callback) :
  In cb (calls (run t evs)) ->
  PrimFloat.is_nan (parseFloat (Currency.rate (cb_data cb))) = true ->
  Currency.status (cb_data cb) = "".
Proof.
  intros H N. apply calls_callback_for in H. destruct H as [r ->].
  now apply status_of_nan.
Qed.

(** X11: an ECB or an Alt entry is present only for a response with status
    200 whose [rates.USD] is a number, and its rate is that number printed
    with five decimals. *)
Theorem ecb_alt_entry_requires_number (x : request) (status : Z)
  (text : string) :
  (forall e, ecb_outcome (Some (onload x status text)) = Some e ->
     status = 200%Z
     /\ exists data rates usd,
         JSON_parse text = Normal data
         /\ get data "rates" = Normal rates
         /\ get rates "USD" = Normal (VNum usd)
         /\ EcbEntry.rate e = toFixed usd 5
         /\ get data "date" = Normal (EcbEntry.date e))
  /\ (forall a, alt_outcome (Some (onload x status text)) = Some a ->
        status = 200%Z
        /\ exists data rates usd,
            JSON_parse text = Normal data
            /\ get data "rates" = Normal rates
            /\ get rates "USD" = Normal (VNum usd)
            /\ AltEntry.rate a = toFixed usd 5).
Proof.
  split.
  - intros e. simpl. unfold assign.
    destruct (Z.eqb_spec status 200) as [-> |]; [| discriminate].
    destruct (ecb_try text) as [e' |] eqn:T; [| discriminate].
    intros H. injection H as <-. split; [reflexivity |].
    unfold ecb_try in T. unbind. subst e'.
    destruct v1 as [[| | | usd |] | |]; try discriminate E2.
    simpl in E2. injection E2 as <-. exists v, v0, usd. auto 10.
  - intros a. simpl. unfold assign.
    destruct (Z.eqb_spec status 200) as [-> |]; [| discriminate].
    destruct (alt_try text) as [a' |] eqn:T; [| discriminate].
    intros H. injection H as <-. split; [reflexivity |].
    unfold alt_try in T. unbind. subst a'.
    destruct v1 as [[| | | usd |] | |]; try discriminate E2.
    simpl in E2. injection E2 as <-. exists v, v0, usd. auto 10.
Qed.

Lemma oxr_try_primitive (text : string) (data rates : value)
  (eur timestamp : primitive) :
  JSON_parse text = Normal data ->
  get data "rates" = Normal rates ->
  get rates "EUR" = Normal (VPrim eur) ->
  get data "timestamp" = Normal (VPrim timestamp) ->
  oxr_try text =
  Normal
    (OxrEntry.make (toFixed (1 / ToNumber_prim eur) 5)
       (dateTime_text (TimeClip (ToNumber_prim timestamp * 1000)))).
Proof.
  intros P Hr He Ht. unfold oxr_try. rewrite P. cbn [JS.bind].
  rewrite Hr. cbn [JS.bind]. rewrite He. cbn [JS.bind ToNumber ToPrimitive].
  rewrite Ht. reflexivity.
Qed.

(** X12: unlike ECB and Alt, OXR does not need its rate to be there.  For
    an OXR response with status 200 whose [rates] lacks [EUR], the entry is
    stored all the same with the rate [toFixed] gives for [1 / NaN], and in
    the result it takes precedence over whatever ECB and Alt answered; if
    that rate reads back as [NaN], the status is empty. *)
Theorem oxr_entry_without_rate (t : thresholds) (evs : list xhr_event)
  (text : string) (data rates : value) (timestamp : primitive) :
  well_formed evs -> List.length evs = 3%nat ->
  In (onload xhr1 200 text) evs ->
  JSON_parse text = Normal data ->
  get data "rates" = Normal rates ->
  get rates "EUR" = Normal undefined ->
  get data "timestamp" = Normal (VPrim timestamp) ->
  exists cb,
    calls (run t evs) = [cb]
    /\ Currency.source (cb_data cb) = "OXR"
    /\ Currency.rate (cb_data cb) = toFixed (1 / PrimFloat.nan) 5
    /\ (PrimFloat.is_nan (parseFloat (toFixed (1 / PrimFloat.nan) 5)) = true ->
        Currency.status (cb_data cb) = "").
Proof.
  intros W L I P Hr He Ht.
  pose proof (run_complete t evs W L) as C.
  exists (callback_for t (outcomes evs)). split; [exact C |].
  assert (O : Results.oxr (outcomes evs)
              = Some (OxrEntry.make (toFixed (1 / PrimFloat.nan) 5)
                        (dateTime_text
                           (TimeClip (ToNumber_prim timestamp * 1000))))).
  { pose proof (event_of_In evs _ W I) as E. simpl in E.
    unfold outcomes. cbn [Results.oxr]. rewrite E. unfold oxr_outcome, assign.
    cbn [Z.eqb Pos.eqb].
    now rewrite (oxr_try_primitive text data rates PUndefined timestamp). }
  assert (S : Currency.source (cb_data (callback_for t (outcomes evs)))
              = "OXR"
              /\ Currency.rate (cb_data (callback_for t (outcomes evs)))
                 = toFixed (1 / PrimFloat.nan) 5).
  { unfold callback_for, source, displayRate.
    cbn [cb_data Currency.source Currency.rate]. now rewrite O. }
  destruct S as [S1 S2]. split; [exact S1 |]. split; [exact S2 |].
  intros N. apply status_of_nan. now rewrite S2.
Qed.

(** X13: Alt never shows a time made from an invalid date: the [dateTime]
    of an Alt entry is [null], or the text of a date whose time value is
    not [NaN], built from a truthy [time_last_update_utc]. *)
Theorem alt_dateTime_guarded (text : string) (a : AltEntry.t) :
  alt_try text = Normal a ->
  AltEntry.dateTime a = PNull
  \/ exists data updated time,
      JSON_parse text = Normal data
      /\ get data "time_last_update_utc" = Normal updated
      /\ truthy updated = true
      /\ Date_new updated = Normal time
      /\ PrimFloat.is_nan time = false
      /\ AltEntry.dateTime a = PStr (dateTime_text time).
Proof.
  unfold alt_try. intros H. unbind. subst a. simpl.
  destruct (truthy v3) eqn:T; [| injection E4 as <-; now left].
  apply bind_Normal in E4. destruct E4 as (time & D & E4).
  destruct (PrimFloat.is_nan time) eqn:N; simpl in E4;
    injection E4 as <-; [now left | right].
  exists v, v3, time. auto 10.
Qed.

End CurrencyRest.

(** ** Header lists *)

Section Headers.

Lemma lower_ascii_idem (c : ascii) :
  Relay.lower_ascii (Relay.lower_ascii c) = Relay.lower_ascii c.
Proof. destruct c as [[] [] [] [] [] [] [] []]; reflexivity. Qed.

Lemma lower_idem (s : string) : Relay.lower (Relay.lower s) = Relay.lower s.
Proof.
  induction s as [| c s IH]; simpl; [reflexivity |].
  now rewrite lower_ascii_idem, IH.
Qed.

Lemma same_name_eqb (n : string) (p : string * string) :
  Relay.same_name n p = String.eqb (Relay.lower (fst p)) (Relay.lower n).
Proof. reflexivity. Qed.

Lemma values_nil (n : string) : Relay.values n [] = [].
Proof. reflexivity. Qed.

Lemma values_cons (n : string) (p : string * string)
  (h : list (string * string)) :
  Relay.values n (p :: h)
  = if Relay.same_name n p then snd p :: Relay.values n h
    else Relay.values n h.
Proof. unfold Relay.values. simpl. now destruct (Relay.same_name n p). Qed.

Lemma values_app (n : string) (a b : list (string * string)) :
  Relay.values n (a ++ b) = (Relay.values n a ++ Relay.values n b)%list.
Proof. unfold Relay.values. now rewrite filter_app, map_app. Qed.

Lemma values_lower (n : string) (h : list (string * string)) :
  Relay.values (Relay.lower n) h = Relay.values n h.
Proof.
  induction h as [| p h IH]; [reflexivity |].
  rewrite !values_cons, !same_name_eqb, lower_idem. now rewrite IH.
Qed.

(** No header under a name that is not in the list. *)
Lemma values_absent (n : string) (h : list (string * string)) :
  ~ In (Relay.lower n) (map (fun p => Relay.lower (fst p)) h) ->
  Relay.values n h = [].
Proof.
  induction h as [| p h IH]; [reflexivity |].
  simpl. intros N. rewrite values_cons, same_name_eqb.
  destruct (String.eqb_spec (Relay.lower (fst p)) (Relay.lower n)) as [E |];
    [exfalso; apply N; now left |].
  apply IH. intros I. apply N. now right.
Qed.

Lemma values_append (n a v : string) (h : list (string * string)) :
  Relay.values n (Relay.Headers_append a v h)
  = (Relay.values n h
     ++ if String.eqb (Relay.lower a) (Relay.lower n) then [v] else [])%list.
Proof.
  unfold Relay.Headers_append. rewrite values_app. f_equal.
  rewrite values_cons, values_nil, same_name_eqb. cbn [fst snd].
  destruct (find (Relay.same_name a) h) as [p |] eqn:F; [| reflexivity].
  apply find_some in F. destruct F as [_ F]. rewrite same_name_eqb in F.
  apply String.eqb_eq in F. now rewrite F.
Qed.

Lemma values_fill (n : string) (init h : list (string * string)) :
  Relay.values n (Relay.fill init h)
  = (Relay.values n h ++ Relay.values n init)%list.
Proof.
  unfold Relay.fill. revert h.
  induction init as [| [a v] init IH]; intros h; simpl.
  - now rewrite values_nil, app_nil_r.
  - rewrite IH, values_append, values_cons, same_name_eqb. cbn [fst snd].
    rewrite <- app_assoc.
    now destruct (String.eqb (Relay.lower a) (Relay.lower n)).
Qed.

Lemma values_without (n m : string) (h : list (string * string)) :
  Relay.values n (filter (fun q => negb (Relay.same_name m q)) h)
  = if String.eqb (Relay.lower n) (Relay.lower m) then []
    else Relay.values n h.
Proof.
  induction h as [| p h IH]; simpl.
  - now destruct (String.eqb _ _).
  - rewrite values_cons, !same_name_eqb.
    destruct (String.eqb_spec (Relay.lower (fst p)) (Relay.lower m))
      as [Em | Em]; simpl.
    + rewrite IH.
      destruct (String.eqb_spec (Relay.lower n) (Relay.lower m)) as [En | En];
        [reflexivity |].
      destruct (String.eqb_spec (Relay.lower (fst p)) (Relay.lower n));
        [congruence | reflexivity].
    + rewrite values_cons, same_name_eqb, IH.
      destruct (String.eqb_spec (Relay.lower n) (Relay.lower m)) as [En | En];
        [| reflexivity].
      destruct (String.eqb_spec (Relay.lower (fst p)) (Relay.lower n));
        [congruence | reflexivity].
Qed.

(** [set] leaves one value under the name and touches no other name. *)
Lemma values_set (n m v : string) (h : list (string * string)) :
  Relay.values n (Relay.Headers_set m v h)
  = if String.eqb (Relay.lower n) (Relay.lower m) then [v]
    else Relay.values n h.
Proof.
  induction h as [| p h IH]; simpl.
  - rewrite values_cons, values_nil, same_name_eqb. cbn [fst snd].
    rewrite String.eqb_sym. now destruct (String.eqb _ _).
  - rewrite same_name_eqb.
    destruct (String.eqb_spec (Relay.lower (fst p)) (Relay.lower m))
      as [Em | Em].
    + rewrite !values_cons, !same_name_eqb, values_without. cbn [fst snd].
      destruct (String.eqb_spec (Relay.lower n) (Relay.lower m)) as [En | En].
      * rewrite Em, <- En. now rewrite String.eqb_refl.
      * destruct (String.eqb_spec (Relay.lower (fst p)) (Relay.lower n));
          [congruence | reflexivity].
    + rewrite !values_cons, IH, same_name_eqb.
      destruct (String.eqb_spec (Relay.lower n) (Relay.lower m)) as [En | En];
        [| reflexivity].
      destruct (String.eqb_spec (Relay.lower (fst p)) (Relay.lower n));
        [congruence | reflexivity].
Qed.

(** The sorted names: those of the list in lower case, each once. *)
Lemma add_name_In (names : list string) (n x : string) :
  In x (Relay.add_name names n) <-> In x names \/ x = n.
Proof.
  unfold Relay.add_name.
  destruct (existsb (String.eqb n) names) eqn:E.
  - apply existsb_exists in E. destruct E as (y & I & E).
    apply String.eqb_eq in E. subst y. intuition congruence.
  - rewrite in_app_iff. simpl. intuition.
Qed.

Lemma add_name_NoDup (names : list string) (n : string) :
  NoDup names -> NoDup (Relay.add_name names n).
Proof.
  unfold Relay.add_name. intros N.
  destruct (existsb (String.eqb n) names) eqn:E; [exact N |].
  apply NoDup_app; [exact N | repeat constructor; simpl; tauto |].
  intros x I [<- | []].
  assert (T : existsb (String.eqb n) names = true).
  { apply existsb_exists. exists n. split; [exact I |].
    apply String.eqb_refl. }
  congruence.
Qed.

Lemma add_names_spec (l names : list string) :
  NoDup names ->
  NoDup (fold_left Relay.add_name l names)
  /\ forall x, In x (fold_left Relay.add_name l names) <-> In x names \/ In x l.
Proof.
  revert names. induction l as [| n l IH]; intros names N; simpl.
  - split; [exact N | intuition].
  - destruct (IH _ (add_name_NoDup names n N)) as [D I].
    split; [exact D |]. intros x. rewrite I, add_name_In. intuition.
Qed.

Lemma insert_name_In (n x : string) (names : list string) :
  In x (Relay.insert_name n names) <-> x = n \/ In x names.
Proof.
  induction names as [| m names IH]; simpl; [intuition |].
  destruct (String.ltb n m); simpl; [intuition |].
  rewrite IH. intuition.
Qed.

Lemma insert_name_NoDup (n : string) (names : list string) :
  NoDup names -> ~ In n names -> NoDup (Relay.insert_name n names).
Proof.
  induction names as [| m names IH]; simpl; intros D N.
  - repeat constructor. simpl. tauto.
  - destruct (String.ltb n m).
    + constructor; [simpl; tauto | exact D].
    + apply NoDup_cons_iff in D. destruct D as [M D].
      constructor.
      * rewrite insert_name_In. intros [-> | I]; tauto.
      * apply IH; tauto.
Qed.

Lemma sort_names_spec (l : list string) :
  NoDup l ->
  NoDup (fold_right Relay.insert_name [] l)
  /\ forall x, In x (fold_right Relay.insert_name [] l) <-> In x l.
Proof.
  induction l as [| n l IH]; simpl; intros D.
  - split; [constructor | tauto].
  - apply NoDup_cons_iff in D. destruct D as [N D].
    destruct (IH D) as [D' I]. split.
    + apply insert_name_NoDup; [exact D' | now rewrite I].
    + intros x. rewrite insert_name_In, I. intuition.
Qed.

Lemma sorted_names_spec (h : list (string * string)) :
  NoDup (Relay.sorted_names h)
  /\ forall x, In x (Relay.sorted_names h)
               <-> In x (map (fun p => Relay.lower (fst p)) h).
Proof.
  unfold Relay.sorted_names.
  destruct (add_names_spec (map (fun p => Relay.lower (fst p)) h) []
              (NoDup_nil _)) as [D I].
  destruct (sort_names_spec _ D) as [D' I'].
  split; [exact D' |]. intros x. rewrite I', I. simpl. tauto.
Qed.

Lemma values_renamed (n m : string) (l : list (string * string)) :
  Relay.values n (map (fun p => (m, snd p)) l)
  = if String.eqb (Relay.lower m) (Relay.lower n) then map snd l else [].
Proof.
  induction l as [| p l IH]; simpl.
  - now destruct (String.eqb _ _).
  - rewrite values_cons, same_name_eqb, IH. cbn [fst snd].
    now destruct (String.eqb _ _).
Qed.

Lemma values_entries (n : string) (h : list (string * string)) :
  Relay.values n (Relay.entries h) = combined n h.
Proof.
  destruct (sorted_names_spec h) as [D I].
  unfold Relay.entries.
  set (g := fun name : string =>
              if String.eqb name "set-cookie" then
                map (fun p => (name, snd p)) (filter (Relay.same_name name) h)
              else
                match Relay.Headers_get name h with
                | Some value => [(name, value)]
                | None => []
                end).
  assert (G : forall m, Relay.lower m = m ->
             Relay.values n (g m)
             = if String.eqb m (Relay.lower n) then combined n h else []).
  { intros m Lm. unfold g, combined.
    destruct (String.eqb_spec m (Relay.lower n)) as [-> | Ne].
    - destruct (String.eqb (Relay.lower n) "set-cookie").
      + rewrite values_renamed, lower_idem, String.eqb_refl.
        apply values_lower.
      + unfold Relay.Headers_get. rewrite values_lower.
        destruct (Relay.values n h) as [| v vs]; [reflexivity |].
        rewrite values_cons, same_name_eqb, values_nil. cbn [fst snd].
        now rewrite lower_idem, String.eqb_refl.
    - assert (F : String.eqb (Relay.lower m) (Relay.lower n) = false).
      { apply String.eqb_neq. congruence. }
      destruct (String.eqb m "set-cookie").
      + now rewrite values_renamed, F.
      + destruct (Relay.Headers_get m h); [| reflexivity].
        rewrite values_cons, same_name_eqb, values_nil. cbn [fst snd].
        now rewrite F. }
  assert (A : forall names,
             NoDup names -> (forall m, In m names -> Relay.lower m = m) ->
             Relay.values n (flat_map g names)
             = if existsb (String.eqb (Relay.lower n)) names
               then combined n h else []).
  { induction names as [| m names IH]; intros Dn Ln; [reflexivity |].
    apply NoDup_cons_iff in Dn. destruct Dn as [Nm Dn]. simpl.
    assert (Ln' : forall m', In m' names -> Relay.lower m' = m').
    { intros m' Im. apply Ln. now right. }
    rewrite values_app, (G m (Ln m (or_introl eq_refl))), (IH Dn Ln').
    rewrite (String.eqb_sym (Relay.lower n) m).
    destruct (String.eqb_spec m (Relay.lower n)) as [-> | Ne]; simpl;
      [| reflexivity].
    destruct (existsb (String.eqb (Relay.lower n)) names) eqn:E;
      [| apply app_nil_r].
    apply existsb_exists in E. destruct E as (y & Iy & E).
    apply String.eqb_eq in E. subst y. contradiction. }
  rewrite A; [| exact D |].
  - destruct (existsb (String.eqb (Relay.lower n)) (Relay.sorted_names h))
      eqn:E; [reflexivity |].
    assert (V : Relay.values n h = []).
    { apply values_absent. rewrite <- I. intros In'.
      assert (T : existsb (String.eqb (Relay.lower n)) (Relay.sorted_names h)
                  = true).
      { apply existsb_exists. exists (Relay.lower n).
        split; [exact In' | apply String.eqb_refl]. }
      congruence. }
    unfold combined. rewrite V. now destruct (String.eqb _ _).
  - intros m Im. apply I in Im. apply in_map_iff in Im.
    destruct Im as (p & <- & _). apply lower_idem.
Qed.

(** Reading a name gives the same from the entries as from the list. *)
Lemma get_entries (n : string) (h : list (string * string)) :
  Relay.Headers_get n (Relay.entries h) = Relay.Headers_get n h.
Proof.
  unfold Relay.Headers_get. rewrite values_entries. unfold combined.
  destruct (String.eqb (Relay.lower n) "set-cookie"); [reflexivity |].
  now destruct (Relay.values n h).
Qed.

Lemma get_new (n : string) (h : list (string * string)) :
  Relay.Headers_get n (Relay.fill (Relay.entries h) [])
  = Relay.Headers_get n h.
Proof.
  rewrite <- (get_entries n h). unfold Relay.Headers_get.
  now rewrite values_fill, values_nil.
Qed.

(** X15: on every answer the second version forwards, each of
    [content-type], [access-control-allow-origin],
    [access-control-allow-methods] and [cache-control] is shown once, with
    the relay's value, whatever the response fetched had under that name in
    whatever case of letters, and is read under any spelling of the name;
    reading any other name gives what the response fetched gives. *)
Theorem relay_headers_fixed (h : list (string * string)) :
  (forall n v, In (n, v) fixed_headers ->
     forall spelled, Relay.lower spelled = n ->
       Relay.values spelled (Relay.entries (forwarded_headers h)) = [v]
       /\ Relay.Headers_get spelled (forwarded_headers h) = Some v)
  /\ (forall n, ~ In (Relay.lower n) (map fst fixed_headers) ->
        Relay.Headers_get n (forwarded_headers h) = Relay.Headers_get n h).
Proof.
  unfold forwarded_headers. split.
  - intros n v I spelled L.
    assert (V : Relay.values spelled
                  (Relay.fill (Relay.entries (Relay.relay_headers h)) [])
                = [v]).
    { rewrite values_fill, values_nil, values_entries. cbn [app].
      unfold combined, Relay.relay_headers.
      rewrite !values_set, L.
      simpl in I.
      destruct I as [I | [I | [I | [I | []]]]]; injection I as <- <-;
        reflexivity. }
    split; [| unfold Relay.Headers_get; now rewrite V].
    rewrite values_entries. unfold combined. rewrite V, L.
    simpl in I.
    destruct I as [I | [I | [I | [I | []]]]]; injection I as <- <-;
      reflexivity.
  - intros n N. rewrite get_new. unfold Relay.Headers_get, Relay.relay_headers.
    rewrite !values_set.
    assert (D : forall m, In (Relay.lower m) (map fst fixed_headers) ->
               String.eqb (Relay.lower n) (Relay.lower m) = false).
    { intros m I. apply String.eqb_neq. congruence. }
    rewrite !D by (simpl; tauto).
    change (Relay.Headers_get n (Relay.Headers_new h) = Relay.Headers_get n h).
    apply get_new.
Qed.

End Headers.

(** ** The edge relay: answers *)

Section RelayRest.
Context {R : Runtime}.

(** The header list of the answer the first version forwards. *)
Lemma fetch1_continuation (request : Relay.Request) (fetched : string)
  (k : completion Relay.Response -> Relay.Response) :
  Relay.fetch1 request = Relay.awaits_fetch fetched k ->
  (forall r,
      k (Normal r)
      = Relay.mkResponse (Some (Relay.text r)) 200 ""
          [("Content-Type", "application/json");
           ("Access-Control-Allow-Origin", "*");
           ("Access-Control-Allow-Methods", "GET");
           ("Cache-Control", "public, max-age=300")])
  /\ forall e, k (Throw e) = Relay.proxy_error e.
Proof.
  unfold Relay.fetch1.
  destruct (URL_parse (Relay.url request)) as [u | e]; [| discriminate].
  destruct (Relay.searchParams_get "url" (searchParams u)) as [target |];
    [| discriminate].
  destruct (String.eqb target ""); [discriminate |].
  destruct (URL_parse target) as [t | e]; [| discriminate].
  destruct (negb _); [discriminate |].
  intros H. injection H as _ <-. split; reflexivity.
Qed.

Lemma fetch2_continuation (request : Relay.Request) (env : Relay.Env)
  (fetched : string) (k : completion Relay.Response -> Relay.Response) :
  Relay.fetch2 request env = Relay.awaits_fetch fetched k ->
  (forall r,
      k (Normal r)
      = match
          Relay.Response_new (Relay.body r) None (Relay.status r)
            (Relay.statusText r)
            (Relay.entries (Relay.relay_headers (Relay.headers r)))
        with
        | Normal answer => answer
        | Throw e => Relay.proxy_error e
        end)
  /\ forall e, k (Throw e) = Relay.proxy_error e.
Proof.
  unfold Relay.fetch2.
  destruct (URL_parse (Relay.url request)) as [u | e]; [| discriminate].
  destruct (Relay.searchParams_get "url" (searchParams u)) as [target |];
    [| discriminate].
  destruct (String.eqb target ""); [discriminate |].
  destruct (URL_parse target) as [t | e]; [| discriminate].
  destruct (negb _); [discriminate |].
  intros H. injection H as _ <-. split; reflexivity.
Qed.

(** The answers the relay makes of a text are what the constructor gives. *)
Lemma Response_text_new (text : string) (status : Z) :
  (200 <= status <= 599)%Z -> Relay.null_body_status status = false ->
  Relay.Response_new (Some text) (Some Relay.text_plain) status "" []
  = Normal (Relay.Response_text text status).
Proof.
  intros S N. unfold Relay.Response_new.
  destruct (Z.leb_spec 200 status); [| lia].
  destruct (Z.leb_spec status 599); [| lia].
  simpl. now rewrite N.
Qed.

(** X14: what a forwarded request is answered with.  The first version
    answers 200 with the text of the body fetched, whatever status came
    with it, under its four headers and none of those fetched.  The second
    passes on the status, the status text and the body with the headers of
    [responseHeaders] when the [Response] constructor takes them: a status
    from 200 to 599, a well-formed status text, no body on a status
    without body.  For a status outside 200..599 the constructor throws
    inside the [try], and the answer is the 500 of the [catch], as it is in
    both versions for a fetch that fails: ['Proxy error: '] and the
    message, as plain text. *)
Theorem relay_forwarded_answer (request : Relay.Request) (env : Relay.Env) :
  (forall fetched k,
      Relay.fetch1 request = Relay.awaits_fetch fetched k ->
      (forall r,
          Relay.status (k (Normal r)) = 200%Z
          /\ Relay.body (k (Normal r)) = Some (Relay.text r)
          /\ Relay.entries (Relay.headers (k (Normal r))) = fixed_headers)
      /\ forall e,
          k (Throw e)
          = Relay.Response_text ("Proxy error: " ++ message e) 500)
  /\ (forall fetched k,
         Relay.fetch2 request env = Relay.awaits_fetch fetched k ->
         (forall r,
             (200 <= Relay.status r <= 599)%Z ->
             Relay.reason_phrase (Relay.statusText r) = true ->
             Relay.body r = None
             \/ Relay.null_body_status (Relay.status r) = false ->
             k (Normal r)
             = Relay.mkResponse (Relay.body r) (Relay.status r)
                 (Relay.statusText r) (forwarded_headers (Relay.headers r)))
         /\ (forall r,
                ~ (200 <= Relay.status r <= 599)%Z ->
                k (Normal r)
                = Relay.Response_text
                    ("Proxy error: " ++ message (RangeError "status")) 500)
         /\ forall e,
             k (Throw e)
             = Relay.Response_text ("Proxy error: " ++ message e) 500).
Proof.
  split; intros fetched k H.
  - apply fetch1_continuation in H. destruct H as [H1 H2].
    split; [| exact H2]. intros r. rewrite H1. repeat split.
  - apply fetch2_continuation in H. destruct H as [H1 H2].
    split; [| split; [| exact H2]].
    + intros r S P B. rewrite H1. unfold Relay.Response_new, forwarded_headers.
      destruct (Z.leb_spec 200 (Relay.status r)); [| lia].
      destruct (Z.leb_spec (Relay.status r) 599); [| lia].
      rewrite P. cbn [andb negb].
      destruct (Relay.body r) as [b |]; [| reflexivity].
      destruct B as [B | B]; [discriminate B |]. now rewrite B.
    + intros r S. rewrite H1. unfold Relay.Response_new.
      destruct (Z.leb_spec 200 (Relay.status r));
        destruct (Z.leb_spec (Relay.status r) 599); try reflexivity.
      lia.
Qed.

(** X16: once the request's own URL parses, the second version never lets
    an exception escape: it answers on its own with status 400 or 403, or
    it awaits a fetch and answers 500 if that fails.  The answers it makes
    on its own, and the 500, have the content type of plain text as their
    only header, so none that allows cross-origin access; an empty [url]
    parameter counts as a missing one. *)
Theorem fetch2_never_throws (request : Relay.Request) (env : Relay.Env)
  (u : URL) :
  URL_parse (Relay.url request) = Normal u ->
  match Relay.fetch2 request env with
  | Relay.returns r =>
      (Relay.status r = 400%Z \/ Relay.status r = 403%Z)
      /\ Relay.entries (Relay.headers r)
         = [("content-type", "text/plain;charset=UTF-8")]
      /\ Relay.Headers_get "Access-Control-Allow-Origin" (Relay.headers r)
         = None
  | Relay.awaits_fetch _ k =>
      forall e,
        Relay.status (k (Throw e)) = 500%Z
        /\ Relay.entries (Relay.headers (k (Throw e)))
           = [("content-type", "text/plain;charset=UTF-8")]
        /\ Relay.Headers_get "Access-Control-Allow-Origin"
             (Relay.headers (k (Throw e))) = None
  | Relay.uncaught _ => False
  end
  /\ (Relay.searchParams_get "url" (searchParams u) = Some "" ->
      Relay.fetch2 request env
      = Relay.returns (Relay.Response_text "Missing url parameter" 400)).
Proof.
  intros U. unfold Relay.fetch2. rewrite U. split.
  - destruct (Relay.searchParams_get "url" (searchParams u)) as [target |];
      [| repeat split; auto].
    destruct (String.eqb target ""); [repeat split; auto |].
    destruct (URL_parse target) as [t | e]; [| repeat split; auto].
    destruct (negb _); repeat split; auto.
  - now intros ->.
Qed.

(** X17: the first version lets an exception escape exactly when a URL
    does not parse: the request's own, or the one in a non-empty [url]
    parameter, which the second version answers with status 400 and
    ['Invalid target URL format'] as plain text. *)
Theorem fetch1_throws_on_bad_target (request : Relay.Request) (e : exn) :
  (Relay.fetch1 request = Relay.uncaught e <->
   URL_parse (Relay.url request) = Throw e
   \/ exists u target,
       URL_parse (Relay.url request) = Normal u
       /\ Relay.searchParams_get "url" (searchParams u) = Some target
       /\ target <> ""
       /\ URL_parse target = Throw e)
  /\ forall env u target,
      URL_parse (Relay.url request) = Normal u ->
      Relay.searchParams_get "url" (searchParams u) = Some target ->
      target <> "" ->
      URL_parse target = Throw e ->
      Relay.fetch2 request env
      = Relay.returns
          (Relay.mkResponse (Some "Invalid target URL format") 400 ""
             [("Content-Type", "text/plain;charset=UTF-8")]).
Proof.
  split.
  - unfold Relay.fetch1. split.
    + destruct (URL_parse (Relay.url request)) as [u | e'] eqn:U.
      * destruct (Relay.searchParams_get "url" (searchParams u))
          as [target |] eqn:G; [| discriminate].
        destruct (String.eqb_spec target ""); [discriminate |].
        destruct (URL_parse target) as [t | e''] eqn:T.
        -- destruct (negb _); discriminate.
        -- intros H. injection H as <-. right. exists u, target. auto.
      * intros H. injection H as <-. now left.
    + intros [U | (u & target & U & G & N & T)].
      * now rewrite U.
      * rewrite U, G, (not_empty _ N), T. reflexivity.
  - intros env u target U G N T. unfold Relay.fetch2.
    now rewrite U, G, (not_empty _ N), T.
Qed.

(** X18: without a usable key the two versions take the same decision:
    what one answers on its own the other answers too, except where the
    first throws, and a request one forwards the other forwards to the same
    URL. *)
Theorem relay_versions_agree (request : Relay.Request) (env : Relay.Env) :
  Relay.OPENMETEO_API_KEY env = None
  \/ Relay.OPENMETEO_API_KEY env = Some "" ->
  (forall r, Relay.fetch1 request = Relay.returns r ->
     Relay.fetch2 request env = Relay.returns r)
  /\ (forall fetched,
         (exists k, Relay.fetch1 request = Relay.awaits_fetch fetched k)
         <-> (exists k, Relay.fetch2 request env
                        = Relay.awaits_fetch fetched k)).
Proof.
  intros K.
  assert (J : forall target t, Relay.inject_key env target t = target).
  { intros target t. unfold Relay.inject_key.
    destruct K as [-> | ->]; now destruct (String.eqb (hostname t) _). }
  unfold Relay.fetch1, Relay.fetch2.
  destruct (URL_parse (Relay.url request)) as [u | e].
  2: { split; [discriminate |]. intros f; split; intros [k H]; discriminate. }
  destruct (Relay.searchParams_get "url" (searchParams u)) as [target |].
  2: { split; [auto |]. intros f; split; intros [k H]; discriminate. }
  destruct (String.eqb target "").
  { split; [auto |]. intros f; split; intros [k H]; discriminate. }
  destruct (URL_parse target) as [t | e].
  2: { split; [discriminate |]. intros f; split; intros [k H]; discriminate. }
  destruct (negb _).
  { split; [auto |]. intros f; split; intros [k H]; discriminate. }
  rewrite J. split; [discriminate |].
  intros f; split; intros [k H]; injection H as <- _; eauto.
Qed.

End RelayRest.

(** ** The proxy mode and the relay together *)

Section Proxy.
Context {R : Runtime} {E : Encoder}.

Lemma after_calls_snoc (calls : list (value * value)) (call : value * value)
  (c : Config) :
  after_calls (calls ++ [call]) c
  = setProxyMode (fst call) (snd call) (after_calls calls c).
Proof. unfold after_calls. now rewrite fold_left_app. Qed.

(** X19: whatever calls of [setProxyMode] are made, the proxy URL stays
    usable: it is the last truthy [proxyUrl] that was passed, or the one
    configured before if there was none, so a URL that is truthy at the
    start is truthy ever after; and the mode is the [useProxy] of the last
    call. *)
Theorem setProxyMode_keeps_url (calls : list (value * value)) (c : Config) :
  PROXY_URL (after_calls calls c)
  = match find (fun call => truthy (snd call)) (rev calls) with
    | Some call => snd call
    | None => PROXY_URL c
    end
  /\ (truthy (PROXY_URL c) = true ->
      truthy (PROXY_URL (after_calls calls c)) = true)
  /\ USE_PROXY (after_calls calls c)
     = match rev calls with
       | call :: _ => fst call
       | [] => USE_PROXY c
       end.
Proof.
  induction calls as [| call calls IH] using rev_ind.
  - repeat split; auto.
  - destruct IH as (IH1 & IH2 & IH3).
    rewrite after_calls_snoc, rev_app_distr. simpl.
    destruct (truthy (snd call)) eqn:T; simpl.
    + repeat split; auto.
    + rewrite IH1. repeat split; auto. intros H. rewrite <- IH1. auto.
Qed.

(** X20: a request opened in proxy mode reaches its API through either
    version of the relay.  With the proxy URL a string, and a runtime that
    reads back from the proxied URL the [url] parameter that
    [encodeURIComponent] wrote into it, a non-empty [apiUrl] with an
    allow-listed hostname is what the first version fetches, and what the
    second fetches after the key injection. *)
Theorem proxied_request_forwarded (c : Config) (base apiUrl : string)
  (u t : URL) (env : Relay.Env) :
  truthy (USE_PROXY c) = true ->
  PROXY_URL c = VStr base ->
  URL_parse (base ++ "?url=" ++ encodeURIComponent apiUrl) = Normal u ->
  Relay.searchParams_get "url" (searchParams u) = Some apiUrl ->
  apiUrl <> "" ->
  URL_parse apiUrl = Normal t ->
  In (hostname t) Relay.allowedDomains ->
  exists opened,
    request_url c apiUrl = Normal opened
    /\ (exists k, Relay.fetch1 (Relay.mkRequest opened)
                  = Relay.awaits_fetch apiUrl k)
    /\ (exists k, Relay.fetch2 (Relay.mkRequest opened) env
                  = Relay.awaits_fetch (Relay.inject_key env apiUrl t) k).
Proof.
  intros P B U G N T A.
  exists (base ++ "?url=" ++ encodeURIComponent apiUrl).
  split.
  - unfold request_url. now rewrite P, B.
  - apply includes_In in A. unfold Relay.fetch1, Relay.fetch2.
    cbn [Relay.url]. rewrite U, G, (not_empty _ N), T, A.
    cbn [negb]. eauto.
Qed.

(** Without the proxy a request is opened with the API URL itself, and the
    proxy URL is not read. *)
Lemma request_url_direct (c : Config) (apiUrl : string) :
  truthy (USE_PROXY c) = false -> request_url c apiUrl = Normal apiUrl.
Proof. unfold request_url. now intros ->. Qed.

End Proxy.


(** ** The further properties on sample inputs *)

(** X4 on the sample response: the humidity is the 55 that was sent, and
    the icon is that of the weather code handed on. *)
Lemma fetchWeather_record_consistent_witness :
  exists p,
    weather_onload (R := reference) 200 Sample.weather = callback_data p
    /\ Current.humidity (current p) = VNum 55
    /\ getWeatherIcon (R := reference) (Current.weatherCode (current p))
       = Normal (Current.icon (current p)).
Proof.
  destruct (weather_onload (R := reference) 200 Sample.weather)
    as [err | p] eqn:O; [vm_compute in O; discriminate O |].
  exists p. split; [reflexivity |].
  destruct (fetchWeather_record_consistent (R := reference) 200
              Sample.weather p O) as (data & P & H & _ & I & _).
  split; [| exact I].
  vm_compute in P. injection P as <-. vm_compute in H. injection H as H.
  symmetry. exact H.
Defined.

(** X5 on the refusal of the forecast API: the reason is the error. *)
Lemma fetchWeather_api_error_witness :
  weather_onload (R := reference) 200 Sample2.weather_refused
  = callback_error
      (VStr "Latitude must be in range of -90 to 90. Given: 100.0.").
Proof.
  exact (fetchWeather_api_error (R := reference) Sample2.weather_refused
           (VObj
              [("error", VPrim (PBool true));
               ("reason",
                VStr "Latitude must be in range of -90 to 90. Given: 100.0.")])
           (VPrim (PBool true))
           (VStr "Latitude must be in range of -90 to 90. Given: 100.0.")
           eq_refl eq_refl eq_refl eq_refl).
Defined.

(** X6 on the sample response, which has its [current]. *)
Lemma fetchWeather_data_requires_witness :
  exists p data cur,
    weather_onload (R := reference) 200 Sample.weather = callback_data p
    /\ JSON_parse (Runtime := reference) Sample.weather = Normal data
    /\ get data "current" = Normal cur
    /\ cur <> undefined.
Proof.
  destruct (weather_onload (R := reference) 200 Sample.weather)
    as [err | p] eqn:O; [vm_compute in O; discriminate O |].
  destruct (fetchWeather_data_requires (R := reference) 200 Sample.weather
              p O)
    as (_ & data & error & reason & cur & daily
        & P & _ & _ & _ & _ & C & N & _).
  exists p, data, cur. auto.
Defined.

(** X7 on a page that is not JSON and on an answer without [current]. *)
Lemma fetchWeather_parse_error_witness :
  (exists m, weather_onload (R := reference) 200 "<html>"
             = callback_error (VStr ("Parse error: " ++ m)))
  /\ weather_onload (R := reference) 200 Sample2.weather_partial
     = callback_error
         (VStr "Parse error: Cannot read or call 'temperature_2m'").
Proof.
  split.
  - destruct (JSON_parse (Runtime := reference) "<html>") as [d | ex] eqn:P;
      [vm_compute in P; discriminate P |].
    exists (message (Runtime := reference) ex).
    exact (proj1 (@fetchWeather_parse_error reference) "<html>" ex P).
  - destruct (JSON_parse (Runtime := reference) Sample2.weather_partial)
      as [data | ex] eqn:P; [| vm_compute in P; discriminate P].
    refine (proj2 (@fetchWeather_parse_error reference)
              Sample2.weather_partial data undefined undefined undefined
              P _ eq_refl _ eq_refl _ (or_introl eq_refl));
      vm_compute in P; injection P as <-; reflexivity.
Defined.

(** X8 on the sample response: a callback that fails in rendering it with
    an [Error] is called again with the parse error made of its message;
    with one that throws [null] there is no second call, and a [TypeError]
    leaves the handler. *)
Lemma fetchWeather_callback_throws_witness :
  exists p,
    weather_onload_calling (R := reference) Sample2.failing_render 200
      Sample.weather
    = ([callback_data p; callback_error (VStr "Parse error: render")], None)
    /\ weather_onload_calling (R := reference) Sample2.throwing_null 200
         Sample.weather
       = ([callback_data p], Some (by_engine (TypeError "message"))).
Proof.
  destruct (weather_try (R := reference) Sample.weather) as [a | ex] eqn:T;
    [| vm_compute in T; discriminate T].
  destruct a as [err | p]; [vm_compute in T; discriminate T |].
  exists p. split.
  - destruct (@fetchWeather_callback_throws reference Sample2.failing_render
                200%Z Sample.weather) as (_ & _ & _ & H & M & _).
    destruct (H (callback_data p)
                (by_callback (VObj [("message", VStr "render")]))
                eq_refl T eq_refl) as [H1 _].
    exact (H1 "Parse error: render"
             (M [("message", VStr "render")] "render" eq_refl)).
  - destruct (@fetchWeather_callback_throws reference Sample2.throwing_null
                200%Z Sample.weather) as (_ & _ & _ & H & _ & N & _).
    destruct (H (callback_data p) (by_callback null) eq_refl T eq_refl)
      as [_ H2].
    exact (H2 (TypeError "message") (N null (or_intror eq_refl))).
Defined.

(** X9 on the three sample answers in two orders. *)
Lemma fetchCurrency_order_independent_witness :
  calls (run (R := reference) Sample.no_thresholds Sample.all_answer)
  = calls (run (R := reference) Sample.no_thresholds
             Sample2.all_answer_reordered)
  /\ exists cb,
      calls (run (R := reference) Sample.no_thresholds Sample.all_answer)
      = [cb].
Proof.
  apply (fetchCurrency_order_independent (R := reference)).
  - repeat constructor; simpl; intuition discriminate.
  - repeat constructor; simpl; intuition discriminate.
  - reflexivity.
  - reflexivity.
  - intros e. simpl. tauto.
Defined.

(** X10 on an OXR answer without [EUR]: the status is empty. *)
Lemma fetchCurrency_unreadable_rate_witness :
  exists cb,
    calls (run (R := reference) Sample.no_thresholds Sample2.oxr_without_rate)
    = [cb]
    /\ Currency.status (cb_data cb) = "".
Proof.
  exists (callback_for (R := reference) Sample.no_thresholds
            (outcomes (R := reference) Sample2.oxr_without_rate)).
  split; [vm_compute; reflexivity |].
  apply (fetchCurrency_unreadable_rate (R := reference) Sample.no_thresholds
           Sample2.oxr_without_rate).
  - vm_compute. left. reflexivity.
  - vm_compute. reflexivity.
Defined.

(** X11 on the sample ECB answer. *)
Lemma ecb_alt_entry_requires_number_witness :
  exists e usd,
    ecb_outcome (R := reference) (Some (onload xhr2 200 Sample.ecb)) = Some e
    /\ EcbEntry.rate e = toFixed (Runtime := reference) usd 5
    /\ EcbEntry.rate e = "1.08340".
Proof.
  destruct (ecb_outcome (R := reference) (Some (onload xhr2 200 Sample.ecb)))
    as [e |] eqn:O; [| vm_compute in O; discriminate O].
  destruct (proj1 (ecb_alt_entry_requires_number (R := reference) xhr2 200
                     Sample.ecb) e O)
    as (_ & data & rates & usd & _ & _ & _ & F & _).
  exists e, usd. split; [reflexivity |]. split; [exact F |].
  vm_compute in O. now injection O as <-.
Defined.

(** X12 on an OXR answer without [EUR]: the rate shown is ['NaN'] from
    OXR, with an empty status, though ECB sent 1.0834. *)
Lemma oxr_entry_without_rate_witness :
  exists cb,
    calls (run (R := reference) Sample.no_thresholds Sample2.oxr_without_rate)
    = [cb]
    /\ Currency.source (cb_data cb) = "OXR"
    /\ Currency.rate (cb_data cb) = "NaN"
    /\ Currency.status (cb_data cb) = "".
Proof.
  assert (W : well_formed Sample2.oxr_without_rate)
    by (repeat constructor; simpl; intuition discriminate).
  destruct (JSON_parse (Runtime := reference) Sample2.oxr_no_rate)
    as [data | ex] eqn:P; [| vm_compute in P; discriminate P].
  assert (D : data
              = VObj [("timestamp", VNum 1711497601); ("base", VStr "USD");
                      ("rates", VObj [("GBP", VNum 0.79)])])
    by (vm_compute in P; injection P as <-; reflexivity).
  assert (Hr : get data "rates" = Normal (VObj [("GBP", VNum 0.79)]))
    by (rewrite D; reflexivity).
  assert (Ht : get data "timestamp" = Normal (VPrim (PNum 1711497601)))
    by (rewrite D; reflexivity).
  destruct (oxr_entry_without_rate (R := reference) Sample.no_thresholds
              Sample2.oxr_without_rate Sample2.oxr_no_rate data
              (VObj [("GBP", VNum 0.79)]) (PNum 1711497601)
              W eq_refl (or_introl eq_refl) P Hr eq_refl Ht)
    as (cb & C & S & Rt & N).
  exists cb. split; [exact C |]. split; [exact S |].
  split; [exact Rt | apply N; vm_compute; reflexivity].
Defined.

(** X13 on an Alt answer with a date the runtime reads. *)
Lemma alt_dateTime_guarded_witness :
  exists a,
    alt_try (R := reference) Sample2.alt_dated = Normal a
    /\ (AltEntry.dateTime a = PNull
        \/ exists time,
            PrimFloat.is_nan time = false
            /\ AltEntry.dateTime a
               = PStr (dateTime_text (R := reference) time)).
Proof.
  destruct (alt_try (R := reference) Sample2.alt_dated) as [a | ex] eqn:T;
    [| vm_compute in T; discriminate T].
  exists a. split; [reflexivity |].
  destruct (alt_dateTime_guarded (R := reference) Sample2.alt_dated a T)
    as [N | (data & updated & time & _ & _ & _ & _ & N & D)];
    [now left | right; eauto].
Defined.

(** X14 on the rates request: a 404 fetched is answered with 200 by the
    first version and with 404 by the second; a status of 999 fetched is
    answered with 500 by the second. *)
Lemma relay_forwarded_answer_witness :
  exists k1 k2,
    Relay.fetch1 (R := reference) Sample.rates_request
    = Relay.awaits_fetch Sample.rates_target k1
    /\ Relay.fetch2 (R := reference) Sample.rates_request Sample.with_key
       = Relay.awaits_fetch Sample.rates_target k2
    /\ Relay.status (k1 (Normal Sample2.upstream_404)) = 200%Z
    /\ Relay.status (k2 (Normal Sample2.upstream_404)) = 404%Z
    /\ Relay.status (k2 (Normal Sample2.upstream_999)) = 500%Z.
Proof.
  destruct (awaited_Some (Relay.fetch1 (R := reference) Sample.rates_request)
              Sample.rates_target) as [k1 E1]; [vm_compute; reflexivity |].
  destruct (awaited_Some
              (Relay.fetch2 (R := reference) Sample.rates_request
                 Sample.with_key) Sample.rates_target)
    as [k2 E2]; [vm_compute; reflexivity |].
  exists k1, k2. split; [exact E1 |]. split; [exact E2 |].
  destruct (relay_forwarded_answer (R := reference) Sample.rates_request
              Sample.with_key) as [V1 V2].
  destruct (V1 _ _ E1) as [A1 _]. destruct (V2 _ _ E2) as (A2 & B2 & _).
  split; [exact (proj1 (A1 Sample2.upstream_404)) |]. split.
  - rewrite (A2 Sample2.upstream_404); [reflexivity | simpl; lia
                                        | reflexivity | now right].
  - rewrite (B2 Sample2.upstream_999); [reflexivity | simpl; lia].
Defined.

(** X15 on the headers of the 404: the content type fetched gives way to
    the relay's, the cookie and the header of the cache stay. *)
Lemma relay_headers_fixed_witness :
  Relay.Headers_get "Content-Type"
    (forwarded_headers (Relay.headers Sample2.upstream_404))
  = Some "application/json"
  /\ Relay.Headers_get "x-served-by"
       (forwarded_headers (Relay.headers Sample2.upstream_404))
     = Some "cache-1"
  /\ Relay.entries (forwarded_headers (Relay.headers Sample2.upstream_404))
     = [("access-control-allow-methods", "GET");
        ("access-control-allow-origin", "*");
        ("cache-control", "public, max-age=300");
        ("content-type", "application/json");
        ("set-cookie", "a=1");
        ("x-served-by", "cache-1")].
Proof.
  destruct (relay_headers_fixed (Relay.headers Sample2.upstream_404))
    as [F O].
  split; [| split].
  - apply (F "content-type" "application/json"); [simpl; auto 6 |].
    reflexivity.
  - rewrite O; [reflexivity | simpl; intuition discriminate].
  - vm_compute. reflexivity.
Defined.

(** X16 on a request for something that is no URL: status 400, as plain
    text. *)
Lemma fetch2_never_throws_witness :
  exists r,
    Relay.fetch2 (R := reference) Sample2.malformed_request Sample.with_key
    = Relay.returns r
    /\ Relay.status r = 400%Z
    /\ Relay.entries (Relay.headers r)
       = [("content-type", "text/plain;charset=UTF-8")].
Proof.
  destruct (URL_parse (Runtime := reference)
              (Relay.url Sample2.malformed_request)) as [u | ex] eqn:U;
    [| vm_compute in U; discriminate U].
  generalize (proj1 (fetch2_never_throws (R := reference)
                       Sample2.malformed_request Sample.with_key u U)).
  destruct (answered
              (Relay.fetch2 (R := reference) Sample2.malformed_request
                 Sample.with_key)) as [r |] eqn:A;
    [| vm_compute in A; discriminate A].
  assert (B : answered
                (Relay.fetch2 (R := reference) Sample2.malformed_request
                   Sample.with_key)
              = Some (Relay.Response_text "Invalid target URL format" 400))
    by (vm_compute; reflexivity).
  rewrite A in B. injection B as ->.
  apply answered_Some in A. rewrite A. intros (_ & H & _).
  eexists. split; [reflexivity |]. split; [reflexivity | exact H].
Defined.

(** X17 on the same request: the first version throws, the second answers
    400. *)
Lemma fetch1_throws_on_bad_target_witness :
  exists e,
    Relay.fetch1 (R := reference) Sample2.malformed_request = Relay.uncaught e
    /\ Relay.fetch2 (R := reference) Sample2.malformed_request
         Sample.with_key
       = Relay.returns
           (Relay.mkResponse (Some "Invalid target URL format") 400 ""
              [("Content-Type", "text/plain;charset=UTF-8")]).
Proof.
  destruct (URL_parse (Runtime := reference)
              (Relay.url Sample2.malformed_request)) as [u | ex] eqn:U;
    [| vm_compute in U; discriminate U].
  destruct (URL_parse (Runtime := reference) "forecast") as [t | e] eqn:T;
    [vm_compute in T; discriminate T |].
  assert (G : Relay.searchParams_get "url" (searchParams u) = Some "forecast").
  { vm_compute in U. injection U as <-. reflexivity. }
  exists e.
  destruct (fetch1_throws_on_bad_target (R := reference)
              Sample2.malformed_request e) as [F1 F2].
  split.
  - apply F1. right. exists u, "forecast".
    repeat split; [exact U | exact G | discriminate | exact T].
  - apply (F2 Sample.with_key u "forecast" U G); [discriminate | exact T].
Defined.

(** X18 on the rates request, without a key. *)
Lemma relay_versions_agree_witness :
  exists k,
    Relay.fetch2 (R := reference) Sample.rates_request Sample.without_key
    = Relay.awaits_fetch Sample.rates_target k.
Proof.
  apply (proj1 (proj2 (relay_versions_agree (R := reference)
                         Sample.rates_request Sample.without_key
                         (or_introl eq_refl)) Sample.rates_target)).
  apply awaited_Some. vm_compute. reflexivity.
Defined.

(** X20 on the weather request of the dashboard in proxy mode: the first
    version of the relay forwards it to the forecast API. *)
Lemma proxied_request_forwarded_witness :
  exists api opened k,
    weather_apiUrl (R := reference) (VNum 52.52) (VNum 13.42) = Normal api
    /\ request_url (R := reference) (E := reference_encoder) Sample2.legacy
         api = Normal opened
    /\ Relay.fetch1 (R := reference) (Relay.mkRequest opened)
       = Relay.awaits_fetch api k.
Proof.
  destruct (weather_apiUrl (R := reference) (VNum 52.52) (VNum 13.42))
    as [api |] eqn:W; [| vm_compute in W; discriminate W].
  destruct (URL_parse (Runtime := reference)
              ("https://weatherproxy.ldmathes.cc/" ++ "?url="
               ++ encodeURIComponent (Encoder := reference_encoder) api))
    as [u |] eqn:U;
    [| vm_compute in W; injection W as <-; vm_compute in U; discriminate U].
  destruct (URL_parse (Runtime := reference) api) as [t |] eqn:T;
    [| vm_compute in W; injection W as <-; vm_compute in T; discriminate T].
  destruct (proxied_request_forwarded (R := reference)
              (E := reference_encoder) Sample2.legacy
              "https://weatherproxy.ldmathes.cc/" api u t
              Sample.without_key eq_refl eq_refl U)
    as (opened & O & (k & F) & _).
  - vm_compute in W. injection W as <-. vm_compute in U. injection U as <-.
    vm_compute. reflexivity.
  - vm_compute in W. injection W as <-. discriminate.
  - exact T.
  - vm_compute in W. injection W as <-. vm_compute in T. injection T as <-.
    simpl. auto.
  - exists api, opened, k. auto.
Defined.
